(** * Treelite model serialization: a shallow embedding of serializer.cc

    The embedding follows [src/serializer.cc] (the class templates
    [Serializer<MixIn>] and [Deserializer<MixIn>] and the four entry
    points of [Model]) and [task_type.h].  The pass
    [ASTBuilder::CountDescendant] of [compiler/ast/count_descendant.cc]
    and the helpers of the XGBoost frontend ([frontend/xgboost/xgboost.h],
    [xgboost_util.cc]) are embedded as well, each with its properties.

    - Data is kept as the machine has it: a fixed-width integer is a [Z]
      in the range of its type, a floating-point member is its bit
      pattern (serialization only copies it), an array is a list, and a
      field reaches a transport as its object representation, a list of
      bytes.
    - Effects are explicit: a computation takes the state it works on
      (the transport, and the model or tree passed by reference, or the
      warnings logged) and returns its outcome with the state it leaves;
      a fatal log or a failed check is an exception that keeps the
      effects that came before it.
    - The transport is the template parameter [MixIn]: the serializer and
      the deserializer are written, and their properties proved, for any
      instance of the two interfaces.  The buffer-frame and byte-stream
      transports are two instances.
    - What the code takes from headers that are not at hand (the library
      version, the numeric types behind the type tags, the layout of a
      node, [Model::Create], the default tree) is a variable of the
      section that holds the code. *)

From Stdlib Require Import ZArith List String Bool Lia.
From Stdlib Require Import Floats.PrimFloat.
From coqutil Require Import Byte Word.LittleEndianList.
Import ListNotations.
Local Open Scope string_scope.
Local Open Scope list_scope.
Local Open Scope Z_scope.

(** ** Errors and state: a small state-and-exception monad

    A computation returns its outcome together with the state it leaves:
    side effects that happened before an exception stay. *)

Inductive Result (A : Type) : Type :=
| Ok (a : A)
| Fatal (msg : string).
Arguments Ok {A} a.
Arguments Fatal {A} msg.

Definition M (St A : Type) : Type := St -> Result A * St.

Definition ret {St A} (a : A) : M St A := fun s => (Ok a, s).

Definition bind {St A B} (m : M St A) (k : A -> M St B) : M St B :=
  fun s =>
    match m s with
    | (Ok a, s') => k a s'
    | (Fatal msg, s') => (Fatal msg, s')
    end.

(** Modelled from the spec: logging.h, which defines the logging and
    checking macros, is not among the sources.  Section 7: a protocol
    error is fatal and synchronous, it aborts the current operation with
    a descriptive error.  [TREELITE_LOG(FATAL) << msg] throws. *)
Definition fatal {St A} (msg : string) : M St A := fun s => (Fatal msg, s).

Notation "x <- c1 ;; c2" := (bind c1 (fun x => c2))
  (at level 61, c1 at next level, right associativity).
Notation "c1 ;; c2" := (bind c1 (fun _ => c2))
  (at level 61, right associativity).

(** A computation on the transport alone, run inside a larger state whose
    first component is the transport ([mixin_->...] in the source). *)
Definition on_mixin {S X A} (m : M S A) : M (S * X) A :=
  fun '(s, x) => let '(r, s') := m s in (r, (s', x)).

(** Assignment to a member of the object the computation works on. *)
Definition assign {S X} (f : X -> X) : M (S * X) unit :=
  fun '(s, x) => (Ok tt, (s, f x)).

(** Reading the object the computation works on. *)
Definition self {S X} : M (S * X) X := fun '(s, x) => (Ok x, (s, x)).

(** Modelled from the spec: [TREELITE_CHECK_EQ(a, b) << msg] (logging.h)
    is fatal when [a == b] does not hold. *)
Definition CHECK_EQ {St} (a b : Z) (msg : string) : M St unit :=
  if a =? b then ret tt else fatal msg.

(** [for (std::int32_t i = 0; i < n; ++i) body;] *)
Fixpoint repeatM {St} (n : nat) (body : M St unit) : M St unit :=
  match n with
  | O => ret tt
  | S k => body ;; repeatM k body
  end.

(** [for (auto& x : xs) body(x);] : the elements are visited in order and
    updated in place; a throw leaves the elements visited so far (and the
    one being visited) as they are at that point, and the rest untouched. *)
Fixpoint for_each {S X} (body : M (S * X) unit) (xs : list X) (s : S)
  : Result unit * (S * list X) :=
  match xs with
  | [] => (Ok tt, (s, []))
  | x :: rest =>
      match body (s, x) with
      | (Ok _, (s', x')) =>
          let '(r, (s'', rest')) := for_each body rest s' in
          (r, (s'', x' :: rest'))
      | (Fatal msg, (s', x')) => (Fatal msg, (s', x' :: rest))
      end
  end.

(** ** C types and their object representation

    A [CType T] is what the transport templates use of a field type [T]:
    [sizeof(T)], the bytes of a value (as [memcpy] sees them, little
    endian), and the value held by [sizeof(T)] bytes.  [descriptor] is
    the one-member layout descriptor of a scalar. *)

Record CType (T : Type) : Type := {
  sizeof : nat;
  store : T -> list byte;
  load : list byte -> T;
  descriptor : string
}.
Arguments sizeof {T} _.
Arguments store {T} _ _.
Arguments load {T} _ _.
Arguments descriptor {T} _.

Definition to_signed (bits : Z) (u : Z) : Z :=
  if u <? 2 ^ (bits - 1) then u else u - 2 ^ bits.

Definition uint_t (n : nat) (d : string) : CType Z :=
  {| sizeof := n; store := le_split n; load := le_combine; descriptor := d |}.

Definition sint_t (n : nat) (d : string) : CType Z :=
  {| sizeof := n; store := le_split n;
     load := fun bs => to_signed (Z.of_nat n * 8) (le_combine bs);
     descriptor := d |}.

Definition int32_t : CType Z := sint_t 4 "=l".
Definition int8_t : CType Z := sint_t 1 "=b".
Definition uint8_t : CType Z := uint_t 1 "=B".
Definition uint32_t : CType Z := uint_t 4 "=L".
Definition uint64_t : CType Z := uint_t 8 "=Q".
Definition size_t : CType Z := uint_t 8 "=Q".
(** [float] and [double] members are carried as their bit patterns. *)
Definition float_t : CType Z := uint_t 4 "=f".
Definition double_t : CType Z := uint_t 8 "=d".

Definition bool_t : CType bool :=
  {| sizeof := 1;
     store := fun b => [byte.of_Z (Z.b2z b)];
     load := fun bs => negb (le_combine bs =? 0);
     descriptor := "=?" |}.

(** [char name[n]]: exactly [n] bytes, zero filled. *)
Definition char_array_t (n : nat) : CType (list byte) :=
  {| sizeof := n;
     store := fun cs => firstn n (cs ++ repeat Byte.x00 n);
     load := fun bs => firstn n bs;
     descriptor := "s" |}.

(** The values a field of the type can hold. *)
Definition int32_range (v : Z) : Prop := - 2 ^ 31 <= v < 2 ^ 31.
Definition uint8_range (v : Z) : Prop := 0 <= v < 2 ^ 8.
Definition uint32_range (v : Z) : Prop := 0 <= v < 2 ^ 32.
Definition uint64_range (v : Z) : Prop := 0 <= v < 2 ^ 64.

(** Conversions the comparisons of the source perform. *)
Definition to_uint64 (v : Z) : Z := v mod 2 ^ 64.
(** [ContiguousArray<T>::Size()] and [std::vector<T>::size()]. *)
Definition Size {T} (xs : list T) : Z := Z.of_nat (List.length xs).

(** *** Struct layout

    A struct is laid out member by member, each at the next offset that is
    a multiple of its alignment, and padded at the end to a multiple of the
    largest alignment.  A member is given as (alignment, size). *)

Definition pad (n : nat) : list byte := repeat Byte.x00 n.

(** Padding that brings [off] up to a multiple of [a]. *)
Definition align_pad (off a : nat) : nat := ((a - off mod a) mod a)%nat.

Fixpoint offsets (off : nat) (ms : list (nat * nat)) : list nat :=
  match ms with
  | [] => []
  | (a, sz) :: rest =>
      let o := (off + align_pad off a)%nat in
      o :: offsets (o + sz) rest
  end.

Fixpoint end_offset (off : nat) (ms : list (nat * nat)) : nat :=
  match ms with
  | [] => off
  | (a, sz) :: rest => end_offset (off + align_pad off a + sz) rest
  end.

Definition struct_align (ms : list (nat * nat)) : nat :=
  fold_right (fun m acc => Nat.max (fst m) acc) 1%nat ms.

Definition struct_size (ms : list (nat * nat)) : nat :=
  let e := end_offset 0 ms in (e + align_pad e (struct_align ms))%nat.

Definition offset_of (ms : list (nat * nat)) (i : nat) : nat :=
  nth i (offsets 0 ms) 0%nat.

(** The bytes of a struct from the bytes of its members. *)
Fixpoint place (off : nat) (ms : list (nat * list byte)) : list byte :=
  match ms with
  | [] => []
  | (a, bs) :: rest =>
      pad (align_pad off a) ++ bs
        ++ place (off + align_pad off a + List.length bs) rest
  end.

Definition struct_bytes (ms : list (nat * list byte)) : list byte :=
  let body := place 0 ms in
  let al := fold_right (fun m acc => Nat.max (fst m) acc) 1%nat ms in
  body ++ pad (align_pad (List.length body) al).

(** The member of type [ct] found at offset [off]. *)
Definition member {T} (ct : CType T) (off : nat) (bs : list byte) : T :=
  load ct (firstn (sizeof ct) (skipn off bs)).

(** A scalar member is aligned to its size. *)
Definition scalar {T} (ct : CType T) : nat * nat := (sizeof ct, sizeof ct).
Definition put {T} (ct : CType T) (v : T) : nat * list byte :=
  (sizeof ct, store ct v).

(** ** task_type.h *)

Inductive TaskType : Type :=
| kBinaryClf
| kRegressor
| kMultiClf
| kLearningToRank
| kIsolationForest.

(** The enumerators' values; [TaskType] is an [enum class] over
    [std::uint8_t]. *)
Definition TaskType_value (t : TaskType) : Z :=
  match t with
  | kBinaryClf => 0
  | kRegressor => 1
  | kMultiClf => 2
  | kLearningToRank => 3
  | kIsolationForest => 4
  end.

Definition TaskTypeToString (type : TaskType) : string :=
  match type with
  | kBinaryClf => "kBinaryClf"
  | kRegressor => "kRegressor"
  | kMultiClf => "kMultiClf"
  | kLearningToRank => "kLearningToRank"
  | kIsolationForest => "kIsolationForest"
  end.

(** The [return TaskType::kBinaryClf] after the fatal log is never
    reached: the log statement throws. *)
Definition StringToTaskType (str : string) : Result TaskType :=
  if String.eqb str "kBinaryClf" then Ok kBinaryClf
  else if String.eqb str "kRegressor" then Ok kRegressor
  else if String.eqb str "kMultiClf" then Ok kMultiClf
  else if String.eqb str "kLearningToRank" then Ok kLearningToRank
  else if String.eqb str "kIsolationForest" then Ok kIsolationForest
  else Fatal (String.append "Unknown task type: " str).

(** ** The data model

    An enumeration with a fixed underlying type is stored, copied and read
    back as a value of that type, so a field of such a type is its
    [std::uint8_t] value. *)

Definition TaskType_t : CType Z := uint8_t.
Definition TypeInfo_t : CType Z := uint8_t.
(** [enum class TaskTypeV3 : std::uint8_t], with enumerators
    kBinaryClfRegr = 0, kMultiClfGrovePerClass = 1,
    kMultiClfProbDistLeaf = 2, kMultiClfCategLeaf = 3. *)
Definition TaskTypeV3_t : CType Z := uint8_t.

(** [struct TaskParamV3]. *)
Record TaskParamV3 : Type := {
  v3_output_type : Z;       (* enum class OutputType : std::uint8_t *)
  v3_grove_per_class : bool;
  v3_num_class : Z;         (* std::uint32_t *)
  v3_leaf_vector_size : Z   (* std::uint32_t *)
}.

Definition TaskParamV3_members : list (nat * nat) :=
  [scalar uint8_t; scalar bool_t; scalar uint32_t; scalar uint32_t].

Definition TaskParamV3_t : CType TaskParamV3 :=
  let o := offset_of TaskParamV3_members in
  {| sizeof := struct_size TaskParamV3_members;
     store := fun p =>
       struct_bytes [put uint8_t (v3_output_type p);
                     put bool_t (v3_grove_per_class p);
                     put uint32_t (v3_num_class p);
                     put uint32_t (v3_leaf_vector_size p)];
     load := fun bs =>
       {| v3_output_type := member uint8_t (o 0%nat) bs;
          v3_grove_per_class := member bool_t (o 1%nat) bs;
          v3_num_class := member uint32_t (o 2%nat) bs;
          v3_leaf_vector_size := member uint32_t (o 3%nat) bs |};
     descriptor := "" |}.

(** [struct ModelParamV3], for a transform-name buffer of [n] chars. *)
Record ModelParamV3 : Type := {
  v3_pred_transform : list byte;
  v3_sigmoid_alpha : Z;     (* float *)
  v3_ratio_c : Z;           (* float *)
  v3_global_bias : Z        (* float *)
}.

Definition ModelParamV3_members (n : nat) : list (nat * nat) :=
  [(1%nat, n); scalar float_t; scalar float_t; scalar float_t].

Definition ModelParamV3_t (n : nat) : CType ModelParamV3 :=
  let o := offset_of (ModelParamV3_members n) in
  {| sizeof := struct_size (ModelParamV3_members n);
     store := fun p =>
       struct_bytes [(1%nat, store (char_array_t n) (v3_pred_transform p));
                     put float_t (v3_sigmoid_alpha p);
                     put float_t (v3_ratio_c p);
                     put float_t (v3_global_bias p)];
     load := fun bs =>
       {| v3_pred_transform := member (char_array_t n) (o 0%nat) bs;
          v3_sigmoid_alpha := member float_t (o 1%nat) bs;
          v3_ratio_c := member float_t (o 2%nat) bs;
          v3_global_bias := member float_t (o 3%nat) bs |};
     descriptor := "" |}.

(** Modelled from the spec: tree.h, which declares [TaskParam] and
    [ModelParam], is not among the sources.  The records hold the
    task-specific parameters and the model-level prediction-transform
    parameters of section 3, with the members that the layout descriptors
    written by [SerializeHeader] enumerate: [T{=B=?xx=I=I}] is a byte, a
    flag, two padding bytes and two 32-bit unsigned integers;
    [T{<n>s=f=f=f}] is [n] chars and three floats. *)
Record TaskParam : Type := {
  output_type : Z;
  grove_per_class : bool;
  num_class : Z;
  leaf_vector_size : Z
}.

Definition TaskParam_t : CType TaskParam :=
  {| sizeof := 12;
     store := fun p =>
       store uint8_t (output_type p) ++ store bool_t (grove_per_class p)
         ++ pad 2 ++ store uint32_t (num_class p)
         ++ store uint32_t (leaf_vector_size p);
     load := fun bs =>
       {| output_type := member uint8_t 0 bs;
          grove_per_class := member bool_t 1 bs;
          num_class := member uint32_t 4 bs;
          leaf_vector_size := member uint32_t 8 bs |};
     descriptor := "" |}.

Record ModelParam : Type := {
  pred_transform : list byte;
  sigmoid_alpha : Z;
  ratio_c : Z;
  global_bias : Z
}.

Definition ModelParam_t (n : nat) : CType ModelParam :=
  {| sizeof := n + 12;
     store := fun p =>
       store (char_array_t n) (pred_transform p)
         ++ store float_t (sigmoid_alpha p) ++ store float_t (ratio_c p)
         ++ store float_t (global_bias p);
     load := fun bs =>
       {| pred_transform := member (char_array_t n) 0 bs;
          sigmoid_alpha := member float_t n bs;
          ratio_c := member float_t (n + 4) bs;
          global_bias := member float_t (n + 8) bs |};
     descriptor := "" |}.

(** [struct NodeV3<ThresholdType, LeafOutputType>].  [info_] is the union
    of a leaf value and a threshold, kept as its bits. *)
Record NodeV3 : Type := {
  cleft_ : Z;                (* std::int32_t *)
  cright_ : Z;               (* std::int32_t *)
  sindex_ : Z;               (* std::uint32_t *)
  info_ : Z;
  data_count_ : Z;           (* std::uint64_t *)
  sum_hess_ : Z;             (* double *)
  gain_ : Z;                 (* double *)
  split_type_ : Z;           (* SplitFeatureType *)
  cmp_ : Z;                  (* Operator *)
  data_count_present_ : bool;
  sum_hess_present_ : bool;
  gain_present_ : bool;
  categories_list_right_child_ : bool
}.

(** [NodeV3<ThresholdType, LeafOutputType>], laid out as declared.  The
    numeric types come as the map [Numeric_t] from a [TypeInfo] tag to
    the C type it names, and the enumerations [SplitFeatureType] and
    [Operator] as their C types. *)
Definition Info_size (Numeric_t : Z -> CType Z) (th lo : Z) : nat :=
  Nat.max (sizeof (Numeric_t lo)) (sizeof (Numeric_t th)).

Definition NodeV3_members (Numeric_t : Z -> CType Z)
    (SplitFeatureType_t Operator_t : CType Z) (th lo : Z)
  : list (nat * nat) :=
  [scalar int32_t; scalar int32_t; scalar uint32_t;
   (Info_size Numeric_t th lo, Info_size Numeric_t th lo);
   scalar uint64_t; scalar double_t; scalar double_t;
   scalar SplitFeatureType_t; scalar Operator_t;
   scalar bool_t; scalar bool_t; scalar bool_t; scalar bool_t].

Definition NodeV3_t (Numeric_t : Z -> CType Z)
    (SplitFeatureType_t Operator_t : CType Z) (th lo : Z) : CType NodeV3 :=
  let ms := NodeV3_members Numeric_t SplitFeatureType_t Operator_t th lo in
  let o := offset_of ms in
  let Info_t := uint_t (Info_size Numeric_t th lo) "" in
  {| sizeof := struct_size ms;
     store := fun n =>
       struct_bytes
         [put int32_t (cleft_ n); put int32_t (cright_ n);
          put uint32_t (sindex_ n); put Info_t (info_ n);
          put uint64_t (data_count_ n); put double_t (sum_hess_ n);
          put double_t (gain_ n); put SplitFeatureType_t (split_type_ n);
          put Operator_t (cmp_ n); put bool_t (data_count_present_ n);
          put bool_t (sum_hess_present_ n); put bool_t (gain_present_ n);
          put bool_t (categories_list_right_child_ n)];
     load := fun bs =>
       {| cleft_ := member int32_t (o 0%nat) bs;
          cright_ := member int32_t (o 1%nat) bs;
          sindex_ := member uint32_t (o 2%nat) bs;
          info_ := member Info_t (o 3%nat) bs;
          data_count_ := member uint64_t (o 4%nat) bs;
          sum_hess_ := member double_t (o 5%nat) bs;
          gain_ := member double_t (o 6%nat) bs;
          split_type_ := member SplitFeatureType_t (o 7%nat) bs;
          cmp_ := member Operator_t (o 8%nat) bs;
          data_count_present_ := member bool_t (o 9%nat) bs;
          sum_hess_present_ := member bool_t (o 10%nat) bs;
          gain_present_ := member bool_t (o 11%nat) bs;
          categories_list_right_child_ := member bool_t (o 12%nat) bs |};
     descriptor := "" |}.

(** Modelled from the spec: tree.h, which declares the current [Node], is
    not among the sources.  A node of section 3: child indices, the packed
    split index, the value slot, the comparison operator, the
    split-feature-type tag, the three presence flags and the flag saying
    which child the category list belongs to. *)
Record Node : Type := {
  node_cleft : Z;
  node_cright : Z;
  node_sindex : Z;
  node_info : Z;
  node_cmp : Z;
  node_split_type : Z;
  node_data_count_present : bool;
  node_sum_hess_present : bool;
  node_gain_present : bool;
  node_categories_list_right_child : bool
}.

(** Modelled from the spec: tree.h is not among the sources.  The tree
    of section 3, [class Tree<ThresholdType, LeafOutputType>], with the
    members the serializer names and their types as it passes them to the
    transport. *)
Record Tree : Type := {
  num_nodes : Z;                         (* int *)
  has_categorical_split_ : bool;
  nodes_ : list Node;
  leaf_vector_ : list Z;                 (* LeafOutputType *)
  leaf_vector_begin_ : list Z;           (* std::size_t *)
  leaf_vector_end_ : list Z;             (* std::size_t *)
  matching_categories_ : list Z;         (* std::uint32_t *)
  matching_categories_offset_ : list Z;  (* std::size_t *)
  num_opt_field_per_tree_ : Z;           (* std::int32_t *)
  num_opt_field_per_node_ : Z            (* std::int32_t *)
}.

(** Modelled from the spec: the alternative held by [Model::variant_]
    (tree.h), a [ModelPreset] for one pair of numeric types, named by the
    two [TypeInfo] tags, owning the ordered collection of trees. *)
Record ModelPreset : Type := {
  preset_threshold_type : Z;
  preset_leaf_output_type : Z;
  trees : list Tree
}.

(** Modelled from the spec: the model of section 3, [class Model]
    (tree.h), with the members the serializer names. *)
Record Model : Type := {
  major_ver_ : Z;                 (* std::int32_t *)
  minor_ver_ : Z;
  patch_ver_ : Z;
  threshold_type_ : Z;            (* TypeInfo *)
  leaf_output_type_ : Z;          (* TypeInfo *)
  num_tree_ : Z;                  (* std::uint64_t *)
  num_feature : Z;                (* std::int32_t *)
  task_type : Z;                  (* TaskType *)
  average_tree_output : bool;
  task_param : TaskParam;
  param : ModelParam;
  num_opt_field_per_model_ : Z;   (* std::int32_t *)
  variant_ : ModelPreset
}.

Definition GetThresholdType (m : Model) : Z :=
  preset_threshold_type (variant_ m).
Definition GetLeafOutputType (m : Model) : Z :=
  preset_leaf_output_type (variant_ m).
Definition GetNumTree (m : Model) : Z := Size (trees (variant_ m)).

(** Member assignment: [set_f v x] is [x] after [x.f = v]. *)
Definition set_num_nodes (v : _) (t : Tree) : Tree :=
  {| num_nodes := v; has_categorical_split_ := has_categorical_split_ t;
     nodes_ := nodes_ t; leaf_vector_ := leaf_vector_ t;
     leaf_vector_begin_ := leaf_vector_begin_ t;
     leaf_vector_end_ := leaf_vector_end_ t;
     matching_categories_ := matching_categories_ t;
     matching_categories_offset_ := matching_categories_offset_ t;
     num_opt_field_per_tree_ := num_opt_field_per_tree_ t;
     num_opt_field_per_node_ := num_opt_field_per_node_ t |}.
Definition set_has_categorical_split_ (v : _) (t : Tree) : Tree :=
  {| num_nodes := num_nodes t; has_categorical_split_ := v;
     nodes_ := nodes_ t; leaf_vector_ := leaf_vector_ t;
     leaf_vector_begin_ := leaf_vector_begin_ t;
     leaf_vector_end_ := leaf_vector_end_ t;
     matching_categories_ := matching_categories_ t;
     matching_categories_offset_ := matching_categories_offset_ t;
     num_opt_field_per_tree_ := num_opt_field_per_tree_ t;
     num_opt_field_per_node_ := num_opt_field_per_node_ t |}.
Definition set_leaf_vector_ (v : _) (t : Tree) : Tree :=
  {| num_nodes := num_nodes t;
     has_categorical_split_ := has_categorical_split_ t; nodes_ := nodes_ t;
     leaf_vector_ := v; leaf_vector_begin_ := leaf_vector_begin_ t;
     leaf_vector_end_ := leaf_vector_end_ t;
     matching_categories_ := matching_categories_ t;
     matching_categories_offset_ := matching_categories_offset_ t;
     num_opt_field_per_tree_ := num_opt_field_per_tree_ t;
     num_opt_field_per_node_ := num_opt_field_per_node_ t |}.
Definition set_leaf_vector_begin_ (v : _) (t : Tree) : Tree :=
  {| num_nodes := num_nodes t;
     has_categorical_split_ := has_categorical_split_ t; nodes_ := nodes_ t;
     leaf_vector_ := leaf_vector_ t; leaf_vector_begin_ := v;
     leaf_vector_end_ := leaf_vector_end_ t;
     matching_categories_ := matching_categories_ t;
     matching_categories_offset_ := matching_categories_offset_ t;
     num_opt_field_per_tree_ := num_opt_field_per_tree_ t;
     num_opt_field_per_node_ := num_opt_field_per_node_ t |}.
Definition set_leaf_vector_end_ (v : _) (t : Tree) : Tree :=
  {| num_nodes := num_nodes t;
     has_categorical_split_ := has_categorical_split_ t; nodes_ := nodes_ t;
     leaf_vector_ := leaf_vector_ t;
     leaf_vector_begin_ := leaf_vector_begin_ t; leaf_vector_end_ := v;
     matching_categories_ := matching_categories_ t;
     matching_categories_offset_ := matching_categories_offset_ t;
     num_opt_field_per_tree_ := num_opt_field_per_tree_ t;
     num_opt_field_per_node_ := num_opt_field_per_node_ t |}.
Definition set_matching_categories_ (v : _) (t : Tree) : Tree :=
  {| num_nodes := num_nodes t;
     has_categorical_split_ := has_categorical_split_ t; nodes_ := nodes_ t;
     leaf_vector_ := leaf_vector_ t;
     leaf_vector_begin_ := leaf_vector_begin_ t;
     leaf_vector_end_ := leaf_vector_end_ t; matching_categories_ := v;
     matching_categories_offset_ := matching_categories_offset_ t;
     num_opt_field_per_tree_ := num_opt_field_per_tree_ t;
     num_opt_field_per_node_ := num_opt_field_per_node_ t |}.
Definition set_matching_categories_offset_ (v : _) (t : Tree) : Tree :=
  {| num_nodes := num_nodes t;
     has_categorical_split_ := has_categorical_split_ t; nodes_ := nodes_ t;
     leaf_vector_ := leaf_vector_ t;
     leaf_vector_begin_ := leaf_vector_begin_ t;
     leaf_vector_end_ := leaf_vector_end_ t;
     matching_categories_ := matching_categories_ t;
     matching_categories_offset_ := v;
     num_opt_field_per_tree_ := num_opt_field_per_tree_ t;
     num_opt_field_per_node_ := num_opt_field_per_node_ t |}.
Definition set_num_opt_field_per_tree_ (v : _) (t : Tree) : Tree :=
  {| num_nodes := num_nodes t;
     has_categorical_split_ := has_categorical_split_ t; nodes_ := nodes_ t;
     leaf_vector_ := leaf_vector_ t;
     leaf_vector_begin_ := leaf_vector_begin_ t;
     leaf_vector_end_ := leaf_vector_end_ t;
     matching_categories_ := matching_categories_ t;
     matching_categories_offset_ := matching_categories_offset_ t;
     num_opt_field_per_tree_ := v;
     num_opt_field_per_node_ := num_opt_field_per_node_ t |}.
Definition set_num_opt_field_per_node_ (v : _) (t : Tree) : Tree :=
  {| num_nodes := num_nodes t;
     has_categorical_split_ := has_categorical_split_ t; nodes_ := nodes_ t;
     leaf_vector_ := leaf_vector_ t;
     leaf_vector_begin_ := leaf_vector_begin_ t;
     leaf_vector_end_ := leaf_vector_end_ t;
     matching_categories_ := matching_categories_ t;
     matching_categories_offset_ := matching_categories_offset_ t;
     num_opt_field_per_tree_ := num_opt_field_per_tree_ t;
     num_opt_field_per_node_ := v |}.
Definition set_trees (v : list Tree) (p : ModelPreset) : ModelPreset :=
  {| preset_threshold_type := preset_threshold_type p;
     preset_leaf_output_type := preset_leaf_output_type p; trees := v |}.
Definition set_major_ver_ (v : _) (m : Model) : Model :=
  {| major_ver_ := v; minor_ver_ := minor_ver_ m; patch_ver_ := patch_ver_ m;
     threshold_type_ := threshold_type_ m;
     leaf_output_type_ := leaf_output_type_ m; num_tree_ := num_tree_ m;
     num_feature := num_feature m; task_type := task_type m;
     average_tree_output := average_tree_output m;
     task_param := task_param m; param := param m;
     num_opt_field_per_model_ := num_opt_field_per_model_ m;
     variant_ := variant_ m |}.
Definition set_minor_ver_ (v : _) (m : Model) : Model :=
  {| major_ver_ := major_ver_ m; minor_ver_ := v; patch_ver_ := patch_ver_ m;
     threshold_type_ := threshold_type_ m;
     leaf_output_type_ := leaf_output_type_ m; num_tree_ := num_tree_ m;
     num_feature := num_feature m; task_type := task_type m;
     average_tree_output := average_tree_output m;
     task_param := task_param m; param := param m;
     num_opt_field_per_model_ := num_opt_field_per_model_ m;
     variant_ := variant_ m |}.
Definition set_patch_ver_ (v : _) (m : Model) : Model :=
  {| major_ver_ := major_ver_ m; minor_ver_ := minor_ver_ m; patch_ver_ := v;
     threshold_type_ := threshold_type_ m;
     leaf_output_type_ := leaf_output_type_ m; num_tree_ := num_tree_ m;
     num_feature := num_feature m; task_type := task_type m;
     average_tree_output := average_tree_output m;
     task_param := task_param m; param := param m;
     num_opt_field_per_model_ := num_opt_field_per_model_ m;
     variant_ := variant_ m |}.
Definition set_threshold_type_ (v : _) (m : Model) : Model :=
  {| major_ver_ := major_ver_ m; minor_ver_ := minor_ver_ m;
     patch_ver_ := patch_ver_ m; threshold_type_ := v;
     leaf_output_type_ := leaf_output_type_ m; num_tree_ := num_tree_ m;
     num_feature := num_feature m; task_type := task_type m;
     average_tree_output := average_tree_output m;
     task_param := task_param m; param := param m;
     num_opt_field_per_model_ := num_opt_field_per_model_ m;
     variant_ := variant_ m |}.
Definition set_leaf_output_type_ (v : _) (m : Model) : Model :=
  {| major_ver_ := major_ver_ m; minor_ver_ := minor_ver_ m;
     patch_ver_ := patch_ver_ m; threshold_type_ := threshold_type_ m;
     leaf_output_type_ := v; num_tree_ := num_tree_ m;
     num_feature := num_feature m; task_type := task_type m;
     average_tree_output := average_tree_output m;
     task_param := task_param m; param := param m;
     num_opt_field_per_model_ := num_opt_field_per_model_ m;
     variant_ := variant_ m |}.
Definition set_num_tree_ (v : _) (m : Model) : Model :=
  {| major_ver_ := major_ver_ m; minor_ver_ := minor_ver_ m;
     patch_ver_ := patch_ver_ m; threshold_type_ := threshold_type_ m;
     leaf_output_type_ := leaf_output_type_ m; num_tree_ := v;
     num_feature := num_feature m; task_type := task_type m;
     average_tree_output := average_tree_output m;
     task_param := task_param m; param := param m;
     num_opt_field_per_model_ := num_opt_field_per_model_ m;
     variant_ := variant_ m |}.
Definition set_num_feature (v : _) (m : Model) : Model :=
  {| major_ver_ := major_ver_ m; minor_ver_ := minor_ver_ m;
     patch_ver_ := patch_ver_ m; threshold_type_ := threshold_type_ m;
     leaf_output_type_ := leaf_output_type_ m; num_tree_ := num_tree_ m;
     num_feature := v; task_type := task_type m;
     average_tree_output := average_tree_output m;
     task_param := task_param m; param := param m;
     num_opt_field_per_model_ := num_opt_field_per_model_ m;
     variant_ := variant_ m |}.
Definition set_task_type (v : _) (m : Model) : Model :=
  {| major_ver_ := major_ver_ m; minor_ver_ := minor_ver_ m;
     patch_ver_ := patch_ver_ m; threshold_type_ := threshold_type_ m;
     leaf_output_type_ := leaf_output_type_ m; num_tree_ := num_tree_ m;
     num_feature := num_feature m; task_type := v;
     average_tree_output := average_tree_output m;
     task_param := task_param m; param := param m;
     num_opt_field_per_model_ := num_opt_field_per_model_ m;
     variant_ := variant_ m |}.
Definition set_average_tree_output (v : _) (m : Model) : Model :=
  {| major_ver_ := major_ver_ m; minor_ver_ := minor_ver_ m;
     patch_ver_ := patch_ver_ m; threshold_type_ := threshold_type_ m;
     leaf_output_type_ := leaf_output_type_ m; num_tree_ := num_tree_ m;
     num_feature := num_feature m; task_type := task_type m;
     average_tree_output := v; task_param := task_param m; param := param m;
     num_opt_field_per_model_ := num_opt_field_per_model_ m;
     variant_ := variant_ m |}.
Definition set_task_param (v : _) (m : Model) : Model :=
  {| major_ver_ := major_ver_ m; minor_ver_ := minor_ver_ m;
     patch_ver_ := patch_ver_ m; threshold_type_ := threshold_type_ m;
     leaf_output_type_ := leaf_output_type_ m; num_tree_ := num_tree_ m;
     num_feature := num_feature m; task_type := task_type m;
     average_tree_output := average_tree_output m; task_param := v;
     param := param m;
     num_opt_field_per_model_ := num_opt_field_per_model_ m;
     variant_ := variant_ m |}.
Definition set_param (v : _) (m : Model) : Model :=
  {| major_ver_ := major_ver_ m; minor_ver_ := minor_ver_ m;
     patch_ver_ := patch_ver_ m; threshold_type_ := threshold_type_ m;
     leaf_output_type_ := leaf_output_type_ m; num_tree_ := num_tree_ m;
     num_feature := num_feature m; task_type := task_type m;
     average_tree_output := average_tree_output m;
     task_param := task_param m; param := v;
     num_opt_field_per_model_ := num_opt_field_per_model_ m;
     variant_ := variant_ m |}.
Definition set_num_opt_field_per_model_ (v : _) (m : Model) : Model :=
  {| major_ver_ := major_ver_ m; minor_ver_ := minor_ver_ m;
     patch_ver_ := patch_ver_ m; threshold_type_ := threshold_type_ m;
     leaf_output_type_ := leaf_output_type_ m; num_tree_ := num_tree_ m;
     num_feature := num_feature m; task_type := task_type m;
     average_tree_output := average_tree_output m;
     task_param := task_param m; param := param m;
     num_opt_field_per_model_ := v; variant_ := variant_ m |}.
Definition set_variant_ (v : _) (m : Model) : Model :=
  {| major_ver_ := major_ver_ m; minor_ver_ := minor_ver_ m;
     patch_ver_ := patch_ver_ m; threshold_type_ := threshold_type_ m;
     leaf_output_type_ := leaf_output_type_ m; num_tree_ := num_tree_ m;
     num_feature := num_feature m; task_type := task_type m;
     average_tree_output := average_tree_output m;
     task_param := task_param m; param := param m;
     num_opt_field_per_model_ := num_opt_field_per_model_ m;
     variant_ := v |}.

(** [for (auto& tree : concrete_model.trees) body(tree);] on the model the
    computation works on. *)
Definition for_each_tree {S} (body : M (S * Tree) unit) : M (S * Model) unit :=
  fun '(s, model) =>
    let '(r, (s', trees')) := for_each body (trees (variant_ model)) s in
    (r, (s', set_variant_ (set_trees trees' (variant_ model)) model)).

(** Member assignments followed by member reads. *)
Ltac simpl_model :=
  unfold GetThresholdType, GetLeafOutputType, GetNumTree in *;
  cbn beta iota zeta delta
    [set_major_ver_ set_minor_ver_ set_patch_ver_ set_threshold_type_
     set_leaf_output_type_ set_num_tree_ set_num_feature set_task_type
     set_average_tree_output set_task_param set_param
     set_num_opt_field_per_model_ set_variant_ set_trees
     set_num_nodes set_has_categorical_split_ set_leaf_vector_
     set_leaf_vector_begin_ set_leaf_vector_end_ set_matching_categories_
     set_matching_categories_offset_ set_num_opt_field_per_tree_
     set_num_opt_field_per_node_
     GetThresholdType GetLeafOutputType GetNumTree
     major_ver_ minor_ver_ patch_ver_ threshold_type_ leaf_output_type_
     num_tree_ num_feature task_type average_tree_output task_param param
     num_opt_field_per_model_ variant_
     preset_threshold_type preset_leaf_output_type trees
     num_nodes has_categorical_split_ nodes_ leaf_vector_
     leaf_vector_begin_ leaf_vector_end_ matching_categories_
     matching_categories_offset_ num_opt_field_per_tree_
     num_opt_field_per_node_ fst snd].

Ltac simpl_model_in H :=
  cbn beta iota zeta delta
    [set_major_ver_ set_minor_ver_ set_patch_ver_ set_threshold_type_
     set_leaf_output_type_ set_num_tree_ set_num_feature set_task_type
     set_average_tree_output set_task_param set_param
     set_num_opt_field_per_model_ set_variant_ set_trees
     set_num_nodes set_has_categorical_split_ set_leaf_vector_
     set_leaf_vector_begin_ set_leaf_vector_end_ set_matching_categories_
     set_matching_categories_offset_ set_num_opt_field_per_tree_
     set_num_opt_field_per_node_
     GetThresholdType GetLeafOutputType GetNumTree
     major_ver_ minor_ver_ patch_ver_ threshold_type_ leaf_output_type_
     num_tree_ num_feature task_type average_tree_output task_param param
     num_opt_field_per_model_ variant_
     preset_threshold_type preset_leaf_output_type trees
     num_nodes has_categorical_split_ nodes_ leaf_vector_
     leaf_vector_begin_ leaf_vector_end_ matching_categories_
     matching_categories_offset_ num_opt_field_per_tree_
     num_opt_field_per_node_ fst snd] in H.

(** ** The transport interface (the [MixIn] template parameter)

    [Serializer<MixIn>] and [Deserializer<MixIn>] work with any class
    that offers these member templates.  The template argument [T] of
    each call is passed as its [CType]. *)

Class SerializerMixIn (S : Type) : Type := {
  SerializePrimitiveField : forall {T : Type}, CType T -> T -> M S unit;
  SerializeCompositeField :
    forall {T : Type}, CType T -> T -> string -> M S unit;
  SerializePrimitiveArray : forall {T : Type}, CType T -> list T -> M S unit;
  SerializeCompositeArray :
    forall {T : Type}, CType T -> list T -> string -> M S unit
}.

Class DeserializerMixIn (S : Type) : Type := {
  DeserializePrimitiveField : forall {T : Type}, CType T -> M S T;
  DeserializeCompositeField : forall {T : Type}, CType T -> M S T;
  DeserializePrimitiveArray : forall {T : Type}, CType T -> M S (list T);
  DeserializeCompositeArray : forall {T : Type}, CType T -> M S (list T);
  SkipOptionalField : M S unit
}.

(** The decoder's state is its transport together with the warnings
    logged so far. *)
Definition DState (S : Type) : Type := (S * list string)%type.

(** Modelled from the spec: [TREELITE_LOG(WARNING) << msg] (logging.h)
    logs the warning and goes on. *)
Definition LOG_WARNING {S} (msg : string) : M (DState S) unit :=
  assign (fun log => log ++ [msg]).

(** A call that may throw, inside a computation. *)
Definition lift {St A} (r : Result A) : M St A := fun s => (r, s).

(** The text of a decimal literal, for [_TREELITE_STR]. *)
Definition decimal (n : nat) : string :=
  DecimalString.NilEmpty.string_of_uint (Nat.to_uint n).

Definition msg_incorrect_trees : string :=
  "Incorrect number of trees in the model".
Definition msg_incorrect_nodes : string := "Incorrect number of nodes".
Definition msg_nodes_not_loaded : string :=
  "Could not load the correct number of nodes".
Definition msg_other_major : string :=
  "Cannot load model from a different major Treelite version or a version before 3.9.0.".
Definition msg_only_v3 : string :=
  "Only Treelite format version 3.x or later is supported.".
Definition warn_from_3_9 : string :=
  "The model you are loading originated from Treelite version 3.9. To use the latest functionalities, convert your original tree model again using the current version of Treelite.".
Definition warn_newer : string :=
  "The model you are loading originated from a newer Treelite version; some functionalities may be unavailable.".

(** ** The two transports

    serializer_mixins.h, which defines the four mix-in classes, is not
    among the sources; they are modelled from section 4.1 of the spec.
    Every write produces exactly one unit, a length-tagged block for the
    buffer-frame backend and raw bytes in a fixed, implicitly ordered
    layout for the byte-stream backend, with field sizes implied by type;
    arrays are length prefixed; a reader whose field shape disagrees with
    what the writer left fails fatally; skipping an optional field
    discards exactly one field-worth of data without building a value. *)

Definition msg_no_more_data : string := "Unexpected end of the artifact".
Definition msg_layout_mismatch : string :=
  "Field layout does not match the layout expected".

(** [n] consecutive elements of [sz] bytes each. *)
Fixpoint chunks (sz n : nat) (bs : list byte) : list (list byte) :=
  match n with
  | O => []
  | Datatypes.S k => firstn sz bs :: chunks sz k (skipn sz bs)
  end.

(** *** Buffer frames *)

(** Modelled from the spec: a length-tagged block, the bytes of [nitem]
    items of [itemsize] bytes each with the layout descriptor of an item
    (the members of [struct PyBufferFrame]). *)
Record PyBufferFrame : Type := {
  buf : list byte;
  format : string;
  itemsize : nat;
  nitem : nat
}.

Definition scalar_frame {T} (ct : CType T) (fmt : string) (v : T)
  : PyBufferFrame :=
  {| buf := store ct v; format := fmt; itemsize := sizeof ct; nitem := 1 |}.

Definition array_frame {T} (ct : CType T) (fmt : string) (vs : list T)
  : PyBufferFrame :=
  {| buf := List.concat (map (store ct) vs); format := fmt;
     itemsize := sizeof ct; nitem := List.length vs |}.

Definition push_frame (f : PyBufferFrame) : M (list PyBufferFrame) unit :=
  fun frames => (Ok tt, frames ++ [f]).

(** Modelled from the spec: [PyBufferSerializerMixIn] is not among the
    sources.  Each write appends exactly one frame; a primitive field or
    array is described by the descriptor of its type, a composite one by
    the descriptor the serializer passes. *)
#[export] Instance PyBufferSerializerMixIn
  : SerializerMixIn (list PyBufferFrame) := {
  SerializePrimitiveField T ct v :=
    push_frame (scalar_frame ct (descriptor ct) v);
  SerializeCompositeField T ct v fmt := push_frame (scalar_frame ct fmt v);
  SerializePrimitiveArray T ct vs :=
    push_frame (array_frame ct (descriptor ct) vs);
  SerializeCompositeArray T ct vs fmt := push_frame (array_frame ct fmt vs)
}.

(** [GetFrames()] *)
Definition GetFrames (frames : list PyBufferFrame) : list PyBufferFrame :=
  frames.

(** The reader takes the frames in order, one per field. *)
Definition next_frame : M (list PyBufferFrame) PyBufferFrame :=
  fun frames =>
    match frames with
    | [] => (Fatal msg_no_more_data, [])
    | f :: rest => (Ok f, rest)
    end.

(** The shape test of a read: the items have the size of the type read
    and the block is as long as its tag says. *)
Definition frame_fits (f : PyBufferFrame) (sz : nat) : bool :=
  ((itemsize f =? sz) && (List.length (buf f) =? itemsize f * nitem f))%nat.

Definition read_scalar_frame {T} (ct : CType T) : M (list PyBufferFrame) T :=
  f <- next_frame ;;
  if frame_fits f (sizeof ct) && (nitem f =? 1)%nat
  then ret (load ct (buf f))
  else fatal msg_layout_mismatch.

Definition read_array_frame {T} (ct : CType T)
  : M (list PyBufferFrame) (list T) :=
  f <- next_frame ;;
  if frame_fits f (sizeof ct)
  then ret (map (load ct) (chunks (sizeof ct) (nitem f) (buf f)))
  else fatal msg_layout_mismatch.

(** Modelled from the spec: [PyBufferDeserializerMixIn] is not among the
    sources.  A read consumes one frame and fails fatally when its shape
    is not that of the type read; skipping an optional field consumes one
    frame without looking into it. *)
#[export] Instance PyBufferDeserializerMixIn
  : DeserializerMixIn (list PyBufferFrame) := {
  DeserializePrimitiveField T ct := read_scalar_frame ct;
  DeserializeCompositeField T ct := read_scalar_frame ct;
  DeserializePrimitiveArray T ct := read_array_frame ct;
  DeserializeCompositeArray T ct := read_array_frame ct;
  SkipOptionalField := next_frame ;; ret tt
}.

(** *** Byte streams *)

Definition write_bytes (bs : list byte) : M (list byte) unit :=
  fun os => (Ok tt, os ++ bs).

Definition read_bytes (n : Z) : M (list byte) (list byte) :=
  fun input =>
    if n <=? Z.of_nat (List.length input)
    then (Ok (firstn (Z.to_nat n) input), skipn (Z.to_nat n) input)
    else (Fatal msg_no_more_data, input).

Definition write_scalar {T} (ct : CType T) (v : T) : M (list byte) unit :=
  write_bytes (store ct v).

Definition write_array {T} (ct : CType T) (vs : list T) : M (list byte) unit :=
  write_bytes (store uint64_t (Size vs)) ;;
  write_bytes (List.concat (map (store ct) vs)).

Definition read_scalar {T} (ct : CType T) : M (list byte) T :=
  bs <- read_bytes (Z.of_nat (sizeof ct)) ;;
  ret (load ct bs).

Definition read_array {T} (ct : CType T) : M (list byte) (list T) :=
  nelem <- read_scalar uint64_t ;;
  bs <- read_bytes (nelem * Z.of_nat (sizeof ct)) ;;
  ret (map (load ct) (chunks (sizeof ct) (Z.to_nat nelem) bs)).

(** Modelled from the spec: field sizes are implied by type, so an
    optional field, whose type the reader does not know, announces its
    element size and its element count; skipping it discards that many
    bytes unread. *)
Definition skip_in_stream : M (list byte) unit :=
  elem_size <- read_scalar uint64_t ;;
  nelem <- read_scalar uint64_t ;;
  read_bytes (elem_size * nelem) ;;
  ret tt.

(** Modelled from the spec: [StreamSerializerMixIn] is not among the
    sources.  A field is written as its bytes, an array as its length (64
    bits) followed by the bytes of its elements; the descriptor of a
    composite is not written. *)
#[export] Instance StreamSerializerMixIn : SerializerMixIn (list byte) := {
  SerializePrimitiveField T ct v := write_scalar ct v;
  SerializeCompositeField T ct v fmt := write_scalar ct v;
  SerializePrimitiveArray T ct vs := write_array ct vs;
  SerializeCompositeArray T ct vs fmt := write_array ct vs
}.

(** Modelled from the spec: [StreamDeserializerMixIn] is not among the
    sources.  A read takes as many bytes as the type read has and fails
    fatally when the stream ends before. *)
#[export] Instance StreamDeserializerMixIn : DeserializerMixIn (list byte) := {
  DeserializePrimitiveField T ct := read_scalar ct;
  DeserializeCompositeField T ct := read_scalar ct;
  DeserializePrimitiveArray T ct := read_array ct;
  DeserializeCompositeArray T ct := read_array ct;
  SkipOptionalField := skip_in_stream
}.

(** ** Fields, as the calls on a transport

    One value of [Field] stands for one call of a member template of the
    transport: the kind of field, its type and its value. *)

Inductive Field : Type :=
| PrimitiveField {T : Type} (ct : CType T) (v : T)
| CompositeField {T : Type} (ct : CType T) (v : T) (fmt : string)
| PrimitiveArray {T : Type} (ct : CType T) (vs : list T)
| CompositeArray {T : Type} (ct : CType T) (vs : list T) (fmt : string).

Definition write_field {S} {mixin_ : SerializerMixIn S} (f : Field)
  : M S unit :=
  match f with
  | PrimitiveField ct v => SerializePrimitiveField ct v
  | CompositeField ct v fmt => SerializeCompositeField ct v fmt
  | PrimitiveArray ct vs => SerializePrimitiveArray ct vs
  | CompositeArray ct vs fmt => SerializeCompositeArray ct vs fmt
  end.

(** The fields written one after the other, up to the first failure. *)
Fixpoint write_fields {S} {mixin_ : SerializerMixIn S} (fs : list Field)
  : M S unit :=
  match fs with
  | [] => ret tt
  | f :: rest => write_field f ;; write_fields rest
  end.

(** What a reader of the same type gets back for a field. *)
Definition reread {T} (ct : CType T) (v : T) : T := load ct (store ct v).

(** [read_field f s s']: the transport [s] delivers the field [f] to a
    read of its kind and type and is left as [s']. *)
Definition read_field {S} {mixin_ : DeserializerMixIn S} (f : Field)
    (s s' : S) : Prop :=
  match f with
  | PrimitiveField ct v =>
      DeserializePrimitiveField ct s = (Ok (reread ct v), s')
  | CompositeField ct v _ =>
      DeserializeCompositeField ct s = (Ok (reread ct v), s')
  | PrimitiveArray ct vs =>
      DeserializePrimitiveArray ct s = (Ok (map (reread ct) vs), s')
  | CompositeArray ct vs _ =>
      DeserializeCompositeArray ct s = (Ok (map (reread ct) vs), s')
  end.

Fixpoint read_fields {S} {mixin_ : DeserializerMixIn S} (fs : list Field)
    (s s' : S) : Prop :=
  match fs with
  | [] => s = s'
  | f :: rest => exists s1, read_field f s s1 /\ read_fields rest s1 s'
  end.

(** The unit each transport produces for a field. *)
Definition frame_of (f : Field) : PyBufferFrame :=
  match f with
  | PrimitiveField ct v => scalar_frame ct (descriptor ct) v
  | CompositeField ct v fmt => scalar_frame ct fmt v
  | PrimitiveArray ct vs => array_frame ct (descriptor ct) vs
  | CompositeArray ct vs fmt => array_frame ct fmt vs
  end.

Definition array_bytes {T} (ct : CType T) (vs : list T) : list byte :=
  store uint64_t (Size vs) ++ List.concat (map (store ct) vs).

Definition bytes_of (f : Field) : list byte :=
  match f with
  | PrimitiveField ct v => store ct v
  | CompositeField ct v _ => store ct v
  | PrimitiveArray ct vs => array_bytes ct vs
  | CompositeArray ct vs _ => array_bytes ct vs
  end.

(** The bytes of a scalar or composite value fill its type exactly. *)
Definition sized {T} (ct : CType T) (v : T) : Prop :=
  List.length (store ct v) = sizeof ct.

Definition scalar_sized (f : Field) : Prop :=
  match f with
  | PrimitiveField ct v => sized ct v
  | CompositeField ct v _ => sized ct v
  | PrimitiveArray _ _ => False
  | CompositeArray _ _ _ => False
  end.

(** The state of a model that is its own, as opposed to the members that
    every serialization computes afresh (the version stamp, the type tags,
    the tree count and the three optional-field counts). *)
Definition logical_tree (t : Tree) : Tree :=
  set_num_opt_field_per_tree_ 0 (set_num_opt_field_per_node_ 0 t).

Definition logical_model (m : Model) : Model :=
  {| major_ver_ := 0; minor_ver_ := 0; patch_ver_ := 0;
     threshold_type_ := 0; leaf_output_type_ := 0; num_tree_ := 0;
     num_feature := num_feature m; task_type := task_type m;
     average_tree_output := average_tree_output m;
     task_param := task_param m; param := param m;
     num_opt_field_per_model_ := 0;
     variant_ := set_trees (map logical_tree (trees (variant_ m)))
                   (variant_ m) |}.

(** The values that the header members can hold, by their types. *)
Definition TaskParam_wf (p : TaskParam) : Prop :=
  uint8_range (output_type p) /\ uint32_range (num_class p) /\
  uint32_range (leaf_vector_size p).

Definition ModelParam_wf (n : nat) (p : ModelParam) : Prop :=
  List.length (pred_transform p) = n /\ uint32_range (sigmoid_alpha p) /\
  uint32_range (ratio_c p) /\ uint32_range (global_bias p).

Definition header_wf (n : nat) (model : Model) : Prop :=
  uint64_range (GetNumTree model) /\ int32_range (num_feature model) /\
  uint8_range (task_type model) /\ TaskParam_wf (task_param model) /\
  ModelParam_wf n (param model).

(** The test [SerializeTree] starts with. *)
Definition tree_consistent (t : Tree) : bool :=
  to_uint64 (num_nodes t) =? Size (nodes_ t).

(** The trees that come before the first inconsistent one. *)
Fixpoint consistent_prefix (ts : list Tree) : list Tree :=
  match ts with
  | [] => []
  | t :: rest =>
      if tree_consistent t then t :: consistent_prefix rest else []
  end.

(** ** Default construction of the legacy parameters (serializer.cc)

    [std::memset] and [std::strncpy] on a [char] array, the array given
    as the list of its bytes and a C string as the list of its chars
    before the terminating NUL. *)

(** [std::memset(dest, ch, count)] *)
Definition memset (dest : list byte) (ch : byte) (count : nat) : list byte :=
  repeat ch count ++ skipn count dest.

(** [std::strncpy(dest, src, count)]: at most [count] chars of [src] are
    copied; when [src] is shorter, NULs are written until [count] chars
    have been; when it is not, no NUL is written. *)
Definition strncpy (dest src : list byte) (count : nat) : list byte :=
  firstn count (src ++ repeat Byte.x00 count) ++ skipn count dest.

(** [ModelParamV3::ModelParamV3()], for a transform-name buffer of [n]
    chars: the default member initializer [= {0}], the three floats (as
    the bit patterns of 1.0f, 1.0f and 0.0f), then the body. *)
Definition ModelParamV3_new (n : nat) : ModelParamV3 :=
  let pred_transform := repeat Byte.x00 n in
  let pred_transform := memset pred_transform Byte.x00 (n * 1) in
  let pred_transform :=
    strncpy pred_transform (list_byte_of_string "identity") n in
  {| v3_pred_transform := pred_transform;
     v3_sigmoid_alpha := 1065353216; v3_ratio_c := 1065353216;
     v3_global_bias := 0 |}.

(** [TaskParamV3{}]: the default member initializers. *)
Definition TaskParamV3_new : TaskParamV3 :=
  {| v3_output_type := 0; v3_grove_per_class := false; v3_num_class := 1;
     v3_leaf_vector_size := 1 |}.

(** ** frontend/xgboost: xgboost.h and xgboost_util.cc *)

Definition exponential_objectives : list string :=
  ["count:poisson"; "reg:gamma"; "reg:tweedie"; "survival:cox";
   "survival:aft"].

(** [std::string GetPredTransform(std::string const& objective_name)];
    [std::find(...) != cend()] holds when some element of the list equals
    the name. *)
Definition GetPredTransform (objective_name : string) : Result string :=
  if String.eqb objective_name "multi:softmax" then Ok "max_index"
  else if String.eqb objective_name "multi:softprob" then Ok "softmax"
  else if String.eqb objective_name "reg:logistic"
          || String.eqb objective_name "binary:logistic"
  then Ok "sigmoid"
  else if existsb (fun o => String.eqb o objective_name) exponential_objectives
  then Ok "exponential"
  else if String.eqb objective_name "binary:hinge" then Ok "hinge"
  else if String.eqb objective_name "reg:squarederror"
          || String.eqb objective_name "reg:linear"
          || String.eqb objective_name "reg:squaredlogerror"
          || String.eqb objective_name "reg:pseudohubererror"
          || String.eqb objective_name "binary:logitraw"
          || String.eqb objective_name "rank:pairwise"
          || String.eqb objective_name "rank:ndcg"
          || String.eqb objective_name "rank:map"
  then Ok "identity"
  else Fatal (String.append "Unrecognized XGBoost objective: " objective_name).

(** [struct ProbToMargin] and [TransformBaseScoreToMargin].  A [double]
    is a binary64 float; [std::log] comes from <cmath>. *)
Section ProbToMargin.
Variable std_log : float -> float.

(** [-std::log(1.0 / base_score - 1.0)] *)
Definition Sigmoid (base_score : float) : float :=
  PrimFloat.opp
    (std_log (PrimFloat.sub (PrimFloat.div 1%float base_score) 1%float)).

(** [std::log(base_score)] *)
Definition Exponential (base_score : float) : float := std_log base_score.

Definition TransformBaseScoreToMargin (pred_transform : string)
    (base_score : float) : float :=
  if String.eqb pred_transform "sigmoid" then Sigmoid base_score
  else if String.eqb pred_transform "exponential" then Exponential base_score
  else base_score.

End ProbToMargin.

(** [std::log] is not computed here: where the code is run, [x - 1],
    the tangent of the logarithm at 1, stands for it. *)
Definition sample_log (x : float) : float := PrimFloat.sub x 1%float.

(** [enum FeatureType] *)
Inductive FeatureType : Type :=
| kNumerical
| kCategorical.

(** The objectives and the transforms that [GetPredTransform] names. *)
Definition known_objectives : list string :=
  ["multi:softmax"; "multi:softprob"; "reg:logistic"; "binary:logistic"]
    ++ exponential_objectives
    ++ ["binary:hinge"; "reg:squarederror"; "reg:linear";
        "reg:squaredlogerror"; "reg:pseudohubererror"; "binary:logitraw";
        "rank:pairwise"; "rank:ndcg"; "rank:map"].

Definition pred_transforms : list string :=
  ["max_index"; "softmax"; "sigmoid"; "exponential"; "hinge"; "identity"].

(** Case analysis on the comparisons of a name with string literals. *)
Ltac split_objective obj :=
  repeat match goal with
         | |- context [String.eqb obj ?c] =>
             destruct (String.eqb_spec obj c); [subst obj |]
         | |- context [String.eqb ?c obj] =>
             destruct (String.eqb_spec c obj); [subst obj |]
         | H : context [String.eqb obj ?c] |- _ =>
             destruct (String.eqb_spec obj c); [subst obj |]
         | H : context [String.eqb ?c obj] |- _ =>
             destruct (String.eqb_spec c obj); [subst obj |]
         end.

(** ** compiler/ast/count_descendant.cc

    ast.h, which declares [ASTNode] and its subclasses, is not among the
    sources.  A node is what [count] uses of it: whether it is a
    [CodeFolderNode] (the outcome of the [dynamic_cast]), the counter
    [num_descendant_ast_node] and the children, in order.  The nodes are
    updated in place, so [count] returns the node as it leaves it together
    with its result. *)

#[warnings="-register-all"]
Inductive ASTNode : Type :=
| ASTNode_new (is_CodeFolderNode : bool) (num_descendant_ast_node : Z)
    (children : list ASTNode).

Definition is_CodeFolderNode (node : ASTNode) : bool :=
  let 'ASTNode_new folder _ _ := node in folder.
Definition num_descendant_ast_node (node : ASTNode) : Z :=
  let 'ASTNode_new _ num _ := node in num.
Definition children (node : ASTNode) : list ASTNode :=
  let 'ASTNode_new _ _ cs := node in cs.

(** Addition of two [int]s, the sum kept in 32 bits. *)
Definition int_add (a b : Z) : Z := to_signed 32 ((a + b) mod 2 ^ 32).

(** [for (ASTNode* child : node->children) accum += count(child) + 1;] *)
Definition count_children (count : ASTNode -> Z * ASTNode)
  : list ASTNode -> Z -> Z * list ASTNode :=
  fix loop (cs : list ASTNode) (accum : Z) {struct cs} : Z * list ASTNode :=
    match cs with
    | [] => (accum, [])
    | child :: rest =>
        let '(c, child') := count child in
        let '(accum', rest') := loop rest (int_add accum (int_add c 1)) in
        (accum', child' :: rest')
    end.

(** [static int count(ASTNode* node)] *)
Fixpoint count (node : ASTNode) : Z * ASTNode :=
  match node with
  | ASTNode_new folder _ cs =>
      if folder then (0, ASTNode_new folder 0 cs)
      else
        let '(accum, cs') := count_children count cs 0 in
        (accum, ASTNode_new folder accum cs')
  end.

(** [class ASTBuilder] (builder.h), as far as [CountDescendant] goes. *)
Record ASTBuilder : Type := { main_node : ASTNode }.

(** [void ASTBuilder::CountDescendant()] *)
Definition CountDescendant (this : ASTBuilder) : ASTBuilder :=
  {| main_node := snd (count (main_node this)) |}.

(** The nodes that a call of [count] on [node] visits, in the order of the
    calls: the node, and the nodes visited for each child unless the node
    is a code folder. *)
Fixpoint visited (node : ASTNode) : list ASTNode :=
  match node with
  | ASTNode_new folder _ cs =>
      node :: (if folder then [] else flat_map visited cs)
  end.

(** The subtrees directly below the code folders visited. *)
Fixpoint folded (node : ASTNode) : list ASTNode :=
  match node with
  | ASTNode_new folder _ cs => if folder then cs else flat_map folded cs
  end.

(** All the nodes of a tree. *)
Fixpoint all_nodes (node : ASTNode) : list ASTNode :=
  match node with
  | ASTNode_new _ _ cs => node :: flat_map all_nodes cs
  end.

(** The tree without its counters. *)
Fixpoint shape (node : ASTNode) : ASTNode :=
  match node with
  | ASTNode_new folder _ cs => ASTNode_new folder 0 (map shape cs)
  end.

(** The number of nodes visited below [node]. *)
Definition descendants_visited (node : ASTNode) : Z :=
  Z.of_nat (List.length (visited node)) - 1.

(** The number of nodes visited for a list of children. *)
Definition visited_sum (cs : list ASTNode) : Z :=
  Z.of_nat (List.length (flat_map visited cs)).

(** Sample trees: a leaf, a code folder, and a tree of seven nodes one
    of which is a code folder with two children. *)
Definition ast_leaf : ASTNode := ASTNode_new false 99 [].

Definition ast_folder : ASTNode := ASTNode_new true 7 [ast_leaf; ast_leaf].

Definition ast_tree : ASTNode :=
  ASTNode_new false (-1)
    [ASTNode_new false 5 [ast_leaf; ast_folder]; ast_leaf].

(** ** A concrete library configuration, for running the code

    Treelite 4.0.0 with a 256-char transform name; the numeric tags 1, 2
    and 3 name [uint32_t], [float] and [double]; models exist for the
    pairs (float, float) and (double, double); a new tree and a new model
    are empty. *)

Definition sample_Numeric_t (tag : Z) : CType Z :=
  if tag =? 1 then uint32_t
  else if tag =? 2 then float_t
  else if tag =? 3 then double_t
  else uint_t 0 "".

Definition sample_Node_members (th lo : Z) : list (nat * nat) :=
  let k := Info_size sample_Numeric_t th lo in
  [scalar int32_t; scalar int32_t; scalar uint32_t; (k, k);
   scalar int8_t; scalar int8_t;
   scalar bool_t; scalar bool_t; scalar bool_t; scalar bool_t].

Definition sample_Node_t (th lo : Z) : CType Node :=
  let k := Info_size sample_Numeric_t th lo in
  let o := offset_of (sample_Node_members th lo) in
  {| sizeof := struct_size (sample_Node_members th lo);
     store := fun n =>
       struct_bytes
         [put int32_t (node_cleft n); put int32_t (node_cright n);
          put uint32_t (node_sindex n); put (uint_t k "") (node_info n);
          put int8_t (node_cmp n); put int8_t (node_split_type n);
          put bool_t (node_data_count_present n);
          put bool_t (node_sum_hess_present n);
          put bool_t (node_gain_present n);
          put bool_t (node_categories_list_right_child n)];
     load := fun bs =>
       {| node_cleft := member int32_t (o 0%nat) bs;
          node_cright := member int32_t (o 1%nat) bs;
          node_sindex := member uint32_t (o 2%nat) bs;
          node_info := member (uint_t k "") (o 3%nat) bs;
          node_cmp := member int8_t (o 4%nat) bs;
          node_split_type := member int8_t (o 5%nat) bs;
          node_data_count_present := member bool_t (o 6%nat) bs;
          node_sum_hess_present := member bool_t (o 7%nat) bs;
          node_gain_present := member bool_t (o 8%nat) bs;
          node_categories_list_right_child := member bool_t (o 9%nat) bs |};
     descriptor := "" |}.

Definition sample_format (th lo : Z) : string :=
  if th =? 3 then "T{=l=l=Lxxxx=d=b=b=?=?=?=?xx}"
  else "T{=l=l=L=f=b=b=?=?=?=?xx}".

Definition sample_Tree_new : Tree :=
  {| num_nodes := 0; has_categorical_split_ := false; nodes_ := [];
     leaf_vector_ := []; leaf_vector_begin_ := []; leaf_vector_end_ := [];
     matching_categories_ := []; matching_categories_offset_ := [];
     num_opt_field_per_tree_ := 0; num_opt_field_per_node_ := 0 |}.

Definition sample_TaskParam : TaskParam :=
  {| output_type := 0; grove_per_class := false; num_class := 1;
     leaf_vector_size := 1 |}.

(** The bit patterns of 1.0f and 0.0f, and the name [identity]. *)
Definition sample_ModelParam : ModelParam :=
  {| pred_transform :=
       list_byte_of_string "identity" ++ repeat Byte.x00 248;
     sigmoid_alpha := 1065353216; ratio_c := 1065353216; global_bias := 0 |}.

Definition sample_Model_new (th lo : Z) : Model :=
  {| major_ver_ := 0; minor_ver_ := 0; patch_ver_ := 0;
     threshold_type_ := th; leaf_output_type_ := lo; num_tree_ := 0;
     num_feature := 0; task_type := TaskType_value kBinaryClf;
     average_tree_output := false; task_param := sample_TaskParam;
     param := sample_ModelParam; num_opt_field_per_model_ := 0;
     variant_ := {| preset_threshold_type := th;
                    preset_leaf_output_type := lo; trees := [] |} |}.

Definition sample_Model_Create (th lo : Z) : Result Model :=
  if ((th =? 2) && (lo =? 2)) || ((th =? 3) && (lo =? 3))
  then Ok (sample_Model_new th lo)
  else Fatal "Cannot create a model with this pair of types".

(** The example of section 8: 32-bit thresholds and leaf outputs, ten
    features, a regressor, one tree with a split and two leaves. *)
Definition leaf_node (value : Z) : Node :=
  {| node_cleft := -1; node_cright := -1; node_sindex := 0;
     node_info := value; node_cmp := 0; node_split_type := 0;
     node_data_count_present := false; node_sum_hess_present := false;
     node_gain_present := false;
     node_categories_list_right_child := false |}.

Definition split_node (left right feature threshold : Z) : Node :=
  {| node_cleft := left; node_cright := right; node_sindex := feature;
     node_info := threshold; node_cmp := 2; node_split_type := 1;
     node_data_count_present := false; node_sum_hess_present := false;
     node_gain_present := false;
     node_categories_list_right_child := false |}.

Definition example_tree : Tree :=
  {| num_nodes := 3; has_categorical_split_ := false;
     nodes_ := [split_node 1 2 0 1056964608; leaf_node 1065353216;
                leaf_node 1073741824];
     leaf_vector_ := []; leaf_vector_begin_ := [0; 0; 0];
     leaf_vector_end_ := [0; 0; 0]; matching_categories_ := [];
     matching_categories_offset_ := [0; 0; 0; 0];
     num_opt_field_per_tree_ := 0; num_opt_field_per_node_ := 0 |}.

Definition example_model : Model :=
  {| major_ver_ := 0; minor_ver_ := 0; patch_ver_ := 0;
     threshold_type_ := 2; leaf_output_type_ := 2; num_tree_ := 1;
     num_feature := 10; task_type := TaskType_value kRegressor;
     average_tree_output := false; task_param := sample_TaskParam;
     param := sample_ModelParam; num_opt_field_per_model_ := 0;
     variant_ := {| preset_threshold_type := 2;
                    preset_leaf_output_type := 2;
                    trees := [example_tree] |} |}.

(** *** Artifacts for running the decoders *)

(** The header of [example_model] as version 4.0.0 writes it. *)
Definition example_header : list Field :=
  [PrimitiveField int32_t 4; PrimitiveField int32_t 0;
   PrimitiveField int32_t 0;
   PrimitiveField TypeInfo_t 2; PrimitiveField TypeInfo_t 2;
   PrimitiveField uint64_t 1;
   PrimitiveField int32_t 10;
   PrimitiveField TaskType_t (TaskType_value kRegressor);
   PrimitiveField bool_t false;
   CompositeField TaskParam_t sample_TaskParam "T{=B=?xx=I=I}";
   CompositeField (ModelParam_t 256) sample_ModelParam "T{256s=f=f=f}";
   PrimitiveField int32_t 0].

(** The record of [example_tree] with two per-tree optional fields, as a
    later minor version could write it. *)
Definition extended_tree_record : list Field :=
  [PrimitiveField int32_t 3; PrimitiveField bool_t false;
   CompositeArray (sample_Node_t 2 2) (nodes_ example_tree)
     (sample_format 2 2);
   PrimitiveArray float_t []; PrimitiveArray size_t [0; 0; 0];
   PrimitiveArray size_t [0; 0; 0]; PrimitiveArray uint32_t [];
   PrimitiveArray size_t [0; 0; 0; 0];
   PrimitiveField int32_t 2;
   PrimitiveField uint32_t 7; PrimitiveArray double_t [1; 2];
   PrimitiveField int32_t 0].

(** The header of [example_model] with two model-level optional fields,
    and the frames of an artifact made of it and of the tree record. *)
Definition extended_header : list Field :=
  removelast example_header
    ++ [PrimitiveField int32_t 2;
        PrimitiveField uint32_t 7; PrimitiveArray double_t [1; 2]].

Definition extended_frames : list PyBufferFrame :=
  map frame_of (extended_header ++ extended_tree_record).

(** A tree record that declares three nodes and carries two. *)
Definition short_tree_record : list Field :=
  [PrimitiveField int32_t 3; PrimitiveField bool_t false;
   CompositeArray (sample_Node_t 2 2)
     [leaf_node 1065353216; leaf_node 1073741824] (sample_format 2 2);
   PrimitiveArray float_t []; PrimitiveArray size_t [0; 0; 0];
   PrimitiveArray size_t [0; 0; 0]; PrimitiveArray uint32_t [];
   PrimitiveArray size_t [0; 0; 0; 0];
   PrimitiveField int32_t 0; PrimitiveField int32_t 0].

Definition short_frames : list PyBufferFrame :=
  map frame_of (example_header ++ short_tree_record).

(** A checkpoint of version 3.9.0: a multiclass model (legacy task type
    kMultiClfProbDistLeaf, three classes, transform [softmax], averaged
    tree output) with 10 features and one tree of one node. *)
Definition legacy_TaskParam : TaskParamV3 :=
  {| v3_output_type := 0; v3_grove_per_class := false; v3_num_class := 3;
     v3_leaf_vector_size := 3 |}.

Definition legacy_ModelParam : ModelParamV3 :=
  {| v3_pred_transform := list_byte_of_string "softmax";
     v3_sigmoid_alpha := 1065353216; v3_ratio_c := 1065353216;
     v3_global_bias := 1056964608 |}.

Definition legacy_node : NodeV3 :=
  {| cleft_ := -1; cright_ := -1; sindex_ := 0; info_ := 0;
     data_count_ := 0; sum_hess_ := 0; gain_ := 0; split_type_ := 0;
     cmp_ := 0; data_count_present_ := false; sum_hess_present_ := false;
     gain_present_ := false; categories_list_right_child_ := false |}.

Definition legacy_header : list Field :=
  [PrimitiveField int32_t 3; PrimitiveField int32_t 9;
   PrimitiveField int32_t 0;
   PrimitiveField TypeInfo_t 2; PrimitiveField TypeInfo_t 2;
   PrimitiveField uint64_t 1;
   PrimitiveField int32_t 10;
   PrimitiveField TaskTypeV3_t 2;
   PrimitiveField bool_t true;
   CompositeField TaskParamV3_t legacy_TaskParam "";
   CompositeField (ModelParamV3_t 256) legacy_ModelParam "";
   PrimitiveField int32_t 0].

Definition legacy_tree_record : list Field :=
  [PrimitiveField int32_t 1; PrimitiveField bool_t false;
   CompositeArray (NodeV3_t sample_Numeric_t int8_t int8_t 2 2)
     [legacy_node] "";
   PrimitiveArray float_t [1065353216; 0; 0];
   PrimitiveArray size_t [0]; PrimitiveArray size_t [3];
   PrimitiveArray uint32_t []; PrimitiveArray size_t [0; 0];
   PrimitiveField int32_t 0; PrimitiveField int32_t 0].

Definition legacy_artifact : list byte :=
  flat_map bytes_of (legacy_header ++ legacy_tree_record).

(** The same checkpoint with one per-tree optional field: two elements of
    four bytes, announced by its element size and element count. *)
Definition legacy_extended_tree_record : list Field :=
  removelast (removelast legacy_tree_record)
    ++ [PrimitiveField int32_t 1;
        PrimitiveField uint64_t 4; PrimitiveArray uint32_t [7; 8];
        PrimitiveField int32_t 0].

Definition legacy_extended_artifact : list byte :=
  flat_map bytes_of (legacy_header ++ legacy_extended_tree_record).

(** A stream that holds a version triple and nothing else. *)
Definition version_triple (major minor patch : Z) : list byte :=
  flat_map bytes_of
    [PrimitiveField int32_t major; PrimitiveField int32_t minor;
     PrimitiveField int32_t patch].

(** What the legacy header decoder returns for [legacy_artifact]. *)
Definition legacy_decoded_header : Model :=
  set_num_opt_field_per_model_ 0
    (set_average_tree_output true
       (set_num_feature 10
          (set_num_tree_ 1
             (set_patch_ver_ 0
                (set_minor_ver_ 9
                   (set_major_ver_ 3 (sample_Model_new 2 2))))))).

(** [example_model] with other values in the members that serialization
    computes afresh. *)
Definition restamped_model : Model :=
  set_major_ver_ 7 (set_num_tree_ 99 (set_threshold_type_ 1 example_model)).

(** A tree that declares five nodes and has three, and a model whose
    second tree it is. *)
Definition inconsistent_tree : Tree := set_num_nodes 5 example_tree.

Definition inconsistent_model : Model :=
  set_num_tree_ 3
    (set_variant_
       (set_trees [example_tree; inconsistent_tree; example_tree]
          (variant_ example_model))
       example_model).


(** A tree of the shape of [ast_tree], the subtrees below its code folder
    included, with other counters in the nodes that [count] visits. *)
Definition ast_tree_stale : ASTNode :=
  ASTNode_new false 0
    [ASTNode_new false 0 [ASTNode_new false 1 []; ast_folder];
     ASTNode_new false 2 []].

(** The 3.9 checkpoint as frames, and the start of a tree record of the
    3.9 format that declares three nodes and carries one. *)
Definition legacy_frames : list PyBufferFrame :=
  map frame_of (legacy_header ++ legacy_tree_record).

Definition legacy_short_tree_record : list byte :=
  flat_map bytes_of
    [PrimitiveField int32_t 3; PrimitiveField bool_t false;
     CompositeArray (NodeV3_t sample_Numeric_t int8_t int8_t 2 2)
       [legacy_node] ""].

(** An artifact that names the pair of types (uint32, uint32), for which
    there is no model. *)
Definition unsupported_pair_frames : list PyBufferFrame :=
  map frame_of [PrimitiveField TypeInfo_t 1; PrimitiveField TypeInfo_t 1].

Section Treelite.

(** *** Declarations of headers that are not among the sources

    version.h: the version of the running library. *)
Variable TREELITE_VER_MAJOR : Z.
Variable TREELITE_VER_MINOR : Z.
Variable TREELITE_VER_PATCH : Z.
(** The length of the transform-name buffer. *)
Variable TREELITE_MAX_PRED_TRANSFORM_LENGTH : nat.
(** typeinfo.h: the C type that a [TypeInfo] tag names. *)
Variable Numeric_t : Z -> CType Z.
(** base.h: the enumerations [SplitFeatureType] and [Operator]. *)
Variable SplitFeatureType_t : CType Z.
Variable Operator_t : CType Z.
(** tree.h: the layout of [Node] for a pair of numeric types, its layout
    descriptor, the factory [Model::Create], which throws for a pair it
    has no preset for, and a default-constructed [Tree]. *)
Variable Node_t : Z -> Z -> CType Node.
Variable GetFormatStringForNode : Z -> Z -> string.
Variable Model_Create : Z -> Z -> Result Model.
Variable Tree_new : Tree.

(** ** [class Serializer<MixIn>] *)

Section Serializer.
Context {S : Type} {mixin_ : SerializerMixIn S}.

(** [void SerializeHeader(Model& model)] *)
Definition SerializeHeader : M (S * Model) unit :=
  (* Header 1 *)
  assign (set_major_ver_ TREELITE_VER_MAJOR) ;;
  assign (set_minor_ver_ TREELITE_VER_MINOR) ;;
  assign (set_patch_ver_ TREELITE_VER_PATCH) ;;
  model <- self ;;
  on_mixin (SerializePrimitiveField int32_t (major_ver_ model)) ;;
  on_mixin (SerializePrimitiveField int32_t (minor_ver_ model)) ;;
  on_mixin (SerializePrimitiveField int32_t (patch_ver_ model)) ;;
  assign (fun model => set_threshold_type_ (GetThresholdType model) model) ;;
  assign
    (fun model => set_leaf_output_type_ (GetLeafOutputType model) model) ;;
  model <- self ;;
  on_mixin (SerializePrimitiveField TypeInfo_t (threshold_type_ model)) ;;
  on_mixin (SerializePrimitiveField TypeInfo_t (leaf_output_type_ model)) ;;
  (* Number of trees *)
  assign (fun model => set_num_tree_ (GetNumTree model) model) ;;
  model <- self ;;
  on_mixin (SerializePrimitiveField uint64_t (num_tree_ model)) ;;
  (* Header 2 *)
  on_mixin (SerializePrimitiveField int32_t (num_feature model)) ;;
  on_mixin (SerializePrimitiveField TaskType_t (task_type model)) ;;
  on_mixin (SerializePrimitiveField bool_t (average_tree_output model)) ;;
  on_mixin
    (SerializeCompositeField TaskParam_t (task_param model)
       "T{=B=?xx=I=I}") ;;
  on_mixin
    (SerializeCompositeField
       (ModelParam_t TREELITE_MAX_PRED_TRANSFORM_LENGTH) (param model)
       (String.append "T{"
          (String.append (decimal TREELITE_MAX_PRED_TRANSFORM_LENGTH)
             "s=f=f=f}"))) ;;
  (* Extension Slot 1: Per-model optional fields *)
  assign (set_num_opt_field_per_model_ 0) ;;
  model <- self ;;
  on_mixin (SerializePrimitiveField int32_t (num_opt_field_per_model_ model)).

(** [void SerializeTree(Tree<ThresholdType, LeafOutputType>& tree)]; the
    comparison of the [int] node count with the [std::size_t] size
    converts the former. *)
Definition SerializeTree (th lo : Z) : M (S * Tree) unit :=
  tree <- self ;;
  CHECK_EQ (to_uint64 (num_nodes tree)) (Size (nodes_ tree))
    msg_incorrect_nodes ;;
  on_mixin (SerializePrimitiveField int32_t (num_nodes tree)) ;;
  on_mixin (SerializePrimitiveField bool_t (has_categorical_split_ tree)) ;;
  on_mixin
    (SerializeCompositeArray (Node_t th lo) (nodes_ tree)
       (GetFormatStringForNode th lo)) ;;
  on_mixin (SerializePrimitiveArray (Numeric_t lo) (leaf_vector_ tree)) ;;
  on_mixin (SerializePrimitiveArray size_t (leaf_vector_begin_ tree)) ;;
  on_mixin (SerializePrimitiveArray size_t (leaf_vector_end_ tree)) ;;
  on_mixin (SerializePrimitiveArray uint32_t (matching_categories_ tree)) ;;
  on_mixin
    (SerializePrimitiveArray size_t (matching_categories_offset_ tree)) ;;
  (* Extension slot 2: Per-tree optional fields *)
  assign (set_num_opt_field_per_tree_ 0) ;;
  tree <- self ;;
  on_mixin (SerializePrimitiveField int32_t (num_opt_field_per_tree_ tree)) ;;
  (* Extension slot 3: Per-node optional fields *)
  assign (set_num_opt_field_per_node_ 0) ;;
  tree <- self ;;
  on_mixin (SerializePrimitiveField int32_t (num_opt_field_per_node_ tree)).

(** [void SerializeTrees(Model& model)]: [std::visit] picks the preset
    held by [model.variant_]. *)
Definition SerializeTrees : M (S * Model) unit :=
  model <- self ;;
  let concrete_model := variant_ model in
  CHECK_EQ (Size (trees concrete_model)) (num_tree_ model)
    msg_incorrect_trees ;;
  for_each_tree
    (SerializeTree (preset_threshold_type concrete_model)
       (preset_leaf_output_type concrete_model)).

End Serializer.

(** ** [class Deserializer<MixIn>]

    The model under construction is owned by the decoder until it is
    returned, so it is passed along as a value; the state holds the
    transport and the warnings logged. *)

Section Deserializer.
Context {S : Type} {mixin_ : DeserializerMixIn S}.

(** The loop that ignores [n] extra fields. *)
Definition skip_fields (n : Z) : M (DState S) unit :=
  repeatM (Z.to_nat n) (on_mixin SkipOptionalField).

(** [DeserializeHeaderAndCreateModelV3(major_ver, minor_ver, patch_ver)];
    [task_type], [task_param] and [model_param] are locals. *)
Definition DeserializeHeaderAndCreateModelV3
    (major_ver minor_ver patch_ver : Z) : M (DState S) Model :=
  threshold_type <- on_mixin (DeserializePrimitiveField TypeInfo_t) ;;
  leaf_output_type <- on_mixin (DeserializePrimitiveField TypeInfo_t) ;;
  model <- lift (Model_Create threshold_type leaf_output_type) ;;
  let model := set_major_ver_ major_ver model in
  let model := set_minor_ver_ minor_ver model in
  let model := set_patch_ver_ patch_ver model in
  (* Number of trees *)
  num_tree <- on_mixin (DeserializePrimitiveField uint64_t) ;;
  let model := set_num_tree_ num_tree model in
  (* Header 2 *)
  num_feature <- on_mixin (DeserializePrimitiveField int32_t) ;;
  let model := set_num_feature num_feature model in
  task_type <- on_mixin (DeserializePrimitiveField TaskTypeV3_t) ;;
  average_tree_output <- on_mixin (DeserializePrimitiveField bool_t) ;;
  let model := set_average_tree_output average_tree_output model in
  task_param <- on_mixin (DeserializeCompositeField TaskParamV3_t) ;;
  model_param <-
    on_mixin
      (DeserializeCompositeField
         (ModelParamV3_t TREELITE_MAX_PRED_TRANSFORM_LENGTH)) ;;
  (* Extension Slot 1: Per-model optional fields, not used *)
  num_opt_field <- on_mixin (DeserializePrimitiveField int32_t) ;;
  let model := set_num_opt_field_per_model_ num_opt_field model in
  (* Ignore extra fields *)
  skip_fields (num_opt_field_per_model_ model) ;;
  ret model.

(** The statements of [DeserializeHeaderAndCreateModel] that follow the
    version test (from the declaration of [threshold_type] on). *)
Definition DeserializeHeaderAndCreateModel_current
    (major_ver minor_ver patch_ver : Z) : M (DState S) Model :=
  threshold_type <- on_mixin (DeserializePrimitiveField TypeInfo_t) ;;
  leaf_output_type <- on_mixin (DeserializePrimitiveField TypeInfo_t) ;;
  model <- lift (Model_Create threshold_type leaf_output_type) ;;
  let model := set_major_ver_ major_ver model in
  let model := set_minor_ver_ minor_ver model in
  let model := set_patch_ver_ patch_ver model in
  (* Number of trees *)
  num_tree <- on_mixin (DeserializePrimitiveField uint64_t) ;;
  let model := set_num_tree_ num_tree model in
  (* Header 2 *)
  num_feature <- on_mixin (DeserializePrimitiveField int32_t) ;;
  let model := set_num_feature num_feature model in
  task_type <- on_mixin (DeserializePrimitiveField TaskType_t) ;;
  let model := set_task_type task_type model in
  average_tree_output <- on_mixin (DeserializePrimitiveField bool_t) ;;
  let model := set_average_tree_output average_tree_output model in
  task_param <- on_mixin (DeserializeCompositeField TaskParam_t) ;;
  let model := set_task_param task_param model in
  param <-
    on_mixin
      (DeserializeCompositeField
         (ModelParam_t TREELITE_MAX_PRED_TRANSFORM_LENGTH)) ;;
  let model := set_param param model in
  (* Extension Slot 1: Per-model optional fields *)
  let use_opt_field := (major_ver >=? 3) in
  (if use_opt_field then
     num_opt_field <- on_mixin (DeserializePrimitiveField int32_t) ;;
     let model := set_num_opt_field_per_model_ num_opt_field model in
     (* Ignore extra fields *)
     skip_fields (num_opt_field_per_model_ model) ;;
     ret model
   else fatal msg_only_v3).

(** [std::unique_ptr<Model> DeserializeHeaderAndCreateModel()] *)
Definition DeserializeHeaderAndCreateModel : M (DState S) Model :=
  (* Header 1 *)
  major_ver <- on_mixin (DeserializePrimitiveField int32_t) ;;
  minor_ver <- on_mixin (DeserializePrimitiveField int32_t) ;;
  patch_ver <- on_mixin (DeserializePrimitiveField int32_t) ;;
  if negb (major_ver =? TREELITE_VER_MAJOR)
     && negb ((major_ver =? 3) && (minor_ver =? 9))
  then fatal msg_other_major
  else if (major_ver =? 3) && (minor_ver =? 9) then
    (* Deserialize from 3.9 *)
    LOG_WARNING warn_from_3_9 ;;
    DeserializeHeaderAndCreateModelV3 major_ver minor_ver patch_ver
  else
    (if (major_ver =? TREELITE_VER_MAJOR)
        && (minor_ver >? TREELITE_VER_MINOR)
     then LOG_WARNING warn_newer
     else ret tt) ;;
    DeserializeHeaderAndCreateModel_current major_ver minor_ver patch_ver.

(** [void DeserializeTree(Tree<ThresholdType, LeafOutputType>& tree)]: the
    body is empty. *)
Definition DeserializeTree (th lo : Z) (tree : Tree) : M (DState S) Tree :=
  ret tree.

(** [void DeserializeTreeV3(Tree<ThresholdType, LeafOutputType>& tree)];
    [nodes] is a local array. *)
Definition DeserializeTreeV3 (th lo : Z) (tree : Tree) : M (DState S) Tree :=
  declared <- on_mixin (DeserializePrimitiveField int32_t) ;;
  let tree := set_num_nodes declared tree in
  has_categorical_split <- on_mixin (DeserializePrimitiveField bool_t) ;;
  let tree := set_has_categorical_split_ has_categorical_split tree in
  nodes <-
    on_mixin
      (DeserializeCompositeArray
         (NodeV3_t Numeric_t SplitFeatureType_t Operator_t th lo)) ;;
  CHECK_EQ (to_uint64 (num_nodes tree)) (Size nodes) msg_nodes_not_loaded ;;
  leaf_vector <- on_mixin (DeserializePrimitiveArray (Numeric_t lo)) ;;
  let tree := set_leaf_vector_ leaf_vector tree in
  leaf_vector_begin <- on_mixin (DeserializePrimitiveArray size_t) ;;
  let tree := set_leaf_vector_begin_ leaf_vector_begin tree in
  leaf_vector_end <- on_mixin (DeserializePrimitiveArray size_t) ;;
  let tree := set_leaf_vector_end_ leaf_vector_end tree in
  matching_categories <- on_mixin (DeserializePrimitiveArray uint32_t) ;;
  let tree := set_matching_categories_ matching_categories tree in
  matching_categories_offset <-
    on_mixin (DeserializePrimitiveArray size_t) ;;
  let tree := set_matching_categories_offset_ matching_categories_offset tree in
  (* Extension slot 2: Per-tree optional fields *)
  num_opt_field <- on_mixin (DeserializePrimitiveField int32_t) ;;
  let tree := set_num_opt_field_per_tree_ num_opt_field tree in
  skip_fields (num_opt_field_per_tree_ tree) ;;
  (* Extension slot 3: Per-node optional fields *)
  num_opt_field <- on_mixin (DeserializePrimitiveField int32_t) ;;
  let tree := set_num_opt_field_per_node_ num_opt_field tree in
  skip_fields (num_opt_field_per_node_ tree) ;;
  ret tree.

(** The loop of [DeserializeTrees] and [DeserializeTreesV3]:
    [trees.emplace_back()] followed by the decoding of [trees.back()],
    [n] times. *)
Fixpoint emplace_trees (decode : Tree -> M (DState S) Tree) (n : nat)
    (trees : list Tree) : M (DState S) (list Tree) :=
  match n with
  | O => ret trees
  | Datatypes.S k =>
      tree <- decode Tree_new ;;
      emplace_trees decode k (trees ++ [tree])
  end.

(** [void DeserializeTrees(Model& model)] *)
Definition DeserializeTrees (model : Model) : M (DState S) Model :=
  let concrete_model := variant_ model in
  trees' <-
    emplace_trees
      (DeserializeTree (preset_threshold_type concrete_model)
         (preset_leaf_output_type concrete_model))
      (Z.to_nat (num_tree_ model)) [] ;;
  ret (set_variant_ (set_trees trees' concrete_model) model).

(** [void DeserializeTreesV3(Model& model)] *)
Definition DeserializeTreesV3 (model : Model) : M (DState S) Model :=
  let concrete_model := variant_ model in
  trees' <-
    emplace_trees
      (DeserializeTreeV3 (preset_threshold_type concrete_model)
         (preset_leaf_output_type concrete_model))
      (Z.to_nat (num_tree_ model)) [] ;;
  ret (set_variant_ (set_trees trees' concrete_model) model).

End Deserializer.

(** ** The entry points of [Model] *)

(** [std::vector<PyBufferFrame> Model::GetPyBuffer()]: the frames, or the
    exception, together with the model as the call leaves it. *)
Definition GetPyBuffer (this : Model)
  : Result (list PyBufferFrame) * Model :=
  let '(r, (mixin, this')) := (SerializeHeader ;; SerializeTrees) ([], this) in
  (match r with Ok _ => Ok (GetFrames mixin) | Fatal msg => Fatal msg end,
   this').

(** [Model::CreateFromPyBuffer(frames)]: the model, or the exception,
    together with the frames left unread and the warnings logged. *)
Definition CreateFromPyBuffer (frames : list PyBufferFrame)
  : Result Model * (list PyBufferFrame * list string) :=
  (model <- DeserializeHeaderAndCreateModel ;;
   DeserializeTrees model) (frames, []).

(** [void Model::SerializeToStream(std::ostream& os)] *)
Definition SerializeToStream (this : Model) (os : list byte)
  : Result unit * (list byte * Model) :=
  (SerializeHeader ;; SerializeTrees) (os, this).

(** [Model::DeserializeFromStream(std::istream& is)];
    [GetVersion().major_ver] is the stored [major_ver_]. *)
Definition DeserializeFromStream (input : list byte)
  : Result Model * (list byte * list string) :=
  (model <- DeserializeHeaderAndCreateModel ;;
   if major_ver_ model =? 3
   then DeserializeTreesV3 model
   else DeserializeTrees model) (input, []).

(** ** The artifact layout of section 6, in the order it lists the fields *)

Definition header_layout (model : Model) : list Field :=
  [ (* version triple *)
    PrimitiveField int32_t TREELITE_VER_MAJOR;
    PrimitiveField int32_t TREELITE_VER_MINOR;
    PrimitiveField int32_t TREELITE_VER_PATCH;
    (* numeric type pair *)
    PrimitiveField TypeInfo_t (GetThresholdType model);
    PrimitiveField TypeInfo_t (GetLeafOutputType model);
    (* tree count *)
    PrimitiveField uint64_t (GetNumTree model);
    (* feature count, task type, average-tree-output flag *)
    PrimitiveField int32_t (num_feature model);
    PrimitiveField TaskType_t (task_type model);
    PrimitiveField bool_t (average_tree_output model);
    (* task-parameter composite, model-parameter composite *)
    CompositeField TaskParam_t (task_param model) "T{=B=?xx=I=I}";
    CompositeField (ModelParam_t TREELITE_MAX_PRED_TRANSFORM_LENGTH)
      (param model)
      (String.append "T{"
         (String.append (decimal TREELITE_MAX_PRED_TRANSFORM_LENGTH)
            "s=f=f=f}"));
    (* model-level optional-field count *)
    PrimitiveField int32_t 0 ].

Definition tree_layout (th lo : Z) (tree : Tree) : list Field :=
  [ (* node count, categorical-split flag *)
    PrimitiveField int32_t (num_nodes tree);
    PrimitiveField bool_t (has_categorical_split_ tree);
    (* node composite array *)
    CompositeArray (Node_t th lo) (nodes_ tree) (GetFormatStringForNode th lo);
    (* leaf values, leaf range begin and end *)
    PrimitiveArray (Numeric_t lo) (leaf_vector_ tree);
    PrimitiveArray size_t (leaf_vector_begin_ tree);
    PrimitiveArray size_t (leaf_vector_end_ tree);
    (* category values, category range *)
    PrimitiveArray uint32_t (matching_categories_ tree);
    PrimitiveArray size_t (matching_categories_offset_ tree);
    (* per-tree and per-node optional-field counts *)
    PrimitiveField int32_t 0;
    PrimitiveField int32_t 0 ].

Definition trees_layout (th lo : Z) (ts : list Tree) : list Field :=
  flat_map (tree_layout th lo) ts.

(** The fields of the trees serialized before the first inconsistent
    tree stops the run (all of them when every tree is consistent). *)
Definition artifact_layout (model : Model) : list Field :=
  header_layout model
    ++ trees_layout (GetThresholdType model) (GetLeafOutputType model)
         (consistent_prefix (trees (variant_ model))).

(** What the current header decoder makes of the header of [model] once
    [Model::Create] has returned [created]: every member it assigns holds
    the value read back. *)
Definition decoded_header (model created : Model) : Model :=
  set_num_opt_field_per_model_ (reread int32_t 0)
    (set_param
       (reread (ModelParam_t TREELITE_MAX_PRED_TRANSFORM_LENGTH)
          (param model))
       (set_task_param (reread TaskParam_t (task_param model))
          (set_average_tree_output
             (reread bool_t (average_tree_output model))
             (set_task_type (reread TaskType_t (task_type model))
                (set_num_feature (reread int32_t (num_feature model))
                   (set_num_tree_ (reread uint64_t (GetNumTree model))
                      (set_patch_ver_ (reread int32_t TREELITE_VER_PATCH)
                         (set_minor_ver_ (reread int32_t TREELITE_VER_MINOR)
                            (set_major_ver_
                               (reread int32_t TREELITE_VER_MAJOR)
                               created))))))))).

(** The same with as many new trees as the header declares. *)
Definition with_new_trees (header : Model) : Model :=
  set_variant_
    (set_trees (repeat Tree_new (Z.to_nat (num_tree_ header)))
       (variant_ header))
    header.

(** ** The model after a serialization, and the legacy tree record *)

(** A tree as [SerializeTree] leaves it: the two optional-field counts
    are assigned 0. *)
Definition serialized_tree (tree : Tree) : Tree :=
  set_num_opt_field_per_node_ 0 (set_num_opt_field_per_tree_ 0 tree).

(** A model as [SerializeHeader] leaves it: the version stamp, the two
    type tags, the tree count and the optional-field count are assigned
    afresh. *)
Definition stamped_model (model : Model) : Model :=
  set_num_opt_field_per_model_ 0
    (set_num_tree_ (GetNumTree model)
       (set_leaf_output_type_ (GetLeafOutputType model)
          (set_threshold_type_ (GetThresholdType model)
             (set_patch_ver_ TREELITE_VER_PATCH
                (set_minor_ver_ TREELITE_VER_MINOR
                   (set_major_ver_ TREELITE_VER_MAJOR model)))))).

(** A model as [SerializeHeader] followed by [SerializeTrees] leaves
    it. *)
Definition serialized_model (model : Model) : Model :=
  set_variant_
    (set_trees (map serialized_tree (trees (variant_ model)))
       (variant_ model))
    (stamped_model model).

(** The fields of a tree record of the 3.9 format up to the per-tree
    optional-field count, in the order [DeserializeTreeV3] reads them. *)
Definition legacy_tree_fields (th lo : Z) (declared : Z)
    (has_categorical_split : bool) (nodes : list NodeV3)
    (leaf_vector leaf_vector_begin leaf_vector_end matching_categories
       matching_categories_offset : list Z)
    (num_opt_field_per_tree : Z) : list Field :=
  [PrimitiveField int32_t declared;
   PrimitiveField bool_t has_categorical_split;
   CompositeArray (NodeV3_t Numeric_t SplitFeatureType_t Operator_t th lo)
     nodes "";
   PrimitiveArray (Numeric_t lo) leaf_vector;
   PrimitiveArray size_t leaf_vector_begin;
   PrimitiveArray size_t leaf_vector_end;
   PrimitiveArray uint32_t matching_categories;
   PrimitiveArray size_t matching_categories_offset;
   PrimitiveField int32_t num_opt_field_per_tree].

(** The tree that [DeserializeTreeV3] makes of [tree] from such a
    record: every member it assigns holds the value read back; [nodes_]
    is not among them. *)
Definition legacy_decoded_tree (lo : Z) (declared : Z)
    (has_categorical_split : bool)
    (leaf_vector leaf_vector_begin leaf_vector_end matching_categories
       matching_categories_offset : list Z)
    (num_opt_field_per_tree num_opt_field_per_node : Z) (tree : Tree)
  : Tree :=
  set_num_opt_field_per_node_ (reread int32_t num_opt_field_per_node)
    (set_num_opt_field_per_tree_ (reread int32_t num_opt_field_per_tree)
       (set_matching_categories_offset_
          (map (reread size_t) matching_categories_offset)
          (set_matching_categories_
             (map (reread uint32_t) matching_categories)
             (set_leaf_vector_end_ (map (reread size_t) leaf_vector_end)
                (set_leaf_vector_begin_
                   (map (reread size_t) leaf_vector_begin)
                   (set_leaf_vector_
                      (map (reread (Numeric_t lo)) leaf_vector)
                      (set_has_categorical_split_
                         (reread bool_t has_categorical_split)
                         (set_num_nodes (reread int32_t declared)
                            tree)))))))).


(** * Properties *)

(** ** The monad *)

Lemma bind_Ok {St A B} (m : M St A) (k : A -> M St B) s a s' :
  m s = (Ok a, s') -> bind m k s = k a s'.
Proof. intros H. unfold bind. rewrite H. reflexivity. Qed.

Lemma bind_Fatal {St A B} (m : M St A) (k : A -> M St B) s msg s' :
  m s = (Fatal msg, s') -> bind m k s = (Fatal msg, s').
Proof. intros H. unfold bind. rewrite H. reflexivity. Qed.

Lemma on_mixin_Ok {S X A B} (m : M S A) (k : A -> M (S * X) B) s x a s' :
  m s = (Ok a, s') -> bind (on_mixin m) k (s, x) = k a (s', x).
Proof. intros H. unfold bind, on_mixin. rewrite H. reflexivity. Qed.

Lemma on_mixin_Fatal {S X A B} (m : M S A) (k : A -> M (S * X) B)
    s x msg s' :
  m s = (Fatal msg, s') ->
  bind (on_mixin m) k (s, x) = (Fatal msg, (s', x)).
Proof. intros H. unfold bind, on_mixin. rewrite H. reflexivity. Qed.

Lemma CHECK_EQ_same {St} (a : Z) msg (s : St) :
  CHECK_EQ a a msg s = (Ok tt, s).
Proof. unfold CHECK_EQ. rewrite Z.eqb_refl. reflexivity. Qed.

Lemma CHECK_EQ_differ {St} (a b : Z) msg (s : St) :
  a <> b -> CHECK_EQ a b msg s = (Fatal msg, s).
Proof.
  intros H. unfold CHECK_EQ.
  destruct (Z.eqb_spec a b); [contradiction | reflexivity].
Qed.

(** ** Object representations *)

Lemma reread_uint (n : nat) (d : string) (v : Z) :
  0 <= v < 2 ^ (Z.of_nat n * 8) -> reread (uint_t n d) v = v.
Proof.
  intros H. unfold reread, uint_t. cbn [load store].
  rewrite le_combine_split. apply Z.mod_small. exact H.
Qed.

Lemma reread_int32 (v : Z) : int32_range v -> reread int32_t v = v.
Proof.
  unfold int32_range, reread, int32_t, sint_t. cbn [load store]. intros H.
  rewrite le_combine_split.
  change (Z.of_nat 4 * 8) with 32. unfold to_signed.
  destruct (Z_lt_le_dec v 0) as [Hneg | Hpos].
  - assert (E : v mod 2 ^ 32 = v + 2 ^ 32).
    { symmetry. apply (Z.mod_unique_pos _ _ (-1)); lia. }
    rewrite E. destruct (Z.ltb_spec (v + 2 ^ 32) (2 ^ (32 - 1))); lia.
  - rewrite Z.mod_small by lia.
    destruct (Z.ltb_spec v (2 ^ (32 - 1))); lia.
Qed.

Lemma reread_uint8 (v : Z) : uint8_range v -> reread uint8_t v = v.
Proof. intros H. apply reread_uint. exact H. Qed.

Lemma reread_uint64 (v : Z) : uint64_range v -> reread uint64_t v = v.
Proof. intros H. apply reread_uint. exact H. Qed.

Lemma sized_uint (n : nat) (d : string) (v : Z) : sized (uint_t n d) v.
Proof. apply length_le_split. Qed.

Lemma sized_sint (n : nat) (d : string) (v : Z) : sized (sint_t n d) v.
Proof. apply length_le_split. Qed.

Lemma sized_bool (b : bool) : sized bool_t b.
Proof. reflexivity. Qed.

Lemma sized_char_array (n : nat) (cs : list byte) : sized (char_array_t n) cs.
Proof.
  unfold sized, char_array_t. cbn [store sizeof].
  rewrite length_firstn, length_app, repeat_length. lia.
Qed.

Lemma sized_TaskParam (p : TaskParam) : sized TaskParam_t p.
Proof.
  unfold sized, TaskParam_t. cbn [store sizeof].
  rewrite !length_app.
  rewrite (sized_uint 1 "=B"), (sized_bool _), !(sized_uint 4 "=L").
  reflexivity.
Qed.

Lemma sized_ModelParam (n : nat) (p : ModelParam) : sized (ModelParam_t n) p.
Proof.
  unfold sized, ModelParam_t. cbn [store sizeof].
  rewrite !length_app.
  rewrite (sized_char_array n), !(sized_uint 4 "=f").
  cbn [sizeof char_array_t uint_t float_t].
  lia.
Qed.

Lemma reread_bool (b : bool) : reread bool_t b = b.
Proof. destruct b; reflexivity. Qed.

Lemma reread_char_array (n : nat) (cs : list byte) :
  List.length cs = n -> reread (char_array_t n) cs = cs.
Proof.
  intros H. unfold reread, char_array_t. cbn [load store].
  rewrite firstn_app, H, Nat.sub_diag. cbn [firstn].
  rewrite app_nil_r, <- H, !firstn_all. reflexivity.
Qed.

(** A member stored at its offset is read back from there. *)
Lemma member_at {T} (ct : CType T) (v : T) (off : nat)
    (pre post bs : list byte) :
  bs = pre ++ store ct v ++ post -> List.length pre = off -> sized ct v ->
  member ct off bs = reread ct v.
Proof.
  unfold sized, member, reread. intros -> <- Hs.
  rewrite skipn_app, Nat.sub_diag, skipn_all. cbn [skipn app].
  rewrite firstn_app, <- Hs, Nat.sub_diag, firstn_all. cbn [firstn].
  rewrite app_nil_r. reflexivity.
Qed.

Lemma reread_TaskParam (p : TaskParam) :
  TaskParam_wf p -> reread TaskParam_t p = p.
Proof.
  destruct p as [a b c d]. unfold TaskParam_wf. cbn [output_type
    num_class leaf_vector_size]. intros (Ha & Hc & Hd).
  unfold reread, TaskParam_t. cbn [load store].
  rewrite (member_at uint8_t a 0 [] (store bool_t b ++ pad 2
             ++ store uint32_t c ++ store uint32_t d))
    by (reflexivity || apply sized_uint).
  rewrite (member_at bool_t b 1 (store uint8_t a) (pad 2
             ++ store uint32_t c ++ store uint32_t d))
    by (reflexivity || apply sized_bool).
  rewrite (member_at uint32_t c 4 (store uint8_t a ++ store bool_t b ++ pad 2)
             (store uint32_t d))
    by (rewrite <- ?app_assoc; reflexivity || apply sized_uint).
  rewrite (member_at uint32_t d 8
             (store uint8_t a ++ store bool_t b ++ pad 2 ++ store uint32_t c)
             [])
    by (rewrite <- ?app_assoc, ?app_nil_r; reflexivity || apply sized_uint).
  rewrite reread_bool, reread_uint8, !(reread_uint 4 "=L") by assumption.
  reflexivity.
Qed.

Lemma reread_ModelParam (n : nat) (p : ModelParam) :
  ModelParam_wf n p -> reread (ModelParam_t n) p = p.
Proof.
  destruct p as [t a c g]. unfold ModelParam_wf. cbn [pred_transform
    sigmoid_alpha ratio_c global_bias]. intros (Ht & Ha & Hc & Hg).
  unfold reread, ModelParam_t. cbn [load store].
  assert (Hn : List.length (store (char_array_t n) t) = n)
    by apply sized_char_array.
  rewrite (member_at (char_array_t n) t 0 [] (store float_t a
             ++ store float_t c ++ store float_t g))
    by (reflexivity || apply sized_char_array).
  rewrite (member_at float_t a n (store (char_array_t n) t)
             (store float_t c ++ store float_t g))
    by (reflexivity || exact Hn || apply sized_uint).
  rewrite (member_at float_t c (n + 4)
             (store (char_array_t n) t ++ store float_t a)
             (store float_t g)).
  2: rewrite <- ?app_assoc; reflexivity.
  2: rewrite length_app, Hn, (sized_uint 4 "=f"); reflexivity.
  2: apply sized_uint.
  rewrite (member_at float_t g (n + 8)
             (store (char_array_t n) t ++ store float_t a ++ store float_t c)
             []).
  2: rewrite <- ?app_assoc, ?app_nil_r; reflexivity.
  2: rewrite !length_app, Hn, !(sized_uint 4 "=f"); reflexivity.
  2: apply sized_uint.
  rewrite reread_char_array by exact Ht.
  unfold float_t. rewrite !(reread_uint 4 "=f") by assumption.
  reflexivity.
Qed.


(** ** task_type.h *)

(** C9: [StringToTaskType] maps each of the five task-type codes to its
    variant, and throws on every other string. *)
Theorem StringToTaskType_recognizes_exactly_five :
  (forall t : TaskType, StringToTaskType (TaskTypeToString t) = Ok t) /\
  (forall str : string,
     str <> "kBinaryClf" -> str <> "kRegressor" -> str <> "kMultiClf" ->
     str <> "kLearningToRank" -> str <> "kIsolationForest" ->
     StringToTaskType str = Fatal (String.append "Unknown task type: " str)).
Proof.
  split.
  - intros []; reflexivity.
  - intros str H1 H2 H3 H4 H5. unfold StringToTaskType.
    repeat match goal with
           | |- context [String.eqb str ?c] =>
               destruct (String.eqb_spec str c); [contradiction |]
           end.
    reflexivity.
Qed.

(** ** The loop over the trees *)

Lemma for_each_app {S X} (body : M (S * X) unit) (xs ys : list X) (s : S) :
  for_each body (xs ++ ys) s =
  match for_each body xs s with
  | (Ok _, (s1, xs')) =>
      let '(r, (s2, ys')) := for_each body ys s1 in (r, (s2, xs' ++ ys'))
  | (Fatal msg, (s1, xs')) => (Fatal msg, (s1, xs' ++ ys))
  end.
Proof.
  revert s. induction xs as [| x xs IH]; intros s; cbn [for_each app].
  - destruct (for_each body ys s) as [r [s2 ys']]. reflexivity.
  - destruct (body (s, x)) as [[[] | msg] [s' x']]; [| reflexivity].
    rewrite IH.
    destruct (for_each body xs s') as [[[] | msg] [s1 xs']]; [| reflexivity].
    destruct (for_each body ys s1) as [r [s2 ys']]. reflexivity.
Qed.

(** ** The serializer, for any transport *)

Section SerializerProperties.
Context {S : Type} {mixin_ : SerializerMixIn S}.

(** The [int] node count, converted for the comparison, equals the size
    exactly when the two numbers are equal: a node array has fewer than
    2^63 elements. *)
Lemma to_uint64_eq_Size (n size : Z) :
  int32_range n -> 0 <= size < 2 ^ 63 -> (to_uint64 n = size <-> n = size).
Proof.
  unfold int32_range, to_uint64. intros Hn Hs. split.
  - intros H. destruct (Z_lt_le_dec n 0) as [Hneg | Hpos].
    + assert (E : n mod 2 ^ 64 = n + 2 ^ 64).
      { symmetry. apply (Z.mod_unique_pos _ _ (-1)); lia. }
      lia.
    + rewrite Z.mod_small in H by lia. exact H.
  - intros ->. apply Z.mod_small. lia.
Qed.

Lemma SerializeTrees_unfold (s : S) (model : Model) :
  SerializeTrees (s, model) =
  match
    CHECK_EQ (Size (trees (variant_ model))) (num_tree_ model)
      msg_incorrect_trees (s, model)
  with
  | (Ok _, st) =>
      for_each_tree
        (SerializeTree (preset_threshold_type (variant_ model))
           (preset_leaf_output_type (variant_ model))) st
  | (Fatal msg, st) => (Fatal msg, st)
  end.
Proof. reflexivity. Qed.

Lemma SerializeTree_mismatch th lo (s : S) (tree : Tree) :
  to_uint64 (num_nodes tree) <> Size (nodes_ tree) ->
  SerializeTree th lo (s, tree) = (Fatal msg_incorrect_nodes, (s, tree)).
Proof.
  intros H. unfold SerializeTree.
  rewrite (bind_Ok self _ (s, tree) tree (s, tree)) by reflexivity.
  apply bind_Fatal. apply CHECK_EQ_differ. exact H.
Qed.

(** C4: a declared count that disagrees with the collection aborts the
    serialization and nothing is written from that point on:
    [SerializeTrees] throws, leaving the transport as it found it, when
    the number of trees differs from the declared tree count;
    [SerializeTree] throws, leaving the transport as it found it, when the
    declared node count differs from the length of the node array; and
    inside [SerializeTrees] the transport then holds the trees that came
    before the offending one and nothing after them. *)
Theorem count_mismatch_aborts_serialization (s : S) :
  (forall model : Model,
     Size (trees (variant_ model)) <> num_tree_ model ->
     SerializeTrees (s, model) = (Fatal msg_incorrect_trees, (s, model))) /\
  (forall (th lo : Z) (tree : Tree),
     int32_range (num_nodes tree) -> Size (nodes_ tree) < 2 ^ 63 ->
     num_nodes tree <> Size (nodes_ tree) ->
     SerializeTree th lo (s, tree) = (Fatal msg_incorrect_nodes, (s, tree))) /\
  (forall (model : Model) (good good' rest : list Tree) (bad : Tree) (s1 : S),
     trees (variant_ model) = good ++ bad :: rest ->
     Size (trees (variant_ model)) = num_tree_ model ->
     for_each (SerializeTree (GetThresholdType model) (GetLeafOutputType model))
       good s = (Ok tt, (s1, good')) ->
     int32_range (num_nodes bad) -> Size (nodes_ bad) < 2 ^ 63 ->
     num_nodes bad <> Size (nodes_ bad) ->
     SerializeTrees (s, model) =
     (Fatal msg_incorrect_nodes,
      (s1, set_variant_ (set_trees (good' ++ bad :: rest) (variant_ model))
             model))).
Proof.
  assert (Hconv : forall tree : Tree,
             int32_range (num_nodes tree) -> Size (nodes_ tree) < 2 ^ 63 ->
             num_nodes tree <> Size (nodes_ tree) ->
             to_uint64 (num_nodes tree) <> Size (nodes_ tree)).
  { intros tree Hr Hs Hne Heq. apply Hne.
    apply to_uint64_eq_Size; [exact Hr | unfold Size in *; lia | exact Heq]. }
  split; [| split].
  - intros model H. rewrite SerializeTrees_unfold.
    rewrite CHECK_EQ_differ by exact H. reflexivity.
  - intros th lo tree Hr Hs Hne.
    apply SerializeTree_mismatch. apply Hconv; assumption.
  - intros model good good' rest bad s1 Htrees Hcount Hgood Hr Hs Hne.
    rewrite SerializeTrees_unfold, Hcount, CHECK_EQ_same.
    unfold GetThresholdType, GetLeafOutputType in Hgood.
    unfold for_each_tree.
    rewrite Htrees, for_each_app, Hgood. cbn [for_each].
    rewrite SerializeTree_mismatch by (apply Hconv; assumption).
    reflexivity.
Qed.

(** *** What a run of the serializer writes *)

Lemma SerializeHeader_run (s : S) (model : Model) :
  exists model' : Model,
    SerializeHeader (s, model) =
    (fst (write_fields (header_layout model) s),
     (snd (write_fields (header_layout model) s), model')) /\
    logical_model model' = logical_model model /\
    variant_ model' = variant_ model /\
    (fst (write_fields (header_layout model) s) = Ok tt ->
     num_tree_ model' = GetNumTree model).
Proof.
  unfold SerializeHeader, header_layout, write_fields, write_field.
  unfold bind, assign, self, on_mixin, ret.
  simpl_model.
  repeat match goal with
         | |- context [SerializePrimitiveField ?ct ?v ?st] =>
             destruct (SerializePrimitiveField ct v st) as [[[] | ?] ?]; cbn
         | |- context [SerializeCompositeField ?ct ?v ?f ?st] =>
             destruct (SerializeCompositeField ct v f st) as [[[] | ?] ?]; cbn
         end;
    eexists; (split; [reflexivity |]); unfold logical_model; simpl_model;
    repeat split; try reflexivity; try discriminate.
Qed.

Lemma write_fields_app (fs gs : list Field) (s : S) :
  write_fields (fs ++ gs) s =
  match write_fields fs s with
  | (Ok _, s1) => write_fields gs s1
  | (Fatal msg, s1) => (Fatal msg, s1)
  end.
Proof.
  revert s. induction fs as [| f fs IH]; intros s; cbn [write_fields app].
  - reflexivity.
  - unfold bind. destruct (write_field f s) as [[[] | msg] s1].
    + apply IH.
    + reflexivity.
Qed.

Lemma SerializeTree_run th lo (s : S) (tree : Tree) :
  tree_consistent tree = true ->
  exists tree' : Tree,
    SerializeTree th lo (s, tree) =
    (fst (write_fields (tree_layout th lo tree) s),
     (snd (write_fields (tree_layout th lo tree) s), tree')) /\
    logical_tree tree' = logical_tree tree.
Proof.
  intros Hc. unfold tree_consistent in Hc. apply Z.eqb_eq in Hc.
  unfold SerializeTree, tree_layout, write_fields, write_field.
  unfold bind, assign, self, on_mixin, ret.
  rewrite Hc, CHECK_EQ_same.
  simpl_model.
  repeat match goal with
         | |- context [SerializePrimitiveField ?ct ?v ?st] =>
             destruct (SerializePrimitiveField ct v st) as [[[] | ?] ?];
             simpl_model
         | |- context [SerializePrimitiveArray ?ct ?v ?st] =>
             destruct (SerializePrimitiveArray ct v st) as [[[] | ?] ?];
             simpl_model
         | |- context [SerializeCompositeArray ?ct ?v ?f ?st] =>
             destruct (SerializeCompositeArray ct v f st) as [[[] | ?] ?];
             simpl_model
         end;
    eexists; (split; [reflexivity |]); unfold logical_tree; simpl_model;
    reflexivity.
Qed.

(** The loop writes the trees before the first inconsistent one, and
    ends normally when there is none and every write did. *)
Lemma for_each_SerializeTree_run th lo (ts : list Tree) (s : S) :
  exists ts' : list Tree,
    for_each (SerializeTree th lo) ts s =
    (match fst (write_fields (trees_layout th lo (consistent_prefix ts)) s)
     with
     | Fatal msg => Fatal msg
     | Ok _ =>
         if forallb tree_consistent ts then Ok tt
         else Fatal msg_incorrect_nodes
     end,
     (snd (write_fields (trees_layout th lo (consistent_prefix ts)) s),
      ts')) /\
    map logical_tree ts' = map logical_tree ts.
Proof.
  revert s. induction ts as [| t ts IH]; intros s.
  - exists []. split; reflexivity.
  - cbn [for_each consistent_prefix forallb].
    destruct (tree_consistent t) eqn:Hc.
    + destruct (SerializeTree_run th lo s t Hc) as (t' & Ht & Hl).
      rewrite Ht. unfold trees_layout. cbn [flat_map].
      rewrite write_fields_app.
      destruct (write_fields (tree_layout th lo t) s) as [[[] | msg] s1];
        cbn [fst snd andb].
      * destruct (IH s1) as (ts' & Hts & Hls). rewrite Hts.
        exists (t' :: ts'). split; [reflexivity |].
        cbn [map]. rewrite Hl, Hls. reflexivity.
      * exists (t' :: ts). split; [reflexivity |].
        cbn [map]. rewrite Hl. reflexivity.
    + assert (Hne : to_uint64 (num_nodes t) <> Size (nodes_ t)).
      { unfold tree_consistent in Hc. apply Z.eqb_neq. exact Hc. }
      rewrite (SerializeTree_mismatch th lo s t Hne).
      exists (t :: ts). split; reflexivity.
Qed.

(** Every run of [SerializeHeader] followed by [SerializeTrees] writes
    the fields of [artifact_layout], in that order, and leaves the own
    state of the model as it was. *)
Lemma serialize_run (s : S) (model : Model) :
  exists model' : Model,
    (SerializeHeader ;; SerializeTrees) (s, model) =
    (match fst (write_fields (artifact_layout model) s) with
     | Fatal msg => Fatal msg
     | Ok _ =>
         if forallb tree_consistent (trees (variant_ model)) then Ok tt
         else Fatal msg_incorrect_nodes
     end,
     (snd (write_fields (artifact_layout model) s), model')) /\
    logical_model model' = logical_model model.
Proof.
  destruct (SerializeHeader_run s model) as (m1 & Hh & Hl & Hv & Hn).
  unfold artifact_layout. rewrite write_fields_app.
  unfold bind at 1. rewrite Hh.
  destruct (write_fields (header_layout model) s) as [[[] | msg] s1];
    cbn [fst snd] in *.
  - rewrite SerializeTrees_unfold, Hv, (Hn eq_refl).
    unfold GetNumTree. rewrite CHECK_EQ_same. unfold for_each_tree. rewrite Hv.
    destruct (for_each_SerializeTree_run
                (preset_threshold_type (variant_ model))
                (preset_leaf_output_type (variant_ model))
                (trees (variant_ model)) s1) as (ts' & Hts & Hls).
    rewrite Hts. unfold GetThresholdType, GetLeafOutputType.
    eexists. split; [reflexivity |].
    unfold logical_model in *. simpl_model.
    injection Hl as H1 H2 H3 H4 H5 H6.
    rewrite Hls, H1, H2, H3, H4, H5. reflexivity.
  - exists m1. split; [reflexivity | exact Hl].
Qed.

Lemma consistent_prefix_all (ts : list Tree) :
  forallb tree_consistent ts = true -> consistent_prefix ts = ts.
Proof.
  induction ts as [| t ts IH]; cbn [forallb consistent_prefix].
  - reflexivity.
  - intros H. apply andb_prop in H. destruct H as [Ht Hts].
    rewrite Ht, IH by exact Hts. reflexivity.
Qed.

(** C6: whatever the transport, serialization writes the fields of the
    artifact in the order of section 6: the version triple first, then
    the numeric type pair, the tree count, the feature count, the task
    type, the average-tree-output flag, the two parameter composites and
    the model-level optional-field count, then for each tree in order its
    node count, categorical-split flag, node array, leaf values,
    leaf-range begin and end, category values, category range and the
    per-tree and per-node optional-field counts.  The run ends normally
    when every write did and every tree has as many nodes as it declares;
    otherwise it stops at the first failing write, or before the first
    tree that does not. *)
Theorem fields_written_in_layout_order (s : S) (model : Model) :
  let run := (SerializeHeader ;; SerializeTrees) (s, model) in
  let written := write_fields (artifact_layout model) s in
  fst (snd run) = snd written /\
  fst run =
    match fst written with
    | Fatal msg => Fatal msg
    | Ok _ =>
        if forallb tree_consistent (trees (variant_ model)) then Ok tt
        else Fatal msg_incorrect_nodes
    end /\
  (exists rest : list Field,
     artifact_layout model =
     PrimitiveField int32_t TREELITE_VER_MAJOR
       :: PrimitiveField int32_t TREELITE_VER_MINOR
       :: PrimitiveField int32_t TREELITE_VER_PATCH :: rest) /\
  (forallb tree_consistent (trees (variant_ model)) = true ->
   artifact_layout model =
   header_layout model
     ++ trees_layout (GetThresholdType model) (GetLeafOutputType model)
          (trees (variant_ model))).
Proof.
  cbv zeta.
  destruct (serialize_run s model) as (model' & Hrun & _).
  rewrite Hrun. cbn [fst snd].
  repeat split.
  - eexists. unfold artifact_layout, header_layout. cbn [app]. reflexivity.
  - intros H. unfold artifact_layout.
    rewrite consistent_prefix_all by exact H. reflexivity.
Qed.

(** *** The output depends on the own state of the model only *)

Lemma tree_layout_logical th lo (t : Tree) :
  tree_layout th lo (logical_tree t) = tree_layout th lo t.
Proof. reflexivity. Qed.

Lemma tree_consistent_logical (t : Tree) :
  tree_consistent (logical_tree t) = tree_consistent t.
Proof. reflexivity. Qed.

Lemma consistent_prefix_logical (ts : list Tree) :
  consistent_prefix (map logical_tree ts)
  = map logical_tree (consistent_prefix ts).
Proof.
  induction ts as [| t ts IH]; cbn [map consistent_prefix].
  - reflexivity.
  - rewrite tree_consistent_logical.
    destruct (tree_consistent t); [cbn [map]; rewrite IH |]; reflexivity.
Qed.

Lemma trees_layout_logical th lo (ts : list Tree) :
  trees_layout th lo (map logical_tree ts) = trees_layout th lo ts.
Proof.
  unfold trees_layout.
  induction ts as [| t ts IH]; cbn [map flat_map].
  - reflexivity.
  - rewrite IH, tree_layout_logical. reflexivity.
Qed.

Lemma forallb_consistent_logical (ts : list Tree) :
  forallb tree_consistent (map logical_tree ts)
  = forallb tree_consistent ts.
Proof.
  induction ts as [| t ts IH]; cbn [map forallb].
  - reflexivity.
  - rewrite IH, tree_consistent_logical. reflexivity.
Qed.

Lemma artifact_layout_logical (model : Model) :
  artifact_layout (logical_model model) = artifact_layout model.
Proof.
  unfold artifact_layout, header_layout, logical_model.
  simpl_model.
  rewrite consistent_prefix_logical, trees_layout_logical.
  unfold Size. rewrite length_map. reflexivity.
Qed.

Lemma trees_consistent_logical (model : Model) :
  forallb tree_consistent (trees (variant_ (logical_model model)))
  = forallb tree_consistent (trees (variant_ model)).
Proof.
  unfold logical_model. simpl_model. apply forallb_consistent_logical.
Qed.

(** C5: encoding is a function of the own state of the model and of the
    library version: two models with the same own state, serialized on
    the same transport from the same state of it, give the same outcome
    and the same output; and a serialization leaves the own state of the
    model as it was, so that encoding a model again gives the same
    output. *)
Theorem encoding_is_deterministic (s : S) (model1 model2 : Model) :
  logical_model model1 = logical_model model2 ->
  let run1 := (SerializeHeader ;; SerializeTrees) (s, model1) in
  let run2 := (SerializeHeader ;; SerializeTrees) (s, model2) in
  fst run1 = fst run2 /\
  fst (snd run1) = fst (snd run2) /\
  logical_model (snd (snd run1)) = logical_model model1.
Proof.
  intros Heq. cbv zeta.
  destruct (serialize_run s model1) as (m1 & Hrun1 & Hl1).
  destruct (serialize_run s model2) as (m2 & Hrun2 & Hl2).
  rewrite Hrun1, Hrun2. cbn [fst snd].
  rewrite <- (artifact_layout_logical model1).
  rewrite <- (artifact_layout_logical model2).
  rewrite <- (trees_consistent_logical model1).
  rewrite <- (trees_consistent_logical model2).
  rewrite Heq. repeat split. rewrite <- Heq. exact Hl1.
Qed.

(** Encoding the model that an encoding left behind repeats the
    encoding. *)
Corollary encoding_twice (s : S) (model : Model) :
  let run1 := (SerializeHeader ;; SerializeTrees) (s, model) in
  let run2 := (SerializeHeader ;; SerializeTrees) (s, snd (snd run1)) in
  fst run2 = fst run1 /\ fst (snd run2) = fst (snd run1).
Proof.
  cbv zeta.
  destruct (serialize_run s model) as (m1 & Hrun1 & Hl1).
  rewrite Hrun1. cbn [fst snd].
  destruct (serialize_run s m1) as (m2 & Hrun2 & Hl2).
  rewrite Hrun2. cbn [fst snd].
  rewrite <- (artifact_layout_logical m1), <- (trees_consistent_logical m1).
  rewrite Hl1.
  rewrite (artifact_layout_logical model), (trees_consistent_logical model).
  split; reflexivity.
Qed.

End SerializerProperties.

(** ** The deserializer, for any transport *)

Section DeserializerProperties.
Context {S : Type} {mixin_ : DeserializerMixIn S}.

(** C2: the decoder reads the stored version triple first and decides
    from it alone: another major version that is not 3.9 is fatal; 3.9
    goes to the legacy header decoder after a warning; the current major
    with a larger minor goes to the current header decoder after a
    warning; the current major with a minor that is not larger goes to
    the current header decoder silently. *)
Theorem version_gate (s s1 s2 s3 : S) (log : list string)
    (major minor patch : Z) :
  DeserializePrimitiveField int32_t s = (Ok major, s1) ->
  DeserializePrimitiveField int32_t s1 = (Ok minor, s2) ->
  DeserializePrimitiveField int32_t s2 = (Ok patch, s3) ->
  (major <> TREELITE_VER_MAJOR -> ~ (major = 3 /\ minor = 9) ->
   DeserializeHeaderAndCreateModel (s, log) =
   (Fatal msg_other_major, (s3, log))) /\
  (major = 3 -> minor = 9 ->
   DeserializeHeaderAndCreateModel (s, log) =
   DeserializeHeaderAndCreateModelV3 major minor patch
     (s3, log ++ [warn_from_3_9])) /\
  (major = TREELITE_VER_MAJOR -> minor > TREELITE_VER_MINOR ->
   ~ (major = 3 /\ minor = 9) ->
   DeserializeHeaderAndCreateModel (s, log) =
   DeserializeHeaderAndCreateModel_current major minor patch
     (s3, log ++ [warn_newer])) /\
  (major = TREELITE_VER_MAJOR -> minor <= TREELITE_VER_MINOR ->
   ~ (major = 3 /\ minor = 9) ->
   DeserializeHeaderAndCreateModel (s, log) =
   DeserializeHeaderAndCreateModel_current major minor patch (s3, log)).
Proof.
  intros R1 R2 R3.
  assert (Hrun : DeserializeHeaderAndCreateModel (s, log) =
    (if negb (major =? TREELITE_VER_MAJOR)
        && negb ((major =? 3) && (minor =? 9))
     then fatal msg_other_major
     else if (major =? 3) && (minor =? 9) then
       LOG_WARNING warn_from_3_9 ;;
       DeserializeHeaderAndCreateModelV3 major minor patch
     else
       (if (major =? TREELITE_VER_MAJOR) && (minor >? TREELITE_VER_MINOR)
        then LOG_WARNING warn_newer
        else ret tt) ;;
       DeserializeHeaderAndCreateModel_current major minor patch) (s3, log)).
  { unfold DeserializeHeaderAndCreateModel.
    rewrite (on_mixin_Ok _ _ _ _ _ _ R1).
    rewrite (on_mixin_Ok _ _ _ _ _ _ R2).
    rewrite (on_mixin_Ok _ _ _ _ _ _ R3). reflexivity. }
  rewrite Hrun. clear Hrun.
  repeat split.
  - intros Hmajor Hlegacy.
    destruct (Z.eqb_spec major TREELITE_VER_MAJOR); [contradiction |].
    destruct (Z.eqb_spec major 3); destruct (Z.eqb_spec minor 9);
      try reflexivity.
    exfalso. apply Hlegacy. split; assumption.
  - intros -> ->. rewrite !Z.eqb_refl. cbn [andb negb].
    rewrite andb_false_r. reflexivity.
  - intros Hmajor Hminor Hlegacy.
    rewrite <- Hmajor, Z.eqb_refl. cbn [negb andb].
    assert (E : (major =? 3) && (minor =? 9) = false).
    { destruct (Z.eqb_spec major 3); destruct (Z.eqb_spec minor 9);
        try reflexivity.
      exfalso. apply Hlegacy. split; assumption. }
    rewrite E.
    assert (G : (minor >? TREELITE_VER_MINOR) = true).
    { apply Z.gtb_lt. lia. }
    rewrite G. reflexivity.
  - intros Hmajor Hminor Hlegacy.
    rewrite <- Hmajor, Z.eqb_refl. cbn [negb andb].
    assert (E : (major =? 3) && (minor =? 9) = false).
    { destruct (Z.eqb_spec major 3); destruct (Z.eqb_spec minor 9);
        try reflexivity.
      exfalso. apply Hlegacy. split; assumption. }
    rewrite E.
    assert (G : (minor >? TREELITE_VER_MINOR) = false).
    { destruct (Z.gtb_spec minor TREELITE_VER_MINOR); [lia | reflexivity]. }
    rewrite G. reflexivity.
Qed.

Lemma bind_Ok_inv {St A B} (m : M St A) (k : A -> M St B) s b s' :
  bind m k s = (Ok b, s') ->
  exists a s1, m s = (Ok a, s1) /\ k a s1 = (Ok b, s').
Proof.
  unfold bind. destruct (m s) as [[a | msg] s1]; intros H.
  - exists a, s1. split; [reflexivity | exact H].
  - discriminate H.
Qed.

Lemma on_mixin_Ok_inv {X A B} (m : M S A) (k : A -> M (S * X) B) s x b st' :
  bind (on_mixin m) k (s, x) = (Ok b, st') ->
  exists a s1, m s = (Ok a, s1) /\ k a (s1, x) = (Ok b, st').
Proof.
  unfold bind, on_mixin. destruct (m s) as [[a | msg] s1]; intros H.
  - exists a, s1. split; [reflexivity | exact H].
  - discriminate H.
Qed.

Lemma lift_Ok_inv {St A B} (r : Result A) (k : A -> M St B) st b st' :
  bind (lift r) k st = (Ok b, st') ->
  exists a, r = Ok a /\ k a st = (Ok b, st').
Proof.
  unfold bind, lift. destruct r as [a | msg]; intros H.
  - exists a. split; [reflexivity | exact H].
  - discriminate H.
Qed.

(** C10: the legacy header decoder reads the stored legacy task type,
    task parameters and model parameters and drops them: whatever they
    are, the model it returns has the task type, task parameters and
    prediction-transform parameters of the model that [Model::Create]
    made, while its tree count, feature count and average-tree-output
    flag are the values read from the artifact and its version triple is
    the one passed in.  First for every model the decoder returns; then
    the other way round, for every artifact that holds the fields of a
    legacy header: the decoder returns the created model with the values
    read assigned, in which the three legacy values do not occur. *)
Theorem legacy_header_keeps_created_task_fields
    (major minor patch : Z) (s : S) (log : list string) :
  (forall (model : Model) (st' : DState S),
     DeserializeHeaderAndCreateModelV3 major minor patch (s, log)
       = (Ok model, st') ->
     exists (th lo : Z) (created : Model) (s1 s2 s3 s4 s5 s6 s7 s8 s9 : S)
            (legacy_task_type : Z) (legacy_task_param : TaskParamV3)
            (legacy_model_param : ModelParamV3),
       DeserializePrimitiveField TypeInfo_t s = (Ok th, s1) /\
       DeserializePrimitiveField TypeInfo_t s1 = (Ok lo, s2) /\
       Model_Create th lo = Ok created /\
       DeserializePrimitiveField uint64_t s2 = (Ok (num_tree_ model), s3) /\
       DeserializePrimitiveField int32_t s3 = (Ok (num_feature model), s4) /\
       DeserializePrimitiveField TaskTypeV3_t s4
         = (Ok legacy_task_type, s5) /\
       DeserializePrimitiveField bool_t s5
         = (Ok (average_tree_output model), s6) /\
       DeserializeCompositeField TaskParamV3_t s6
         = (Ok legacy_task_param, s7) /\
       DeserializeCompositeField
         (ModelParamV3_t TREELITE_MAX_PRED_TRANSFORM_LENGTH) s7
         = (Ok legacy_model_param, s8) /\
       DeserializePrimitiveField int32_t s8
         = (Ok (num_opt_field_per_model_ model), s9) /\
       task_type model = task_type created /\
       task_param model = task_param created /\
       param model = param created /\
       major_ver_ model = major /\ minor_ver_ model = minor /\
       patch_ver_ model = patch) /\
  (forall (th lo num_tree num_feature legacy_task_type : Z)
          (average_tree_output : bool) (legacy_task_param : TaskParamV3)
          (legacy_model_param : ModelParamV3) (num_opt_field : Z)
          (created : Model) (s9 s' : S),
     read_fields
       [PrimitiveField TypeInfo_t th; PrimitiveField TypeInfo_t lo;
        PrimitiveField uint64_t num_tree;
        PrimitiveField int32_t num_feature;
        PrimitiveField TaskTypeV3_t legacy_task_type;
        PrimitiveField bool_t average_tree_output;
        CompositeField TaskParamV3_t legacy_task_param "";
        CompositeField (ModelParamV3_t TREELITE_MAX_PRED_TRANSFORM_LENGTH)
          legacy_model_param "";
        PrimitiveField int32_t num_opt_field] s s9 ->
     Model_Create (reread TypeInfo_t th) (reread TypeInfo_t lo)
       = Ok created ->
     skip_fields (reread int32_t num_opt_field) (s9, log)
       = (Ok tt, (s', log)) ->
     DeserializeHeaderAndCreateModelV3 major minor patch (s, log)
     = (Ok (set_num_opt_field_per_model_ (reread int32_t num_opt_field)
              (set_average_tree_output (reread bool_t average_tree_output)
                 (set_num_feature (reread int32_t num_feature)
                    (set_num_tree_ (reread uint64_t num_tree)
                       (set_patch_ver_ patch
                          (set_minor_ver_ minor
                             (set_major_ver_ major created))))))),
        (s', log))).
Proof.
  split.
  - unfold DeserializeHeaderAndCreateModelV3. intros model st' H.
    apply on_mixin_Ok_inv in H. destruct H as (th & s1 & R1 & H).
    apply on_mixin_Ok_inv in H. destruct H as (lo & s2 & R2 & H).
    apply lift_Ok_inv in H. destruct H as (created & RC & H).
    apply on_mixin_Ok_inv in H. destruct H as (ntree & s3 & R3 & H).
    apply on_mixin_Ok_inv in H. destruct H as (nfeat & s4 & R4 & H).
    apply on_mixin_Ok_inv in H. destruct H as (ltt & s5 & R5 & H).
    apply on_mixin_Ok_inv in H. destruct H as (avg & s6 & R6 & H).
    apply on_mixin_Ok_inv in H. destruct H as (ltp & s7 & R7 & H).
    apply on_mixin_Ok_inv in H. destruct H as (lmp & s8 & R8 & H).
    apply on_mixin_Ok_inv in H. destruct H as (nopt & s9 & R9 & H).
    apply bind_Ok_inv in H. destruct H as ([] & st1 & _ & H).
    unfold ret in H. injection H as <- _.
    exists th, lo, created, s1, s2, s3, s4, s5, s6, s7, s8, s9, ltt, ltp, lmp.
    cbn. repeat split; assumption.
  - intros th lo ntree nfeat ltt avg ltp lmp nopt created s9 s'
      Hread Hcreate Hskip.
    cbn [read_fields read_field] in Hread.
    destruct Hread as (s1 & R1 & s2 & R2 & s3 & R3 & s4 & R4 & s5 & R5
                       & s6 & R6 & s7 & R7 & s8 & R8 & s9' & R9 & <-).
    unfold DeserializeHeaderAndCreateModelV3.
    rewrite (on_mixin_Ok _ _ _ _ _ _ R1).
    rewrite (on_mixin_Ok _ _ _ _ _ _ R2).
    rewrite (bind_Ok (lift _) _ (s2, log) created (s2, log))
      by (unfold lift; rewrite Hcreate; reflexivity).
    rewrite (on_mixin_Ok _ _ _ _ _ _ R3).
    rewrite (on_mixin_Ok _ _ _ _ _ _ R4).
    rewrite (on_mixin_Ok _ _ _ _ _ _ R5).
    rewrite (on_mixin_Ok _ _ _ _ _ _ R6).
    rewrite (on_mixin_Ok _ _ _ _ _ _ R7).
    rewrite (on_mixin_Ok _ _ _ _ _ _ R8).
    rewrite (on_mixin_Ok _ _ _ _ _ _ R9).
    simpl_model.
    rewrite (bind_Ok (skip_fields _) _ _ _ _ Hskip).
    reflexivity.
Qed.

(** *** Decoding the header that the serializer wrote *)

Lemma skip_no_fields (st : DState S) : skip_fields 0 st = (Ok tt, st).
Proof. reflexivity. Qed.

Lemma decode_header (model created : Model) (s s' : S) (log : list string) :
  read_fields (header_layout model) s s' ->
  int32_range TREELITE_VER_MAJOR -> int32_range TREELITE_VER_MINOR ->
  3 < TREELITE_VER_MAJOR ->
  Model_Create (reread TypeInfo_t (GetThresholdType model))
    (reread TypeInfo_t (GetLeafOutputType model)) = Ok created ->
  DeserializeHeaderAndCreateModel (s, log)
  = (Ok (decoded_header model created), (s', log)).
Proof.
  intros Hread Hmajor Hminor Hnew Hcreate.
  unfold header_layout in Hread. cbn [read_fields read_field] in Hread.
  destruct Hread as (s1 & R1 & s2 & R2 & s3 & R3 & s4 & R4 & s5 & R5
                     & s6 & R6 & s7 & R7 & s8 & R8 & s9 & R9 & s10 & R10
                     & s11 & R11 & s12 & R12 & <-).
  unfold DeserializeHeaderAndCreateModel.
  rewrite (on_mixin_Ok _ _ _ _ _ _ R1).
  rewrite (on_mixin_Ok _ _ _ _ _ _ R2).
  rewrite (on_mixin_Ok _ _ _ _ _ _ R3).
  rewrite !(reread_int32 TREELITE_VER_MAJOR) by assumption.
  rewrite !(reread_int32 TREELITE_VER_MINOR) by assumption.
  rewrite Z.eqb_refl. cbn [negb andb].
  assert (E3 : (TREELITE_VER_MAJOR =? 3) = false) by (apply Z.eqb_neq; lia).
  assert (Eg : (TREELITE_VER_MINOR >? TREELITE_VER_MINOR) = false).
  { destruct (Z.gtb_spec TREELITE_VER_MINOR TREELITE_VER_MINOR);
      [lia | reflexivity]. }
  rewrite E3, Eg. cbn [andb].
  rewrite (bind_Ok (ret tt) _ (s3, log) tt (s3, log)) by reflexivity.
  unfold DeserializeHeaderAndCreateModel_current.
  rewrite (on_mixin_Ok _ _ _ _ _ _ R4).
  rewrite (on_mixin_Ok _ _ _ _ _ _ R5).
  rewrite (bind_Ok (lift _) _ (s5, log) created (s5, log))
    by (unfold lift; rewrite Hcreate; reflexivity).
  rewrite (on_mixin_Ok _ _ _ _ _ _ R6).
  rewrite (on_mixin_Ok _ _ _ _ _ _ R7).
  rewrite (on_mixin_Ok _ _ _ _ _ _ R8).
  rewrite (on_mixin_Ok _ _ _ _ _ _ R9).
  rewrite (on_mixin_Ok _ _ _ _ _ _ R10).
  rewrite (on_mixin_Ok _ _ _ _ _ _ R11).
  assert (E : (TREELITE_VER_MAJOR >=? 3) = true).
  { apply Z.geb_le. lia. }
  rewrite E.
  rewrite (on_mixin_Ok _ _ _ _ _ _ R12).
  simpl_model.
  assert (E0 : reread int32_t 0 = 0) by reflexivity.
  rewrite E0 at 1.
  rewrite (bind_Ok (skip_fields 0) _ (s12, log) tt (s12, log))
    by apply skip_no_fields.
  unfold decoded_header. simpl_model.
  rewrite !(reread_int32 TREELITE_VER_MAJOR) by assumption.
  rewrite !(reread_int32 TREELITE_VER_MINOR) by assumption.
  reflexivity.
Qed.

(** *** The current tree decoder reads nothing *)

Lemma emplace_trees_current th lo (n : nat) (ts : list Tree) (st : DState S) :
  emplace_trees (DeserializeTree th lo) n ts st
  = (Ok (ts ++ repeat Tree_new n), st).
Proof.
  revert ts. induction n as [| n IH]; intros ts; cbn [emplace_trees repeat].
  - rewrite app_nil_r. reflexivity.
  - unfold bind, DeserializeTree, ret. fold (@ret (DState S) (list Tree)).
    rewrite IH, <- app_assoc. reflexivity.
Qed.

Lemma DeserializeTrees_run (model : Model) (st : DState S) :
  DeserializeTrees model st = (Ok (with_new_trees model), st).
Proof.
  unfold DeserializeTrees.
  rewrite (bind_Ok _ _ st _ st (emplace_trees_current _ _ _ [] st)).
  reflexivity.
Qed.

(** *** The legacy tree decoder never assigns the node array *)

Lemma DeserializeTreeV3_keeps_nodes th lo (tree tree' : Tree)
    (st st' : DState S) :
  DeserializeTreeV3 th lo tree st = (Ok tree', st') ->
  nodes_ tree' = nodes_ tree /\
  (exists (nodes : list NodeV3) (s1 s2 s3 : S),
     DeserializePrimitiveField int32_t (fst st) = (Ok (num_nodes tree'), s1) /\
     DeserializePrimitiveField bool_t s1
       = (Ok (has_categorical_split_ tree'), s2) /\
     DeserializeCompositeArray
       (NodeV3_t Numeric_t SplitFeatureType_t Operator_t th lo) s2
       = (Ok nodes, s3) /\
     to_uint64 (num_nodes tree') = Size nodes).
Proof.
  destruct st as [s log]. unfold DeserializeTreeV3. intros H.
  apply on_mixin_Ok_inv in H. destruct H as (declared & s1 & R1 & H).
  apply on_mixin_Ok_inv in H. destruct H as (cat & s2 & R2 & H).
  apply on_mixin_Ok_inv in H. destruct H as (nodes & s3 & R3 & H).
  apply bind_Ok_inv in H. destruct H as ([] & st1 & Hcheck & H).
  unfold CHECK_EQ in Hcheck. simpl_model_in Hcheck.
  destruct (Z.eqb_spec (to_uint64 declared) (Size nodes)) as [Hsize |];
    [| discriminate Hcheck].
  injection Hcheck as <-.
  apply on_mixin_Ok_inv in H. destruct H as (a1 & s4 & _ & H).
  apply on_mixin_Ok_inv in H. destruct H as (a2 & s5 & _ & H).
  apply on_mixin_Ok_inv in H. destruct H as (a3 & s6 & _ & H).
  apply on_mixin_Ok_inv in H. destruct H as (a4 & s7 & _ & H).
  apply on_mixin_Ok_inv in H. destruct H as (a5 & s8 & _ & H).
  apply on_mixin_Ok_inv in H. destruct H as (n1 & s9 & _ & H).
  apply bind_Ok_inv in H. destruct H as ([] & st2 & _ & H).
  destruct st2 as [s10 log2].
  apply on_mixin_Ok_inv in H. destruct H as (n2 & s11 & _ & H).
  apply bind_Ok_inv in H. destruct H as ([] & st3 & _ & H).
  unfold ret in H. injection H as <- _.
  simpl_model. split; [reflexivity |].
  exists nodes, s1, s2, s3. repeat split; assumption.
Qed.

End DeserializerProperties.

(** ** The two transports *)

Lemma frames_write_fields (fs : list Field) (frames : list PyBufferFrame) :
  write_fields fs frames = (Ok tt, frames ++ map frame_of fs).
Proof.
  revert frames. induction fs as [| f fs IH]; intros frames;
    cbn [write_fields map].
  - rewrite app_nil_r. reflexivity.
  - unfold bind.
    assert (E : write_field f frames = (Ok tt, frames ++ [frame_of f])).
    { destruct f; reflexivity. }
    rewrite E, IH, <- app_assoc. reflexivity.
Qed.

Lemma stream_write_fields (fs : list Field) (os : list byte) :
  write_fields fs os = (Ok tt, os ++ flat_map bytes_of fs).
Proof.
  revert os. induction fs as [| f fs IH]; intros os;
    cbn [write_fields flat_map].
  - rewrite app_nil_r. reflexivity.
  - unfold bind.
    assert (E : write_field f os = (Ok tt, os ++ bytes_of f)).
    { destruct f; cbn; unfold write_scalar, write_array, write_bytes, bind,
        array_bytes; try rewrite <- app_assoc; reflexivity. }
    rewrite E, IH, <- app_assoc. reflexivity.
Qed.

Lemma read_scalar_frame_sized {T} (ct : CType T) (fmt : string) (v : T)
    (rest : list PyBufferFrame) :
  sized ct v ->
  read_scalar_frame ct (scalar_frame ct fmt v :: rest)
  = (Ok (reread ct v), rest).
Proof.
  unfold sized. intros H.
  unfold read_scalar_frame, bind, next_frame, frame_fits, scalar_frame.
  cbn [itemsize nitem buf]. rewrite H, Nat.mul_1_r, !Nat.eqb_refl.
  reflexivity.
Qed.

Lemma frames_read_fields (fs : list Field) (rest : list PyBufferFrame) :
  Forall scalar_sized fs -> read_fields fs (map frame_of fs ++ rest) rest.
Proof.
  induction 1 as [| f fs Hf _ IH]; cbn [read_fields map app].
  - reflexivity.
  - exists (map frame_of fs ++ rest). split; [| exact IH].
    destruct f; cbn [scalar_sized] in Hf; try contradiction;
      apply read_scalar_frame_sized; exact Hf.
Qed.

Lemma read_scalar_sized {T} (ct : CType T) (v : T) (rest : list byte) :
  sized ct v ->
  read_scalar ct (store ct v ++ rest) = (Ok (reread ct v), rest).
Proof.
  unfold sized. intros H.
  unfold read_scalar, bind, read_bytes.
  rewrite length_app, <- H, Nat2Z.id.
  destruct (Z.leb_spec (Z.of_nat (List.length (store ct v)))
              (Z.of_nat (List.length (store ct v) + List.length rest)));
    [| lia].
  rewrite firstn_app, skipn_app, Nat.sub_diag, firstn_all, skipn_all.
  cbn [firstn skipn app]. rewrite app_nil_r. reflexivity.
Qed.

Lemma stream_read_fields (fs : list Field) (rest : list byte) :
  Forall scalar_sized fs -> read_fields fs (flat_map bytes_of fs ++ rest) rest.
Proof.
  induction 1 as [| f fs Hf _ IH]; cbn [read_fields flat_map app].
  - reflexivity.
  - exists (flat_map bytes_of fs ++ rest). split; [| exact IH].
    rewrite <- app_assoc.
    destruct f; cbn [scalar_sized] in Hf; try contradiction;
      apply read_scalar_sized; exact Hf.
Qed.

Lemma header_layout_sized (model : Model) :
  Forall scalar_sized (header_layout model).
Proof.
  unfold header_layout.
  repeat (apply Forall_cons; [cbn [scalar_sized] |]); try apply Forall_nil;
    first [ apply sized_sint | apply sized_uint | apply sized_bool
          | apply sized_TaskParam | apply sized_ModelParam ].
Qed.

(** A model whose trees are consistent is encoded in full on either
    transport. *)
Lemma GetPyBuffer_run (model : Model) :
  forallb tree_consistent (trees (variant_ model)) = true ->
  fst (GetPyBuffer model) = Ok (map frame_of (artifact_layout model)).
Proof.
  intros Hc. unfold GetPyBuffer.
  destruct (serialize_run ([] : list PyBufferFrame) model)
    as (model' & Hrun & _).
  rewrite Hrun, frames_write_fields, Hc. reflexivity.
Qed.

Lemma SerializeToStream_run (model : Model) (os : list byte) :
  forallb tree_consistent (trees (variant_ model)) = true ->
  fst (SerializeToStream model os) = Ok tt /\
  fst (snd (SerializeToStream model os))
  = os ++ flat_map bytes_of (artifact_layout model).
Proof.
  intros Hc. unfold SerializeToStream.
  destruct (serialize_run os model) as (model' & Hrun & _).
  rewrite Hrun, stream_write_fields, Hc. split; reflexivity.
Qed.

(** C8: a model encoded on the buffer-frame transport and decoded by
    [CreateFromPyBuffer], and the same model encoded on the byte-stream
    transport and decoded by [DeserializeFromStream], give the same
    model.  The library is one of a major version after 3, the model is
    one that [Model::Create] makes for its pair of types, and its trees
    have as many nodes as they declare, so that it can be encoded. *)
Theorem transports_decode_to_the_same_model (model created : Model) :
  3 < TREELITE_VER_MAJOR ->
  int32_range TREELITE_VER_MAJOR -> int32_range TREELITE_VER_MINOR ->
  uint8_range (GetThresholdType model) ->
  uint8_range (GetLeafOutputType model) ->
  Model_Create (GetThresholdType model) (GetLeafOutputType model)
    = Ok created ->
  forallb tree_consistent (trees (variant_ model)) = true ->
  exists (frames : list PyBufferFrame) (bytes : list byte) (decoded : Model),
    fst (GetPyBuffer model) = Ok frames /\
    fst (SerializeToStream model []) = Ok tt /\
    fst (snd (SerializeToStream model [])) = bytes /\
    fst (CreateFromPyBuffer frames) = Ok decoded /\
    fst (DeserializeFromStream bytes) = Ok decoded /\
    decoded = with_new_trees (decoded_header model created).
Proof.
  intros Hnew Hmajor Hminor Hth Hlo Hcreate Hc.
  destruct (SerializeToStream_run model [] Hc) as [Hs1 Hs2].
  exists (map frame_of (artifact_layout model)),
    (flat_map bytes_of (artifact_layout model)),
    (with_new_trees (decoded_header model created)).
  assert (Hcreate' :
    Model_Create (reread TypeInfo_t (GetThresholdType model))
      (reread TypeInfo_t (GetLeafOutputType model)) = Ok created).
  { unfold TypeInfo_t. rewrite !reread_uint8 by assumption. exact Hcreate. }
  assert (Hver : major_ver_ (decoded_header model created)
                 = TREELITE_VER_MAJOR).
  { unfold decoded_header. simpl_model. apply reread_int32. exact Hmajor. }
  repeat split.
  - apply GetPyBuffer_run. exact Hc.
  - exact Hs1.
  - exact Hs2.
  - unfold CreateFromPyBuffer, artifact_layout. rewrite map_app.
    rewrite (bind_Ok _ _ _ _ _
               (decode_header model created _ _ []
                  (frames_read_fields _ _ (header_layout_sized model))
                  Hmajor Hminor Hnew Hcreate')).
    rewrite DeserializeTrees_run. reflexivity.
  - unfold DeserializeFromStream, artifact_layout. rewrite flat_map_app.
    rewrite (bind_Ok _ _ _ _ _
               (decode_header model created _ _ []
                  (stream_read_fields _ _ (header_layout_sized model))
                  Hmajor Hminor Hnew Hcreate')).
    rewrite Hver.
    assert (E3 : (TREELITE_VER_MAJOR =? 3) = false) by (apply Z.eqb_neq; lia).
    rewrite E3, DeserializeTrees_run. reflexivity.
Qed.

(** For a model whose header members hold values of their types, the
    header read back is the header written: what the two decoders of
    [transports_decode_to_the_same_model] return is the created model
    with the header of the encoded one and new trees. *)
Lemma decoded_header_wf (model created : Model) :
  int32_range TREELITE_VER_MAJOR -> int32_range TREELITE_VER_MINOR ->
  int32_range TREELITE_VER_PATCH ->
  header_wf TREELITE_MAX_PRED_TRANSFORM_LENGTH model ->
  decoded_header model created
  = set_num_opt_field_per_model_ 0
      (set_param (param model)
         (set_task_param (task_param model)
            (set_average_tree_output (average_tree_output model)
               (set_task_type (task_type model)
                  (set_num_feature (num_feature model)
                     (set_num_tree_ (GetNumTree model)
                        (set_patch_ver_ TREELITE_VER_PATCH
                           (set_minor_ver_ TREELITE_VER_MINOR
                              (set_major_ver_ TREELITE_VER_MAJOR
                                 created))))))))).
Proof.
  intros Hmajor Hminor Hpatch (Hnt & Hnf & Htt & Htp & Hp).
  unfold decoded_header.
  rewrite !reread_int32 by (assumption || (unfold int32_range; lia)).
  rewrite reread_uint64 by assumption.
  unfold TaskType_t. rewrite reread_uint8 by assumption.
  rewrite reread_bool, reread_TaskParam, reread_ModelParam by assumption.
  reflexivity.
Qed.

(** ** More on the serializer: what a run leaves in the model *)

Section SerializerEffects.
Context {S : Type} {mixin_ : SerializerMixIn S}.

Lemma SerializeHeader_Ok (s s' : S) (model model' : Model) :
  SerializeHeader (s, model) = (Ok tt, (s', model')) ->
  model' = stamped_model model.
Proof.
  unfold SerializeHeader, stamped_model.
  unfold bind, assign, self, on_mixin, ret.
  simpl_model.
  repeat match goal with
         | |- context [SerializePrimitiveField ?ct ?v ?st] =>
             destruct (SerializePrimitiveField ct v st) as [[[] | ?] ?]; cbn
         | |- context [SerializeCompositeField ?ct ?v ?f ?st] =>
             destruct (SerializeCompositeField ct v f st) as [[[] | ?] ?]; cbn
         end;
    intros H; try discriminate H.
  congruence.
Qed.

Lemma SerializeTree_Ok th lo (s s' : S) (tree tree' : Tree) :
  SerializeTree th lo (s, tree) = (Ok tt, (s', tree')) ->
  tree' = serialized_tree tree /\ tree_consistent tree = true.
Proof.
  unfold SerializeTree, serialized_tree, tree_consistent.
  unfold CHECK_EQ, bind, assign, self, on_mixin, ret, fatal.
  destruct (to_uint64 (num_nodes tree) =? Size (nodes_ tree));
    [| intros H; discriminate H].
  simpl_model.
  repeat match goal with
         | |- context [SerializePrimitiveField ?ct ?v ?st] =>
             destruct (SerializePrimitiveField ct v st) as [[[] | ?] ?];
             simpl_model
         | |- context [SerializePrimitiveArray ?ct ?v ?st] =>
             destruct (SerializePrimitiveArray ct v st) as [[[] | ?] ?];
             simpl_model
         | |- context [SerializeCompositeArray ?ct ?v ?f ?st] =>
             destruct (SerializeCompositeArray ct v f st) as [[[] | ?] ?];
             simpl_model
         end;
    intros H; try discriminate H.
  split; [congruence | reflexivity].
Qed.

Lemma for_each_SerializeTree_Ok th lo (ts ts' : list Tree) (s s' : S) :
  for_each (SerializeTree th lo) ts s = (Ok tt, (s', ts')) ->
  ts' = map serialized_tree ts /\ forallb tree_consistent ts = true.
Proof.
  revert s ts'. induction ts as [| t ts IH]; intros s ts'; cbn [for_each].
  - intros H. injection H as _ <-. split; reflexivity.
  - destruct (SerializeTree th lo (s, t)) as [[[] | msg] [s1 t']] eqn:Ht;
      [| intros H; discriminate H].
    apply SerializeTree_Ok in Ht. destruct Ht as [-> Hc].
    destruct (for_each (SerializeTree th lo) ts s1) as [r [s2 rest']] eqn:Hts.
    intros H. injection H as -> <- <-.
    destruct (IH _ _ Hts) as [-> Hcs].
    cbn [map forallb]. rewrite Hc, Hcs. split; reflexivity.
Qed.

(** X5: a serialization that ends normally has rewritten the model it
    was given: the version stamp is the one of the running library, the
    two type tags are those of the preset held, the tree count is the
    number of trees held, and the optional-field counts of the model and
    of every tree are 0, whatever these members held before; nothing
    else is changed.  And every tree of the model had as many nodes as it
    declared.  So stale values of these members never stop a
    serialization: the tree count tested by [SerializeTrees] is the one
    [SerializeHeader] has just assigned. *)
Theorem serialization_restamps_the_model (s s' : S) (model model' : Model) :
  (SerializeHeader ;; SerializeTrees) (s, model) = (Ok tt, (s', model')) ->
  model' = serialized_model model /\
  major_ver_ model' = TREELITE_VER_MAJOR /\
  minor_ver_ model' = TREELITE_VER_MINOR /\
  patch_ver_ model' = TREELITE_VER_PATCH /\
  num_tree_ model' = Size (trees (variant_ model')) /\
  threshold_type_ model' = GetThresholdType model /\
  leaf_output_type_ model' = GetLeafOutputType model /\
  logical_model model' = logical_model model /\
  forallb tree_consistent (trees (variant_ model)) = true.
Proof.
  intros H. apply bind_Ok_inv in H.
  destruct H as ([] & [s1 m1] & Hh & Ht).
  apply SerializeHeader_Ok in Hh. subst m1.
  rewrite SerializeTrees_unfold in Ht.
  assert (Hn : Size (trees (variant_ (stamped_model model)))
               = num_tree_ (stamped_model model)) by reflexivity.
  rewrite Hn, CHECK_EQ_same in Ht. unfold for_each_tree in Ht.
  destruct (for_each _ (trees (variant_ (stamped_model model))) s1)
    as [r [s2 ts']] eqn:Hts.
  injection Ht as -> <- <-.
  apply for_each_SerializeTree_Ok in Hts. destruct Hts as [-> Hc].
  unfold serialized_model, stamped_model. simpl_model.
  repeat split; try reflexivity.
  - unfold Size. rewrite length_map. reflexivity.
  - unfold logical_model. simpl_model. rewrite map_map.
    reflexivity.
  - exact Hc.
Qed.

End SerializerEffects.

(** ** More on the deserializer *)

Section DeserializerCases.
Context {S : Type} {mixin_ : DeserializerMixIn S}.

(** X6: the current header decoder assigns every header member from the
    artifact: a model it returns is the model that [Model::Create] made
    for the two type tags read, with the tree count, the feature count,
    the task type, the average-tree-output flag, the two parameter
    composites and the optional-field count as they were read, in this
    order, and with the version triple it was given (the one stored in
    the artifact, not the one of the running library); that many optional
    fields were then skipped.  The stored major version is 3 or more. *)
Theorem current_header_holds_the_values_read
    (major minor patch : Z) (s : S) (log : list string)
    (model : Model) (st' : DState S) :
  DeserializeHeaderAndCreateModel_current major minor patch (s, log)
    = (Ok model, st') ->
  exists (th lo : Z) (created : Model) (s1 s2 s3 s4 s5 s6 s7 s8 s9 : S),
    DeserializePrimitiveField TypeInfo_t s = (Ok th, s1) /\
    DeserializePrimitiveField TypeInfo_t s1 = (Ok lo, s2) /\
    Model_Create th lo = Ok created /\
    DeserializePrimitiveField uint64_t s2 = (Ok (num_tree_ model), s3) /\
    DeserializePrimitiveField int32_t s3 = (Ok (num_feature model), s4) /\
    DeserializePrimitiveField TaskType_t s4 = (Ok (task_type model), s5) /\
    DeserializePrimitiveField bool_t s5
      = (Ok (average_tree_output model), s6) /\
    DeserializeCompositeField TaskParam_t s6 = (Ok (task_param model), s7) /\
    DeserializeCompositeField
      (ModelParam_t TREELITE_MAX_PRED_TRANSFORM_LENGTH) s7
      = (Ok (param model), s8) /\
    DeserializePrimitiveField int32_t s8
      = (Ok (num_opt_field_per_model_ model), s9) /\
    skip_fields (num_opt_field_per_model_ model) (s9, log) = (Ok tt, st') /\
    major_ver_ model = major /\ minor_ver_ model = minor /\
    patch_ver_ model = patch /\ 3 <= major /\
    threshold_type_ model = threshold_type_ created /\
    leaf_output_type_ model = leaf_output_type_ created /\
    variant_ model = variant_ created.
Proof.
  unfold DeserializeHeaderAndCreateModel_current. intros H.
  apply on_mixin_Ok_inv in H. destruct H as (th & s1 & R1 & H).
  apply on_mixin_Ok_inv in H. destruct H as (lo & s2 & R2 & H).
  apply lift_Ok_inv in H. destruct H as (created & RC & H).
  apply on_mixin_Ok_inv in H. destruct H as (ntree & s3 & R3 & H).
  apply on_mixin_Ok_inv in H. destruct H as (nfeat & s4 & R4 & H).
  apply on_mixin_Ok_inv in H. destruct H as (tt' & s5 & R5 & H).
  apply on_mixin_Ok_inv in H. destruct H as (avg & s6 & R6 & H).
  apply on_mixin_Ok_inv in H. destruct H as (tp & s7 & R7 & H).
  apply on_mixin_Ok_inv in H. destruct H as (mp & s8 & R8 & H).
  destruct (Z.geb_spec major 3) as [Hge |]; [| discriminate H].
  apply on_mixin_Ok_inv in H. destruct H as (nopt & s9 & R9 & H).
  apply bind_Ok_inv in H. destruct H as ([] & st1 & Hskip & H).
  unfold ret in H. injection H as <- <-.
  simpl_model_in Hskip.
  exists th, lo, created, s1, s2, s3, s4, s5, s6, s7, s8, s9.
  simpl_model. repeat split; try assumption; try reflexivity.
Qed.

(** X7: an artifact that names a pair of numeric types for which
    [Model::Create] throws stops either header decoder with that error
    once the two type tags are read: nothing after them is read. *)
Theorem unsupported_type_pair_stops_the_header_decoder
    (major minor patch th lo : Z) (s s1 s2 : S) (log : list string)
    (msg : string) :
  DeserializePrimitiveField TypeInfo_t s = (Ok th, s1) ->
  DeserializePrimitiveField TypeInfo_t s1 = (Ok lo, s2) ->
  Model_Create th lo = Fatal msg ->
  DeserializeHeaderAndCreateModel_current major minor patch (s, log)
    = (Fatal msg, (s2, log)) /\
  DeserializeHeaderAndCreateModelV3 major minor patch (s, log)
    = (Fatal msg, (s2, log)).
Proof.
  intros R1 R2 RC. split.
  - unfold DeserializeHeaderAndCreateModel_current.
    rewrite (on_mixin_Ok _ _ _ _ _ _ R1), (on_mixin_Ok _ _ _ _ _ _ R2).
    apply bind_Fatal. unfold lift. rewrite RC. reflexivity.
  - unfold DeserializeHeaderAndCreateModelV3.
    rewrite (on_mixin_Ok _ _ _ _ _ _ R1), (on_mixin_Ok _ _ _ _ _ _ R2).
    apply bind_Fatal. unfold lift. rewrite RC. reflexivity.
Qed.

(** X8: the header of a model comes back from its encoding.  When the
    transport delivers the header fields that [SerializeHeader] writes
    for [model] (version 4 or later of the library, header members that
    hold values of their types), the header decoder returns the model
    that [Model::Create] makes for the pair of types of [model], with the
    tree count, feature count, task type, average-tree-output flag, task
    parameters and model parameters of [model], the version of the
    library and no optional field; no warning is logged. *)
Theorem header_round_trip (model created : Model) (s s' : S)
    (log : list string) :
  3 < TREELITE_VER_MAJOR ->
  int32_range TREELITE_VER_MAJOR -> int32_range TREELITE_VER_MINOR ->
  int32_range TREELITE_VER_PATCH ->
  header_wf TREELITE_MAX_PRED_TRANSFORM_LENGTH model ->
  uint8_range (GetThresholdType model) ->
  uint8_range (GetLeafOutputType model) ->
  Model_Create (GetThresholdType model) (GetLeafOutputType model)
    = Ok created ->
  read_fields (header_layout model) s s' ->
  exists decoded : Model,
    DeserializeHeaderAndCreateModel (s, log) = (Ok decoded, (s', log)) /\
    major_ver_ decoded = TREELITE_VER_MAJOR /\
    minor_ver_ decoded = TREELITE_VER_MINOR /\
    patch_ver_ decoded = TREELITE_VER_PATCH /\
    num_tree_ decoded = GetNumTree model /\
    num_feature decoded = num_feature model /\
    task_type decoded = task_type model /\
    average_tree_output decoded = average_tree_output model /\
    task_param decoded = task_param model /\
    param decoded = param model /\
    num_opt_field_per_model_ decoded = 0 /\
    variant_ decoded = variant_ created.
Proof.
  intros Hnew Hmajor Hminor Hpatch Hwf Hth Hlo Hcreate Hread.
  exists (decoded_header model created). split.
  - apply decode_header; try assumption.
    unfold TypeInfo_t. rewrite !reread_uint8 by assumption. exact Hcreate.
  - rewrite decoded_header_wf by assumption. simpl_model.
    repeat split; reflexivity.
Qed.

(** *** The tree decoders *)

(** X9: the legacy tree decoder stops with
    [Could not load the correct number of nodes] when the node array it
    reads does not have as many elements as the node count read before
    it; the leaf vector and what follows it are not read. *)
Theorem legacy_node_count_mismatch_is_fatal th lo (tree : Tree)
    (s s1 s2 s3 : S) (log : list string)
    (declared : Z) (has_categorical_split : bool) (nodes : list NodeV3) :
  DeserializePrimitiveField int32_t s = (Ok declared, s1) ->
  DeserializePrimitiveField bool_t s1 = (Ok has_categorical_split, s2) ->
  DeserializeCompositeArray
    (NodeV3_t Numeric_t SplitFeatureType_t Operator_t th lo) s2
    = (Ok nodes, s3) ->
  int32_range declared -> Size nodes < 2 ^ 63 -> declared <> Size nodes ->
  DeserializeTreeV3 th lo tree (s, log)
  = (Fatal msg_nodes_not_loaded, (s3, log)).
Proof.
  intros R1 R2 R3 Hr Hs Hne. unfold DeserializeTreeV3.
  rewrite (on_mixin_Ok _ _ _ _ _ _ R1), (on_mixin_Ok _ _ _ _ _ _ R2).
  rewrite (on_mixin_Ok _ _ _ _ _ _ R3).
  apply bind_Fatal. simpl_model. apply CHECK_EQ_differ.
  intros Heq. apply Hne.
  apply to_uint64_eq_Size; [exact Hr | unfold Size in *; lia | exact Heq].
Qed.

(** X10: the legacy tree decoder decodes a tree record of the 3.9
    format.  When the transport delivers the fields of such a record,
    whose node array has as many elements as the record declares, and
    lets the decoder skip as many optional fields as the two counts say,
    the decoder returns the tree it was given with the node count, the
    categorical-split flag, the five arrays and the two optional-field
    counts read; the node records read are not kept. *)
Theorem legacy_tree_record_is_decoded th lo (tree : Tree)
    (s s9 s10 s11 s' : S) (log : list string)
    (declared : Z) (has_categorical_split : bool) (nodes : list NodeV3)
    (leaf_vector leaf_vector_begin leaf_vector_end matching_categories
       matching_categories_offset : list Z)
    (num_opt_field_per_tree num_opt_field_per_node : Z) :
  read_fields
    (legacy_tree_fields th lo declared has_categorical_split nodes
       leaf_vector leaf_vector_begin leaf_vector_end matching_categories
       matching_categories_offset num_opt_field_per_tree) s s9 ->
  to_uint64 (reread int32_t declared) = Size nodes ->
  skip_fields (reread int32_t num_opt_field_per_tree) (s9, log)
    = (Ok tt, (s10, log)) ->
  read_field (PrimitiveField int32_t num_opt_field_per_node) s10 s11 ->
  skip_fields (reread int32_t num_opt_field_per_node) (s11, log)
    = (Ok tt, (s', log)) ->
  DeserializeTreeV3 th lo tree (s, log)
  = (Ok (legacy_decoded_tree lo declared has_categorical_split leaf_vector
           leaf_vector_begin leaf_vector_end matching_categories
           matching_categories_offset num_opt_field_per_tree
           num_opt_field_per_node tree),
     (s', log)) /\
  nodes_ (legacy_decoded_tree lo declared has_categorical_split leaf_vector
            leaf_vector_begin leaf_vector_end matching_categories
            matching_categories_offset num_opt_field_per_tree
            num_opt_field_per_node tree) = nodes_ tree.
Proof.
  intros Hread Hcount Hskip1 R10 Hskip2.
  split; [| reflexivity].
  unfold legacy_tree_fields in Hread. cbn [read_fields read_field] in Hread.
  destruct Hread as (s1 & R1 & s2 & R2 & s3 & R3 & s4 & R4 & s5 & R5
                     & s6 & R6 & s7 & R7 & s8 & R8 & s9' & R9 & <-).
  cbn [read_field] in R10.
  unfold DeserializeTreeV3.
  rewrite (on_mixin_Ok _ _ _ _ _ _ R1), (on_mixin_Ok _ _ _ _ _ _ R2).
  rewrite (on_mixin_Ok _ _ _ _ _ _ R3).
  simpl_model. unfold Size in *. rewrite length_map.
  rewrite Hcount.
  rewrite (bind_Ok (CHECK_EQ _ _ _) _ _ _ _ (CHECK_EQ_same _ _ (s3, log))).
  rewrite (on_mixin_Ok _ _ _ _ _ _ R4), (on_mixin_Ok _ _ _ _ _ _ R5).
  rewrite (on_mixin_Ok _ _ _ _ _ _ R6), (on_mixin_Ok _ _ _ _ _ _ R7).
  rewrite (on_mixin_Ok _ _ _ _ _ _ R8), (on_mixin_Ok _ _ _ _ _ _ R9).
  simpl_model.
  rewrite (bind_Ok (skip_fields _) _ _ _ _ Hskip1).
  rewrite (on_mixin_Ok _ _ _ _ _ _ R10).
  simpl_model.
  rewrite (bind_Ok (skip_fields _) _ _ _ _ Hskip2).
  reflexivity.
Qed.

Lemma emplace_trees_inv (decode : Tree -> M (DState S) Tree)
    (P : Tree -> Prop) :
  (forall st tree st', decode Tree_new st = (Ok tree, st') -> P tree) ->
  forall (n : nat) (ts ts' : list Tree) (st st' : DState S),
    emplace_trees decode n ts st = (Ok ts', st') ->
    exists new : list Tree,
      ts' = ts ++ new /\ List.length new = n /\ Forall P new.
Proof.
  intros HP. induction n as [| n IH]; intros ts ts' st st' H;
    cbn [emplace_trees] in H.
  - unfold ret in H. injection H as <- _.
    exists []. rewrite app_nil_r. repeat split. constructor.
  - apply bind_Ok_inv in H. destruct H as (tree & st1 & Hd & H).
    apply IH in H. destruct H as (new & -> & Hlen & Hnew).
    exists (tree :: new). rewrite <- app_assoc. cbn [app List.length].
    repeat split; [congruence |].
    constructor; [exact (HP _ _ _ Hd) | exact Hnew].
Qed.

(** X11: the trees of a model decoded on the legacy path never get
    nodes.  A model that [DeserializeTreesV3] returns is the model it was
    given with its trees replaced by as many trees as the header
    declares, and each of them has the node array of a new tree, whatever
    node count it declares. *)
Theorem legacy_trees_never_get_nodes (model model' : Model)
    (st st' : DState S) :
  DeserializeTreesV3 model st = (Ok model', st') ->
  model' = set_variant_ (set_trees (trees (variant_ model')) (variant_ model))
             model /\
  List.length (trees (variant_ model')) = Z.to_nat (num_tree_ model) /\
  Forall (fun tree => nodes_ tree = nodes_ Tree_new) (trees (variant_ model')).
Proof.
  unfold DeserializeTreesV3. intros H.
  apply bind_Ok_inv in H. destruct H as (ts & st1 & Hts & H).
  unfold ret in H. injection H as <- _.
  apply (emplace_trees_inv _ (fun tree => nodes_ tree = nodes_ Tree_new))
    in Hts.
  - destruct Hts as (new & -> & Hlen & Hnew). cbn [app]. simpl_model.
    repeat split; assumption.
  - intros st0 tree st0' Hd.
    apply DeserializeTreeV3_keeps_nodes in Hd. apply Hd.
Qed.

(** X12: the current tree decoder reads nothing.  [DeserializeTrees]
    never fails and never touches the transport or the log: it returns the
    model it was given with its trees replaced by as many new trees as
    the header declares (none when the count is 0). *)
Theorem current_trees_are_new_trees (model : Model) (st : DState S) :
  DeserializeTrees model st
  = (Ok (set_variant_
           (set_trees (repeat Tree_new (Z.to_nat (num_tree_ model)))
              (variant_ model))
           model),
     st) /\
  (num_tree_ model <= 0 ->
   fst (DeserializeTrees model st)
   = Ok (set_variant_ (set_trees [] (variant_ model)) model)).
Proof.
  rewrite DeserializeTrees_run. unfold with_new_trees. split; [reflexivity |].
  intros H. cbn [fst].
  assert (E : Z.to_nat (num_tree_ model) = 0%nat) by lia.
  rewrite E. reflexivity.
Qed.

(** X18: the loops that ignore extra fields.  A count that is zero or
    negative skips nothing and leaves the transport as it is; a positive
    count skips one field and goes on with the count less one, so that
    [n] fields are skipped in all; and a skip that fails ends the loop
    with its error, the transport left where that skip left it. *)
Theorem optional_fields_are_skipped_one_by_one (n : Z) (s : S)
    (log : list string) :
  (n <= 0 -> skip_fields n (s, log) = (Ok tt, (s, log))) /\
  (0 < n ->
   skip_fields n (s, log)
   = (on_mixin SkipOptionalField ;; skip_fields (n - 1)) (s, log)) /\
  (forall (msg : string) (s1 : S),
     0 < n -> SkipOptionalField s = (Fatal msg, s1) ->
     skip_fields n (s, log) = (Fatal msg, (s1, log))) /\
  (forall skip : S -> S,
     (forall s0 : S, SkipOptionalField s0 = (Ok tt, skip s0)) ->
     skip_fields n (s, log) = (Ok tt, (Nat.iter (Z.to_nat n) skip s, log))).
Proof.
  assert (Hstep : 0 < n ->
            skip_fields n (s, log)
            = (on_mixin SkipOptionalField ;; skip_fields (n - 1)) (s, log)).
  { intros H. unfold skip_fields.
    replace (Z.to_nat n) with (Datatypes.S (Z.to_nat (n - 1))) by lia.
    reflexivity. }
  split; [| split; [exact Hstep | split]].
  - intros H. unfold skip_fields.
    replace (Z.to_nat n) with 0%nat by lia. reflexivity.
  - intros msg s1 H Hskip. rewrite Hstep by exact H.
    apply on_mixin_Fatal. exact Hskip.
  - intros skip Hskip. unfold skip_fields.
    clear Hstep. generalize (Z.to_nat n) as k. intros k. revert s.
    induction k as [| k IH]; intros s0; [reflexivity |].
    cbn [repeatM].
    rewrite (on_mixin_Ok _ _ _ _ _ _ (Hskip s0)), IH.
    rewrite <- Nat.iter_succ_r. reflexivity.
Qed.

End DeserializerCases.

(** ** The entry points *)

(** X17: [Model::CreateFromPyBuffer] decodes the trees with the current
    tree decoder whatever version the artifact states, so that it reads
    nothing after the header: the frames that the header decoder leaves
    are left unread, and the trees of the model returned are new ones,
    also for an artifact of version 3.9.  [Model::DeserializeFromStream]
    does the same unless the version stored is of major version 3, in
    which case it goes on with the legacy tree decoder. *)
Theorem entry_points_choose_the_tree_decoder (header : Model)
    (log : list string) :
  (forall frames rest : list PyBufferFrame,
     DeserializeHeaderAndCreateModel (frames, []) = (Ok header, (rest, log)) ->
     CreateFromPyBuffer frames = (Ok (with_new_trees header), (rest, log))) /\
  (forall input rest : list byte,
     DeserializeHeaderAndCreateModel (input, []) = (Ok header, (rest, log)) ->
     major_ver_ header <> 3 ->
     DeserializeFromStream input = (Ok (with_new_trees header), (rest, log))) /\
  (forall input rest : list byte,
     DeserializeHeaderAndCreateModel (input, []) = (Ok header, (rest, log)) ->
     major_ver_ header = 3 ->
     DeserializeFromStream input = DeserializeTreesV3 header (rest, log)).
Proof.
  split; [| split].
  - intros frames rest H. unfold CreateFromPyBuffer.
    rewrite (bind_Ok _ _ _ _ _ H). apply DeserializeTrees_run.
  - intros input rest H Hv. unfold DeserializeFromStream.
    rewrite (bind_Ok _ _ _ _ _ H).
    destruct (Z.eqb_spec (major_ver_ header) 3); [contradiction |].
    apply DeserializeTrees_run.
  - intros input rest H Hv. unfold DeserializeFromStream.
    rewrite (bind_Ok _ _ _ _ _ H), Hv. reflexivity.
Qed.


End Treelite.

(** * The code at work on concrete artifacts

    Treelite 4.0.0, as configured above. *)

(** C1: the model of section 8 (float thresholds and leaf outputs, ten
    features, a regressor, one tree of three nodes) does not come back
    from its own encoding: on either transport the decoded model has one
    tree, and that tree is a new, empty one, since [DeserializeTree]
    reads nothing. *)
Theorem roundtrip_loses_the_trees :
  (exists (frames : list PyBufferFrame) (decoded : Model),
     fst (GetPyBuffer 4 0 0 256 sample_Numeric_t sample_Node_t
            sample_format example_model) = Ok frames /\
     fst (CreateFromPyBuffer 4 0 256 sample_Model_Create sample_Tree_new
            frames) = Ok decoded /\
     num_feature decoded = num_feature example_model /\
     trees (variant_ decoded) = [sample_Tree_new]) /\
  (exists (bytes : list byte) (decoded : Model),
     fst (snd (SerializeToStream 4 0 0 256 sample_Numeric_t sample_Node_t
                 sample_format example_model [])) = bytes /\
     fst (DeserializeFromStream 4 0 256 sample_Numeric_t int8_t int8_t
            sample_Model_Create sample_Tree_new bytes) = Ok decoded /\
     num_feature decoded = num_feature example_model /\
     trees (variant_ decoded) = [sample_Tree_new]) /\
  trees (variant_ example_model) = [example_tree] /\
  example_tree <> sample_Tree_new.
Proof.
  split; [| split; [| split]].
  - eexists. eexists. split; [vm_compute; reflexivity |].
    split; [vm_compute; reflexivity |]. split; reflexivity.
  - eexists. eexists. split; [reflexivity |].
    split; [vm_compute; reflexivity |]. split; reflexivity.
  - reflexivity.
  - discriminate.
Qed.

(** C3: a tree decoded on the legacy path need not have as many nodes as
    it declares: the decode of the 3.9 checkpoint succeeds and its tree
    declares one node and holds none, because the node records read are
    dropped; serializing the decoded model then fails the serializer's
    own test of the node count.  And on the current path a node array
    that is shorter than the declared count does not stop the decode. *)
Theorem legacy_tree_has_no_nodes :
  (exists (decoded : Model) (tree : Tree),
     fst (DeserializeFromStream 4 0 256 sample_Numeric_t int8_t int8_t
            sample_Model_Create sample_Tree_new legacy_artifact)
     = Ok decoded /\
     trees (variant_ decoded) = [tree] /\
     num_nodes tree = 1 /\ nodes_ tree = [] /\
     fst (GetPyBuffer 4 0 0 256 sample_Numeric_t sample_Node_t
            sample_format decoded) = Fatal msg_incorrect_nodes) /\
  (exists decoded : Model,
     fst (CreateFromPyBuffer 4 0 256 sample_Model_Create sample_Tree_new
            short_frames) = Ok decoded).
Proof.
  split.
  - eexists. eexists. split; [vm_compute; reflexivity |].
    split; [reflexivity |]. split; [reflexivity |].
    split; [reflexivity |]. vm_compute. reflexivity.
  - eexists. vm_compute. reflexivity.
Qed.

(** C7: on the current path the per-tree and per-node optional-field
    counts are not read and no optional field is skipped.  The artifact
    announces two model-level optional fields and, in its tree record,
    two per-tree optional fields: the decode succeeds, the header decoder
    reads the count 2 and skips the two fields, so that the frames left
    are those of the tree record, and every frame of the tree record is
    left unread.  The legacy tree decoder does read the counts: it passes
    over the per-tree optional field of the 3.9 checkpoint and reaches
    the end of the stream. *)
Theorem current_path_skips_no_tree_fields :
  (exists decoded : Model,
     CreateFromPyBuffer 4 0 256 sample_Model_Create sample_Tree_new
       extended_frames
     = (Ok decoded, (map frame_of extended_tree_record, [])) /\
     num_opt_field_per_model_ decoded = 2 /\
     trees (variant_ decoded) = [sample_Tree_new]) /\
  (exists (decoded : Model) (tree : Tree),
     DeserializeFromStream 4 0 256 sample_Numeric_t int8_t int8_t
       sample_Model_Create sample_Tree_new legacy_extended_artifact
     = (Ok decoded, ([], [warn_from_3_9])) /\
     trees (variant_ decoded) = [tree] /\
     num_opt_field_per_tree_ tree = 1).
Proof.
  split.
  - eexists. split; [vm_compute; reflexivity |]. split; reflexivity.
  - eexists. eexists. split; [vm_compute; reflexivity |].
    split; reflexivity.
Qed.

(** ** The theorems at concrete inputs *)

(** version_gate on streams that start with 3.0.0, 3.9.0, 4.1.0 and
    4.0.0. *)
Lemma version_gate_witness :
  DeserializeHeaderAndCreateModel 4 0 256 sample_Model_Create
    (version_triple 3 0 0, [])
  = (Fatal msg_other_major, ([], [])) /\
  DeserializeHeaderAndCreateModel 4 0 256 sample_Model_Create
    (version_triple 3 9 0, [])
  = DeserializeHeaderAndCreateModelV3 256 sample_Model_Create 3 9 0
      ([], [warn_from_3_9]) /\
  DeserializeHeaderAndCreateModel 4 0 256 sample_Model_Create
    (version_triple 4 1 0, [])
  = DeserializeHeaderAndCreateModel_current 256 sample_Model_Create 4 1 0
      ([], [warn_newer]) /\
  DeserializeHeaderAndCreateModel 4 0 256 sample_Model_Create
    (version_triple 4 0 0, [])
  = DeserializeHeaderAndCreateModel_current 256 sample_Model_Create 4 0 0
      ([], []).
Proof.
  split; [| split; [| split]].
  - apply (version_gate 4 0 256 sample_Model_Create
             (version_triple 3 0 0) (skipn 4 (version_triple 3 0 0))
             (skipn 8 (version_triple 3 0 0)) [] [] 3 0 0);
      solve [vm_compute; reflexivity | lia].
  - apply (version_gate 4 0 256 sample_Model_Create
             (version_triple 3 9 0) (skipn 4 (version_triple 3 9 0))
             (skipn 8 (version_triple 3 9 0)) [] [] 3 9 0);
      solve [vm_compute; reflexivity | lia].
  - apply (version_gate 4 0 256 sample_Model_Create
             (version_triple 4 1 0) (skipn 4 (version_triple 4 1 0))
             (skipn 8 (version_triple 4 1 0)) [] [] 4 1 0);
      solve [vm_compute; reflexivity | lia].
  - apply (version_gate 4 0 256 sample_Model_Create
             (version_triple 4 0 0) (skipn 4 (version_triple 4 0 0))
             (skipn 8 (version_triple 4 0 0)) [] [] 4 0 0);
      solve [vm_compute; reflexivity | lia].
Defined.

(** count_mismatch_aborts_serialization on the frame transport: a model
    that declares three trees and has one, a tree that declares five
    nodes and has three, and a model whose second tree is that tree. *)
Lemma count_mismatch_witness :
  SerializeTrees sample_Numeric_t sample_Node_t sample_format
    (([] : list PyBufferFrame), set_num_tree_ 3 example_model)
  = (Fatal msg_incorrect_trees, ([], set_num_tree_ 3 example_model)) /\
  SerializeTree sample_Numeric_t sample_Node_t sample_format 2 2
    (([] : list PyBufferFrame), inconsistent_tree)
  = (Fatal msg_incorrect_nodes, ([], inconsistent_tree)) /\
  SerializeTrees sample_Numeric_t sample_Node_t sample_format
    (([] : list PyBufferFrame), inconsistent_model)
  = (Fatal msg_incorrect_nodes,
     (map frame_of
        (tree_layout sample_Numeric_t sample_Node_t sample_format 2 2
           example_tree),
      inconsistent_model)).
Proof.
  destruct (count_mismatch_aborts_serialization sample_Numeric_t
              sample_Node_t sample_format ([] : list PyBufferFrame))
    as (Htrees & Htree & Hprefix).
  split; [| split].
  - apply Htrees. vm_compute. discriminate.
  - apply Htree; vm_compute; solve [intuition discriminate | reflexivity].
  - apply (Hprefix inconsistent_model [example_tree] [example_tree]
             [example_tree] inconsistent_tree);
      vm_compute; solve [intuition discriminate | reflexivity].
Defined.

(** encoding_is_deterministic at the model of section 8 and the same
    model with other values in the recomputed members. *)
Lemma encoding_is_deterministic_witness :
  logical_model example_model = logical_model restamped_model /\
  fst (GetPyBuffer 4 0 0 256 sample_Numeric_t sample_Node_t sample_format
         example_model)
  = fst (GetPyBuffer 4 0 0 256 sample_Numeric_t sample_Node_t sample_format
           restamped_model).
Proof.
  assert (H : logical_model example_model = logical_model restamped_model)
    by reflexivity.
  split; [exact H |].
  destruct (encoding_is_deterministic 4 0 0 256 sample_Numeric_t
              sample_Node_t sample_format ([] : list PyBufferFrame)
              example_model restamped_model H) as (Hr & Hs & _).
  unfold GetPyBuffer.
  destruct ((SerializeHeader 4 0 0 256 ;;
             SerializeTrees sample_Numeric_t sample_Node_t sample_format)
              (([] : list PyBufferFrame), example_model))
    as [r1 [s1 m1]].
  destruct ((SerializeHeader 4 0 0 256 ;;
             SerializeTrees sample_Numeric_t sample_Node_t sample_format)
              (([] : list PyBufferFrame), restamped_model))
    as [r2 [s2 m2]].
  cbn [fst snd] in *. subst r2 s2. reflexivity.
Defined.

(** fields_written_in_layout_order at the model of section 8, on the
    frame transport: the frames are those of the header followed by
    those of the tree. *)
Lemma fields_written_witness :
  fst (snd ((SerializeHeader 4 0 0 256 ;;
             SerializeTrees sample_Numeric_t sample_Node_t sample_format)
              (([] : list PyBufferFrame), example_model)))
  = map frame_of
      (header_layout 4 0 0 256 example_model
         ++ tree_layout sample_Numeric_t sample_Node_t sample_format 2 2
              example_tree).
Proof.
  destruct (fields_written_in_layout_order 4 0 0 256 sample_Numeric_t
              sample_Node_t sample_format ([] : list PyBufferFrame)
              example_model) as (Hs & _ & _ & Hall).
  rewrite Hs, (Hall eq_refl), frames_write_fields.
  cbn [snd app]. unfold trees_layout. cbn [flat_map trees variant_
    example_model GetThresholdType GetLeafOutputType
    preset_threshold_type preset_leaf_output_type].
  rewrite app_nil_r. reflexivity.
Defined.

(** StringToTaskType_recognizes_exactly_five at a string that is none of
    the five codes. *)
Lemma StringToTaskType_witness :
  StringToTaskType "kRanker" = Fatal "Unknown task type: kRanker".
Proof.
  apply (proj2 StringToTaskType_recognizes_exactly_five "kRanker");
    discriminate.
Defined.

(** transports_decode_to_the_same_model at the model of section 8. *)
Lemma transports_witness :
  exists (frames : list PyBufferFrame) (bytes : list byte) (decoded : Model),
    fst (GetPyBuffer 4 0 0 256 sample_Numeric_t sample_Node_t sample_format
           example_model) = Ok frames /\
    fst (SerializeToStream 4 0 0 256 sample_Numeric_t sample_Node_t
           sample_format example_model []) = Ok tt /\
    fst (snd (SerializeToStream 4 0 0 256 sample_Numeric_t sample_Node_t
                sample_format example_model [])) = bytes /\
    fst (CreateFromPyBuffer 4 0 256 sample_Model_Create sample_Tree_new
           frames) = Ok decoded /\
    fst (DeserializeFromStream 4 0 256 sample_Numeric_t int8_t int8_t
           sample_Model_Create sample_Tree_new bytes) = Ok decoded /\
    decoded
    = with_new_trees sample_Tree_new
        (decoded_header 4 0 0 256 example_model (sample_Model_new 2 2)).
Proof.
  apply (transports_decode_to_the_same_model 4 0 0 256 sample_Numeric_t
           int8_t int8_t sample_Node_t sample_format sample_Model_Create
           sample_Tree_new example_model (sample_Model_new 2 2));
    solve [ lia | unfold int32_range, uint8_range; cbn; lia | reflexivity ].
Defined.

(** legacy_header_keeps_created_task_fields at the 3.9 checkpoint, whose
    stored task type is 2, whose stored task parameters name three
    classes and whose stored transform is [softmax]. *)
Lemma legacy_header_witness :
  DeserializeHeaderAndCreateModelV3 256 sample_Model_Create 3 9 0
    (skipn 12 legacy_artifact, [])
  = (Ok legacy_decoded_header, (flat_map bytes_of legacy_tree_record, [])) /\
  task_type legacy_decoded_header = TaskType_value kBinaryClf /\
  task_param legacy_decoded_header = sample_TaskParam /\
  param legacy_decoded_header = sample_ModelParam.
Proof.
  destruct (legacy_header_keeps_created_task_fields 256 sample_Model_Create
              3 9 0 (skipn 12 legacy_artifact) []) as [Hreturned Hdecodes].
  assert (H : DeserializeHeaderAndCreateModelV3 256 sample_Model_Create
                3 9 0 (skipn 12 legacy_artifact, [])
              = (Ok legacy_decoded_header,
                 (flat_map bytes_of legacy_tree_record, []))).
  { rewrite (Hdecodes 2 2 1 10 2 true legacy_TaskParam legacy_ModelParam 0
               (sample_Model_new 2 2)
               (flat_map bytes_of legacy_tree_record)
               (flat_map bytes_of legacy_tree_record)).
    - vm_compute. reflexivity.
    - cbn [read_fields read_field].
      repeat (eexists; split; [vm_compute; reflexivity |]).
      reflexivity.
    - reflexivity.
    - reflexivity. }
  split; [exact H |].
  destruct (Hreturned legacy_decoded_header
              (flat_map bytes_of legacy_tree_record, []) H)
    as (th & lo & created & s1 & s2 & s3 & s4 & s5 & s6 & s7 & s8 & s9
        & ltt & ltp & lmp & R1 & R2 & RC & _ & _ & _ & _ & _ & _ & _
        & Htt & Htp & Hp & _).
  assert (Hth : th = 2) by (vm_compute in R1; congruence).
  assert (Hlo : lo = 2).
  { subst th. vm_compute in R1. injection R1 as <-.
    vm_compute in R2. congruence. }
  subst th lo. vm_compute in RC. injection RC as <-.
  rewrite Htt, Htp, Hp. repeat split; reflexivity.
Defined.

(** * The AST pass that counts descendants *)

Lemma ASTNode_induction (P : ASTNode -> Prop) :
  (forall folder num cs, Forall P cs -> P (ASTNode_new folder num cs)) ->
  forall node, P node.
Proof.
  intros H. fix IH 1. intros [folder num cs]. apply H.
  induction cs as [| c cs IHcs]; constructor; [apply IH | exact IHcs].
Qed.

Lemma int_add_exact (a b : Z) :
  - 2 ^ 31 <= a + b < 2 ^ 31 -> int_add a b = a + b.
Proof.
  intros H. unfold int_add, to_signed.
  destruct (Z_lt_le_dec (a + b) 0) as [Hneg | Hpos].
  - assert (E : (a + b) mod 2 ^ 32 = a + b + 2 ^ 32).
    { symmetry. apply (Z.mod_unique_pos _ _ (-1)); lia. }
    rewrite E. destruct (Z.ltb_spec (a + b + 2 ^ 32) (2 ^ (32 - 1))); lia.
  - rewrite Z.mod_small by lia.
    destruct (Z.ltb_spec (a + b) (2 ^ (32 - 1))); lia.
Qed.

Lemma count_unfold (folder : bool) (num : Z) (cs : list ASTNode) :
  count (ASTNode_new folder num cs) =
  if folder then (0, ASTNode_new folder 0 cs)
  else (fst (count_children count cs 0),
        ASTNode_new folder (fst (count_children count cs 0))
          (snd (count_children count cs 0))).
Proof.
  cbn [count]. destruct folder; [reflexivity |].
  destruct (count_children count cs 0) as [accum cs']. reflexivity.
Qed.

Lemma count_children_cons (child : ASTNode) (rest : list ASTNode) (accum : Z) :
  count_children count (child :: rest) accum =
  (fst (count_children count rest
          (int_add accum (int_add (fst (count child)) 1))),
   snd (count child)
     :: snd (count_children count rest
               (int_add accum (int_add (fst (count child)) 1)))).
Proof.
  cbn [count_children]. destruct (count child) as [c child'].
  cbn [fst snd].
  destruct (count_children count rest (int_add accum (int_add c 1)))
    as [accum' rest'].
  reflexivity.
Qed.

(** The nodes of the children are updated one by one, whatever the
    counter. *)
Lemma count_children_nodes (cs : list ASTNode) (accum : Z) :
  snd (count_children count cs accum) = map (fun c => snd (count c)) cs.
Proof.
  revert accum. induction cs as [| c cs IH]; intros accum.
  - reflexivity.
  - rewrite count_children_cons. cbn [snd map]. rewrite IH. reflexivity.
Qed.

Lemma visited_length_pos (node : ASTNode) :
  1 <= Z.of_nat (List.length (visited node)).
Proof. destruct node as [folder num cs]. cbn [visited List.length]. lia. Qed.

Lemma visited_sum_cons (c : ASTNode) (cs : list ASTNode) :
  visited_sum (c :: cs) = Z.of_nat (List.length (visited c)) + visited_sum cs.
Proof.
  unfold visited_sum. cbn [flat_map]. rewrite length_app. lia.
Qed.

Lemma visited_sum_nonneg (cs : list ASTNode) : 0 <= visited_sum cs.
Proof. unfold visited_sum. lia. Qed.

Lemma count_children_value (cs : list ASTNode) :
  Forall (fun c => Z.of_nat (List.length (visited c)) <= 2 ^ 31 ->
                   fst (count c) = descendants_visited c) cs ->
  forall accum : Z,
    0 <= accum -> accum + visited_sum cs < 2 ^ 31 ->
    fst (count_children count cs accum) = accum + visited_sum cs.
Proof.
  induction 1 as [| c cs Hc _ IH]; intros accum Hpos Hbound.
  - unfold visited_sum. cbn. lia.
  - rewrite visited_sum_cons in Hbound.
    pose proof (visited_length_pos c) as Hc1.
    pose proof (visited_sum_nonneg cs) as Hcs.
    rewrite count_children_cons. cbn [fst].
    rewrite Hc by lia. unfold descendants_visited.
    rewrite (int_add_exact (_ - 1) 1) by lia.
    rewrite int_add_exact by lia.
    rewrite IH by lia.
    rewrite visited_sum_cons. lia.
Qed.

Lemma count_value (node : ASTNode) :
  Z.of_nat (List.length (visited node)) <= 2 ^ 31 ->
  fst (count node) = descendants_visited node.
Proof.
  induction node as [folder num cs IH] using ASTNode_induction.
  intros Hbound. rewrite count_unfold. unfold descendants_visited.
  cbn [visited List.length] in *. destruct folder; cbn [fst].
  - reflexivity.
  - rewrite (count_children_value cs IH 0) by (unfold visited_sum; lia).
    unfold visited_sum. lia.
Qed.

Lemma no_folder_visited (node : ASTNode) :
  Forall (fun n => is_CodeFolderNode n = false) (all_nodes node) ->
  visited node = all_nodes node.
Proof.
  induction node as [folder num cs IH] using ASTNode_induction.
  cbn [all_nodes visited]. intros H. inversion H as [| ? ? Hroot Hrest]; subst.
  cbn [is_CodeFolderNode] in Hroot. subst folder. f_equal. clear H.
  induction cs as [| c cs IHcs]; [reflexivity |].
  cbn [flat_map] in *. apply Forall_app in Hrest. destruct Hrest as [Hc Hcs].
  inversion IH as [| ? ? IHc IHrest]; subst.
  rewrite IHc by exact Hc. rewrite IHcs by assumption. reflexivity.
Qed.

(** X1: [count] returns the number of nodes it visits below the node it
    is called on: every descendant that does not lie below a code folder
    (the folder itself is counted, what it holds is not).  In a tree
    without code folders that is every descendant.  The tree has at most
    2^31 visited nodes, so that the [int] counter holds the number. *)
Theorem count_returns_the_descendants_visited (node : ASTNode) :
  Z.of_nat (List.length (visited node)) <= 2 ^ 31 ->
  fst (count node) = Z.of_nat (List.length (visited node)) - 1 /\
  (Forall (fun n => is_CodeFolderNode n = false) (all_nodes node) ->
   fst (count node) = Z.of_nat (List.length (all_nodes node)) - 1) /\
  (is_CodeFolderNode node = true -> fst (count node) = 0).
Proof.
  intros Hbound. split; [| split].
  - apply count_value. exact Hbound.
  - intros H. rewrite <- (no_folder_visited node H).
    apply count_value. exact Hbound.
  - intros H. destruct node as [folder num cs]. cbn in H. subst folder.
    reflexivity.
Qed.

(** *** The counters written *)

Lemma visited_count_length (node : ASTNode) :
  List.length (visited (snd (count node))) = List.length (visited node).
Proof.
  induction node as [folder num cs IH] using ASTNode_induction.
  rewrite count_unfold. destruct folder; [reflexivity |].
  cbn [snd visited List.length]. f_equal.
  rewrite count_children_nodes.
  induction IH as [| c cs Hc _ IHcs]; [reflexivity |].
  cbn [map flat_map]. rewrite !length_app, Hc, IHcs. reflexivity.
Qed.

Lemma count_root_counter (node : ASTNode) :
  num_descendant_ast_node (snd (count node)) = fst (count node).
Proof.
  destruct node as [folder num cs]. rewrite count_unfold.
  destruct folder; reflexivity.
Qed.

Lemma visited_bound_children (cs : list ASTNode) (bound : Z) :
  visited_sum cs <= bound ->
  Forall (fun c => Z.of_nat (List.length (visited c)) <= bound) cs.
Proof.
  induction cs as [| c cs IH]; intros H; constructor.
  - rewrite visited_sum_cons in H. pose proof (visited_sum_nonneg cs). lia.
  - apply IH. rewrite visited_sum_cons in H.
    pose proof (visited_length_pos c). lia.
Qed.

Lemma count_counters (node : ASTNode) :
  Z.of_nat (List.length (visited node)) <= 2 ^ 31 ->
  Forall (fun n => num_descendant_ast_node n = descendants_visited n)
    (visited (snd (count node))).
Proof.
  induction node as [folder num cs IH] using ASTNode_induction.
  intros Hbound.
  assert (Hroot :
    num_descendant_ast_node (snd (count (ASTNode_new folder num cs)))
    = descendants_visited (snd (count (ASTNode_new folder num cs)))).
  { rewrite count_root_counter, count_value by exact Hbound.
    unfold descendants_visited. rewrite visited_count_length. reflexivity. }
  revert Hroot. rewrite count_unfold. destruct folder; cbn [snd]; intros Hroot.
  - cbn [visited]. constructor; [exact Hroot | constructor].
  - cbn [visited]. constructor; [exact Hroot |].
    rewrite count_children_nodes.
    cbn [visited List.length] in Hbound.
    assert (Hcs : Forall (fun c => Z.of_nat (List.length (visited c))
                                    <= 2 ^ 31) cs).
    { apply visited_bound_children. unfold visited_sum. lia. }
    clear Hroot Hbound.
    induction IH as [| c cs Hc _ IHcs]; [constructor |].
    inversion Hcs as [| ? ? Hb Hbs]; subst.
    cbn [map flat_map]. apply Forall_app. split.
    + apply Hc. exact Hb.
    + apply IHcs. exact Hbs.
Qed.

(** X2: after [count], every node it visited holds in
    [num_descendant_ast_node] the number of its own descendants that were
    visited; in particular a code folder holds 0, and the counter of the
    node [count] was called on is the value returned. *)
Theorem count_annotates_every_node_visited (node : ASTNode) :
  Z.of_nat (List.length (visited node)) <= 2 ^ 31 ->
  Forall
    (fun n =>
       num_descendant_ast_node n = Z.of_nat (List.length (visited n)) - 1 /\
       (is_CodeFolderNode n = true -> num_descendant_ast_node n = 0))
    (visited (snd (count node))) /\
  num_descendant_ast_node (snd (count node)) = fst (count node).
Proof.
  intros Hbound. split; [| apply count_root_counter].
  pose proof (count_counters node Hbound) as H.
  apply Forall_impl with (2 := H).
  intros [folder num cs] Hn. split; [exact Hn |].
  cbn [is_CodeFolderNode]. intros ->. rewrite Hn. reflexivity.
Qed.

(** *** What [count] leaves as it is *)

Lemma count_shape (node : ASTNode) : shape (snd (count node)) = shape node.
Proof.
  induction node as [folder num cs IH] using ASTNode_induction.
  rewrite count_unfold. destruct folder; [reflexivity |].
  cbn [snd shape]. f_equal. rewrite count_children_nodes.
  induction IH as [| c cs Hc _ IHcs]; [reflexivity |].
  cbn [map]. rewrite Hc, IHcs. reflexivity.
Qed.

Lemma count_folded (node : ASTNode) : folded (snd (count node)) = folded node.
Proof.
  induction node as [folder num cs IH] using ASTNode_induction.
  rewrite count_unfold. destruct folder; [reflexivity |].
  cbn [snd folded]. rewrite count_children_nodes.
  induction IH as [| c cs Hc _ IHcs]; [reflexivity |].
  cbn [map flat_map]. rewrite Hc, IHcs. reflexivity.
Qed.

(** X3: [count] changes counters and nothing else, and it does not go
    below a code folder: the tree keeps its shape (the nodes, their order
    and which of them are code folders), and the subtrees below the code
    folders are left exactly as they were, their counters included. *)
Theorem count_changes_only_the_counters_visited (node : ASTNode) :
  shape (snd (count node)) = shape node /\
  folded (snd (count node)) = folded node /\
  map is_CodeFolderNode (visited (snd (count node)))
  = map is_CodeFolderNode (visited node).
Proof.
  split; [apply count_shape | split; [apply count_folded |]].
  induction node as [folder num cs IH] using ASTNode_induction.
  rewrite count_unfold. destruct folder; [reflexivity |].
  cbn [snd visited map is_CodeFolderNode]. f_equal.
  rewrite count_children_nodes.
  induction IH as [| c cs Hc _ IHcs]; [reflexivity |].
  cbn [map flat_map]. rewrite !map_app, Hc, IHcs. reflexivity.
Qed.

(** *** Counting again *)

Lemma app_eq_same_length {A} (xs xs' ys ys' : list A) :
  List.length xs = List.length xs' -> xs ++ ys = xs' ++ ys' ->
  xs = xs' /\ ys = ys'.
Proof.
  revert xs'. induction xs as [| x xs IH]; intros [| x' xs'] Hlen Heq;
    cbn in *; try discriminate.
  - split; [reflexivity | exact Heq].
  - injection Heq as -> Heq. injection Hlen as Hlen.
    destruct (IH xs' Hlen Heq) as [-> ->]. split; reflexivity.
Qed.

Lemma folded_length_shape (a : ASTNode) :
  forall b : ASTNode,
    shape a = shape b -> List.length (folded a) = List.length (folded b).
Proof.
  induction a as [folder num cs IH] using ASTNode_induction.
  intros [folder' num' cs']. cbn [shape folded]. intros H.
  injection H as <- Hcs. destruct folder.
  - rewrite <- (length_map shape cs), Hcs, length_map. reflexivity.
  - revert cs' Hcs.
    induction IH as [| c cs Hc _ IHcs]; intros [| c' cs'] Hcs;
      cbn [map] in Hcs; try discriminate; [reflexivity |].
    injection Hcs as Hc' Hcs. cbn [flat_map]. rewrite !length_app.
    rewrite (Hc c' Hc'), (IHcs cs' Hcs). reflexivity.
Qed.

(** The outcome of [count] is a function of the shape of the tree and of
    the subtrees below its code folders. *)
Lemma count_stale (a : ASTNode) :
  forall b : ASTNode,
    shape a = shape b -> folded a = folded b -> count a = count b.
Proof.
  induction a as [folder num cs IH] using ASTNode_induction.
  intros [folder' num' cs']. cbn [shape folded]. intros Hs Hf.
  injection Hs as <- Hcs. rewrite !count_unfold. destruct folder.
  - rewrite Hf. reflexivity.
  - assert (E : forall accum,
              count_children count cs accum = count_children count cs' accum).
    { revert cs' Hcs Hf.
      induction IH as [| c cs Hc _ IHcs]; intros [| c' cs'] Hcs Hf accum;
        cbn [map] in Hcs; try discriminate; [reflexivity |].
      injection Hcs as Hc' Hcs. cbn [flat_map] in Hf.
      destruct (app_eq_same_length _ _ _ _ (folded_length_shape c c' Hc') Hf)
        as [Hfc Hfcs].
      rewrite !count_children_cons, (Hc c' Hc' Hfc).
      rewrite (IHcs cs' Hcs Hfcs). reflexivity. }
    rewrite E. reflexivity.
Qed.

(** X4: the pass is idempotent, and its outcome does not depend on the
    values the counters of the visited nodes held before: running
    [CountDescendant] on a builder that it has already been run on changes
    nothing, and two trees of the same shape with the same subtrees below
    their code folders come out equal. *)
Theorem CountDescendant_is_idempotent (builder : ASTBuilder) :
  CountDescendant (CountDescendant builder) = CountDescendant builder /\
  (forall stale : ASTBuilder,
     shape (main_node stale) = shape (main_node builder) ->
     folded (main_node stale) = folded (main_node builder) ->
     CountDescendant stale = CountDescendant builder).
Proof.
  split.
  - unfold CountDescendant. cbn [main_node]. f_equal. f_equal.
    apply count_stale; [apply count_shape | apply count_folded].
  - intros stale Hs Hf. unfold CountDescendant. f_equal. f_equal.
    apply count_stale; assumption.
Qed.

(** * The XGBoost frontend helpers *)

Lemma GetPredTransform_unknown (objective_name : string) :
  ~ In objective_name known_objectives ->
  GetPredTransform objective_name
  = Fatal (String.append "Unrecognized XGBoost objective: " objective_name).
Proof.
  intros Hnot. unfold GetPredTransform.
  cbn [existsb exponential_objectives].
  split_objective objective_name;
    try (exfalso; apply Hnot; vm_compute; tauto).
  reflexivity.
Qed.

(** X13: [GetPredTransform] knows eighteen objectives and no other: for
    each of them it returns one of the six transform names, for any other
    string (the names are compared exactly, case included) it throws
    [Unrecognized XGBoost objective: <name>]; and each of the five
    exponential objectives gets [exponential], none of them being taken
    by an earlier test. *)
Theorem GetPredTransform_knows_eighteen_objectives (objective_name : string) :
  (In objective_name known_objectives ->
   exists pred_transform : string,
     GetPredTransform objective_name = Ok pred_transform /\
     In pred_transform pred_transforms) /\
  (~ In objective_name known_objectives ->
   GetPredTransform objective_name
   = Fatal (String.append "Unrecognized XGBoost objective: "
              objective_name)) /\
  (In objective_name exponential_objectives ->
   GetPredTransform objective_name = Ok "exponential") /\
  List.length known_objectives = 18%nat.
Proof.
  split; [| split; [| split]].
  - intros Hin. cbv [known_objectives exponential_objectives app] in Hin.
    cbn [In] in Hin.
    repeat (destruct Hin as [<- | Hin];
            [eexists; split; [reflexivity | vm_compute; tauto] |]).
    contradiction.
  - apply GetPredTransform_unknown.
  - intros Hin. cbv [exponential_objectives] in Hin. cbn [In] in Hin.
    repeat (destruct Hin as [<- | Hin]; [reflexivity |]).
    contradiction.
  - reflexivity.
Qed.

(** X14: which objectives have their base score transformed.  For an
    objective that [GetPredTransform] knows, [TransformBaseScoreToMargin]
    applied to the transform it names turns the base score into
    [-log(1/p - 1)] for the two logistic objectives, into [log(p)] for
    the five exponential objectives, and returns it unchanged for every
    other objective ([binary:logitraw] among them); a transform name that
    is neither [sigmoid] nor [exponential], known or not, leaves the base
    score as it is. *)
Theorem base_score_is_transformed_by_objective
    (std_log : float -> float) (objective_name pred_transform : string)
    (base_score : float) :
  GetPredTransform objective_name = Ok pred_transform ->
  (In objective_name ["reg:logistic"; "binary:logistic"] ->
   TransformBaseScoreToMargin std_log pred_transform base_score
   = PrimFloat.opp
       (std_log (PrimFloat.sub (PrimFloat.div 1%float base_score) 1%float))) /\
  (In objective_name exponential_objectives ->
   TransformBaseScoreToMargin std_log pred_transform base_score
   = std_log base_score) /\
  (~ In objective_name ["reg:logistic"; "binary:logistic"] ->
   ~ In objective_name exponential_objectives ->
   TransformBaseScoreToMargin std_log pred_transform base_score
   = base_score) /\
  (forall other : string,
     other <> "sigmoid" -> other <> "exponential" ->
     TransformBaseScoreToMargin std_log other base_score = base_score).
Proof.
  intros Hget. split; [| split; [| split]].
  - intros Hin. cbn [In] in Hin.
    repeat (destruct Hin as [<- | Hin];
            [vm_compute in Hget; injection Hget as <-; reflexivity |]).
    contradiction.
  - intros Hin. cbv [exponential_objectives] in Hin. cbn [In] in Hin.
    repeat (destruct Hin as [<- | Hin];
            [vm_compute in Hget; injection Hget as <-; reflexivity |]).
    contradiction.
  - intros Hlog Hexp. revert Hget. unfold GetPredTransform.
    cbn [existsb exponential_objectives].
    split_objective objective_name;
      try (exfalso; apply Hlog; vm_compute; tauto);
      try (exfalso; apply Hexp; vm_compute; tauto);
      cbn [orb]; intros Hget; try discriminate Hget;
      injection Hget as <-; reflexivity.
  - intros other Hs He. unfold TransformBaseScoreToMargin.
    destruct (String.eqb_spec other "sigmoid"); [contradiction |].
    destruct (String.eqb_spec other "exponential"); [contradiction |].
    reflexivity.
Qed.

(** * Task types and their names *)


(** * The default legacy parameters *)

Lemma firstn_repeat_le {A} (x : A) (k m : nat) :
  (k <= m)%nat -> firstn k (repeat x m) = repeat x k.
Proof.
  revert m. induction k as [| k IH]; intros m H; [reflexivity |].
  destruct m as [| m]; [lia |]. cbn [repeat firstn]. rewrite IH by lia.
  reflexivity.
Qed.

Lemma skipn_repeat_all {A} (x : A) (m : nat) : skipn m (repeat x m) = [].
Proof. apply skipn_all2. rewrite repeat_length. lia. Qed.

Lemma ModelParamV3_new_name (n : nat) :
  v3_pred_transform (ModelParamV3_new n)
  = firstn n (list_byte_of_string "identity" ++ repeat Byte.x00 n).
Proof.
  unfold ModelParamV3_new, strncpy, memset. cbn [v3_pred_transform].
  rewrite Nat.mul_1_r, skipn_repeat_all, app_nil_r, skipn_repeat_all.
  apply app_nil_r.
Qed.

(** X16: a default-constructed [ModelParamV3] holds the transform name
    [identity] in a buffer of exactly [n] chars: followed by NULs up to
    the end of the buffer when the buffer has more than 8 chars, and cut
    to its first [n] chars, with no terminating NUL, when it has 8 or
    fewer ([strncpy] does not terminate what it truncates). *)
Theorem default_legacy_transform_name (n : nat) :
  List.length (v3_pred_transform (ModelParamV3_new n)) = n /\
  ((8 < n)%nat ->
   v3_pred_transform (ModelParamV3_new n)
   = list_byte_of_string "identity" ++ repeat Byte.x00 (n - 8)) /\
  ((n <= 8)%nat ->
   v3_pred_transform (ModelParamV3_new n)
   = firstn n (list_byte_of_string "identity") /\
   ~ In Byte.x00 (v3_pred_transform (ModelParamV3_new n))).
Proof.
  rewrite ModelParamV3_new_name. split; [| split].
  - rewrite length_firstn, length_app, repeat_length. lia.
  - intros H. rewrite firstn_app.
    change (List.length (list_byte_of_string "identity")) with 8%nat.
    rewrite firstn_all2 by (cbn; lia).
    rewrite firstn_repeat_le by lia. reflexivity.
  - intros H.
    do 9 (destruct n as [| n];
          [split; [reflexivity | cbn; intuition discriminate] |]).
    lia.
Qed.

(** ** The further properties at concrete inputs *)

(** count_returns_the_descendants_visited at the sample tree: of its six
    descendants, the two below the code folder are not counted. *)
Lemma count_returns_witness :
  Z.of_nat (List.length (visited ast_tree)) <= 2 ^ 31 /\
  fst (count ast_tree) = 4 /\ List.length (all_nodes ast_tree) = 7%nat.
Proof.
  assert (Hbound : Z.of_nat (List.length (visited ast_tree)) <= 2 ^ 31)
    by (vm_compute; discriminate).
  split; [exact Hbound |]. split; [| reflexivity].
  rewrite (proj1 (count_returns_the_descendants_visited ast_tree Hbound)).
  reflexivity.
Defined.

(** count_annotates_every_node_visited at the sample tree. *)
Lemma count_annotates_witness :
  Forall
    (fun n =>
       num_descendant_ast_node n = Z.of_nat (List.length (visited n)) - 1 /\
       (is_CodeFolderNode n = true -> num_descendant_ast_node n = 0))
    (visited (snd (count ast_tree))) /\
  num_descendant_ast_node (snd (count ast_tree)) = fst (count ast_tree).
Proof.
  apply (count_annotates_every_node_visited ast_tree).
  vm_compute. discriminate.
Defined.

(** CountDescendant_is_idempotent at the sample tree and the tree with
    other counters. *)
Lemma CountDescendant_witness :
  CountDescendant {| main_node := ast_tree_stale |}
  = CountDescendant {| main_node := ast_tree |}.
Proof.
  apply (proj2 (CountDescendant_is_idempotent {| main_node := ast_tree |})
           {| main_node := ast_tree_stale |});
    reflexivity.
Defined.

(** serialization_restamps_the_model at the model of section 8 with
    stale values in the recomputed members, on the frame transport. *)
Lemma serialization_restamps_witness :
  exists (frames : list PyBufferFrame) (model' : Model),
    (SerializeHeader 4 0 0 256 ;;
     SerializeTrees sample_Numeric_t sample_Node_t sample_format)
      ([], restamped_model) = (Ok tt, (frames, model')) /\
    model' = serialized_model 4 0 0 restamped_model /\
    major_ver_ restamped_model = 7 /\ major_ver_ model' = 4 /\
    num_tree_ restamped_model = 99 /\ num_tree_ model' = 1.
Proof.
  pose (run := (SerializeHeader 4 0 0 256 ;;
                SerializeTrees sample_Numeric_t sample_Node_t sample_format)
                 (([] : list PyBufferFrame), restamped_model)).
  assert (H : run = (Ok tt, (fst (snd run), snd (snd run))))
    by (vm_compute; reflexivity).
  exists (fst (snd run)), (snd (snd run)).
  destruct (serialization_restamps_the_model 4 0 0 256 sample_Numeric_t
              sample_Node_t sample_format _ _ _ _ H)
    as (Hm & Hmajor & _ & _ & Hn & _).
  split; [exact H |]. split; [exact Hm |]. split; [reflexivity |].
  split; [exact Hmajor |]. split; [reflexivity |].
  rewrite Hn, Hm. reflexivity.
Defined.

(** current_header_holds_the_values_read at the header of section 8, past
    its version triple. *)
Lemma current_header_witness :
  exists (model : Model) (rest : list PyBufferFrame),
    DeserializeHeaderAndCreateModel_current 256 sample_Model_Create 4 0 0
      (skipn 3 (map frame_of example_header), [])
    = (Ok model, (rest, [])) /\
    major_ver_ model = 4 /\ variant_ model = variant_ (sample_Model_new 2 2).
Proof.
  pose (run := DeserializeHeaderAndCreateModel_current 256
                 sample_Model_Create 4 0 0
                 (skipn 3 (map frame_of example_header), [])).
  assert (H : run = (Ok (set_num_feature 10
                           (set_task_type 1
                              (set_num_tree_ 1
                                 (set_major_ver_ 4 (sample_Model_new 2 2))))),
                     ([], [])))
    by (vm_compute; reflexivity).
  eexists. eexists. split; [exact H |].
  destruct (current_header_holds_the_values_read 256 sample_Model_Create
              4 0 0 _ _ _ _ H)
    as (th & lo & created & s1 & s2 & s3 & s4 & s5 & s6 & s7 & s8 & s9
        & R1 & R2 & RC & _ & _ & _ & _ & _ & _ & _ & _ & Hmaj & _ & _ & _
        & _ & _ & Hv).
  split; [exact Hmaj | reflexivity].
Defined.

(** unsupported_type_pair_stops_the_header_decoder at an artifact that
    names the pair (uint32, uint32). *)
Lemma unsupported_type_pair_witness :
  DeserializeHeaderAndCreateModel_current 256 sample_Model_Create 4 0 0
    (unsupported_pair_frames, [])
  = (Fatal "Cannot create a model with this pair of types", ([], [])) /\
  DeserializeHeaderAndCreateModelV3 256 sample_Model_Create 3 9 0
    (unsupported_pair_frames, [])
  = (Fatal "Cannot create a model with this pair of types", ([], [])).
Proof.
  split.
  - apply (unsupported_type_pair_stops_the_header_decoder 256
             sample_Model_Create 4 0 0 1 1 unsupported_pair_frames
             (skipn 1 unsupported_pair_frames) [] []
             "Cannot create a model with this pair of types");
      vm_compute; reflexivity.
  - apply (unsupported_type_pair_stops_the_header_decoder 256
             sample_Model_Create 3 9 0 1 1 unsupported_pair_frames
             (skipn 1 unsupported_pair_frames) [] []
             "Cannot create a model with this pair of types");
      vm_compute; reflexivity.
Defined.

(** header_round_trip at the model of section 8, on the frame
    transport, with the frames of its tree after those of its header. *)
Lemma header_round_trip_witness :
  exists decoded : Model,
    DeserializeHeaderAndCreateModel 4 0 256 sample_Model_Create
      (map frame_of
         (artifact_layout 4 0 0 256 sample_Numeric_t sample_Node_t
            sample_format example_model), [])
    = (Ok decoded,
       (map frame_of
          (tree_layout sample_Numeric_t sample_Node_t sample_format 2 2
             example_tree), [])) /\
    num_feature decoded = 10 /\
    task_type decoded = TaskType_value kRegressor /\
    param decoded = sample_ModelParam.
Proof.
  destruct (header_round_trip 4 0 0 256 sample_Model_Create example_model
              (sample_Model_new 2 2)
              (map frame_of
                 (artifact_layout 4 0 0 256 sample_Numeric_t sample_Node_t
                    sample_format example_model))
              (map frame_of
                 (tree_layout sample_Numeric_t sample_Node_t sample_format
                    2 2 example_tree))
              [])
    as (decoded & Hrun & _ & _ & _ & _ & Hnf & Htt & _ & _ & Hp & _).
  - lia.
  - unfold int32_range. lia.
  - unfold int32_range. lia.
  - unfold int32_range. lia.
  - unfold header_wf, TaskParam_wf, ModelParam_wf, uint64_range,
      int32_range, uint8_range, uint32_range.
    cbn. repeat split; lia.
  - unfold uint8_range. cbn. lia.
  - unfold uint8_range. cbn. lia.
  - reflexivity.
  - change (map frame_of
              (artifact_layout 4 0 0 256 sample_Numeric_t sample_Node_t
                 sample_format example_model))
      with (map frame_of (header_layout 4 0 0 256 example_model)
              ++ map frame_of
                   (tree_layout sample_Numeric_t sample_Node_t sample_format
                      2 2 example_tree)).
    apply frames_read_fields. apply header_layout_sized.
  - exists decoded. split; [exact Hrun |].
    rewrite Hnf, Htt, Hp. repeat split; reflexivity.
Defined.

(** legacy_node_count_mismatch_is_fatal at a tree record that declares
    three nodes and carries one, on the byte stream. *)
Lemma legacy_node_count_mismatch_witness :
  DeserializeTreeV3 sample_Numeric_t int8_t int8_t 2 2 sample_Tree_new
    (legacy_short_tree_record, [])
  = (Fatal msg_nodes_not_loaded, ([], [])).
Proof.
  apply (legacy_node_count_mismatch_is_fatal sample_Numeric_t int8_t int8_t
           2 2 sample_Tree_new legacy_short_tree_record
           (skipn 4 legacy_short_tree_record)
           (skipn 5 legacy_short_tree_record) [] [] 3 false
           [reread (NodeV3_t sample_Numeric_t int8_t int8_t 2 2)
              legacy_node]);
    solve [ vm_compute; reflexivity
          | unfold int32_range; lia
          | vm_compute; reflexivity
          | vm_compute; discriminate ].
Defined.

(** legacy_tree_record_is_decoded at the tree record of the 3.9
    checkpoint with one per-tree optional field, on the byte stream. *)
Lemma legacy_tree_record_witness :
  exists tree : Tree,
    DeserializeTreeV3 sample_Numeric_t int8_t int8_t 2 2 sample_Tree_new
      (flat_map bytes_of legacy_extended_tree_record, [])
    = (Ok tree, ([], [])) /\
    num_nodes tree = 1 /\ leaf_vector_ tree = [1065353216; 0; 0] /\
    num_opt_field_per_tree_ tree = 1 /\ nodes_ tree = [].
Proof.
  pose (s := flat_map bytes_of legacy_extended_tree_record).
  destruct (legacy_tree_record_is_decoded sample_Numeric_t int8_t int8_t
              2 2 sample_Tree_new s (skipn 149 s) (skipn 173 s) [] [] []
              1 false [legacy_node] [1065353216; 0; 0] [0] [3] [] [0; 0]
              1 0)
    as [Hrun Hnodes].
  - cbn [legacy_tree_fields read_fields read_field].
    repeat (eexists; split; [vm_compute; reflexivity |]).
    vm_compute. reflexivity.
  - vm_compute. reflexivity.
  - vm_compute. reflexivity.
  - vm_compute. reflexivity.
  - vm_compute. reflexivity.
  - eexists. split; [exact Hrun |].
    split; [reflexivity |]. split; [reflexivity |].
    split; [reflexivity |]. exact Hnodes.
Defined.

(** legacy_trees_never_get_nodes at the trees of the 3.9 checkpoint. *)
Lemma legacy_trees_witness :
  exists model' : Model,
    DeserializeTreesV3 sample_Numeric_t int8_t int8_t sample_Tree_new
      legacy_decoded_header (flat_map bytes_of legacy_tree_record, [])
    = (Ok model', ([], [])) /\
    List.length (trees (variant_ model')) = 1%nat /\
    Forall (fun tree => nodes_ tree = []) (trees (variant_ model')).
Proof.
  pose (run := DeserializeTreesV3 sample_Numeric_t int8_t int8_t
                 sample_Tree_new legacy_decoded_header
                 (flat_map bytes_of legacy_tree_record, [])).
  assert (H : run = (Ok (match fst run with
                         | Ok m => m
                         | Fatal _ => legacy_decoded_header
                         end), ([], [])))
    by (vm_compute; reflexivity).
  eexists. split; [exact H |].
  destruct (legacy_trees_never_get_nodes sample_Numeric_t int8_t int8_t
              sample_Tree_new _ _ _ _ H) as (_ & Hlen & Hnodes).
  split; [exact Hlen | exact Hnodes].
Defined.

(** current_trees_are_new_trees at a model that declares no tree, with
    the frames of a tree record at hand. *)
Lemma current_trees_witness :
  fst (DeserializeTrees sample_Tree_new (set_num_tree_ 0 example_model)
         (map frame_of extended_tree_record, []))
  = Ok (set_variant_ (set_trees [] (variant_ example_model))
          (set_num_tree_ 0 example_model)).
Proof.
  apply (proj2 (current_trees_are_new_trees sample_Tree_new
                  (set_num_tree_ 0 example_model)
                  (map frame_of extended_tree_record, []))).
  cbn. lia.
Defined.

(** optional_fields_are_skipped_one_by_one on frames: a count of -1
    skips nothing, and a count of 2 with one frame left fails at the
    second skip. *)
Lemma optional_fields_witness :
  skip_fields (-1) (map frame_of extended_tree_record, [])
  = (Ok tt, (map frame_of extended_tree_record, [])) /\
  skip_fields 1 (([] : list PyBufferFrame), [])
  = (Fatal msg_no_more_data, ([], [])).
Proof.
  split.
  - apply (proj1 (optional_fields_are_skipped_one_by_one (-1)
                    (map frame_of extended_tree_record) [])).
    lia.
  - apply (proj1 (proj2 (proj2 (optional_fields_are_skipped_one_by_one 1
                                  ([] : list PyBufferFrame) [])))
             msg_no_more_data []).
    + lia.
    + reflexivity.
Defined.

(** entry_points_choose_the_tree_decoder at the 3.9 checkpoint given as
    frames: the header is decoded by the legacy header decoder, the
    frames of the tree record are left unread and the tree is a new
    one. *)
Lemma entry_points_witness :
  CreateFromPyBuffer 4 0 256 sample_Model_Create sample_Tree_new
    legacy_frames
  = (Ok (with_new_trees sample_Tree_new legacy_decoded_header),
     (map frame_of legacy_tree_record, [warn_from_3_9])) /\
  major_ver_ legacy_decoded_header = 3 /\
  trees (variant_ (with_new_trees sample_Tree_new legacy_decoded_header))
  = [sample_Tree_new].
Proof.
  split; [| split; reflexivity].
  apply (proj1 (entry_points_choose_the_tree_decoder 4 0 256
                  sample_Numeric_t int8_t int8_t sample_Model_Create
                  sample_Tree_new legacy_decoded_header [warn_from_3_9])).
  vm_compute. reflexivity.
Defined.

(** GetPredTransform_knows_eighteen_objectives at a name that differs
    from a known one in case only, and at an exponential objective. *)
Lemma GetPredTransform_witness :
  GetPredTransform "Reg:Logistic"
  = Fatal "Unrecognized XGBoost objective: Reg:Logistic" /\
  GetPredTransform "survival:cox" = Ok "exponential".
Proof.
  split.
  - apply (proj1 (proj2 (GetPredTransform_knows_eighteen_objectives
                           "Reg:Logistic"))).
    vm_compute. intuition discriminate.
  - apply (proj1 (proj2 (proj2 (GetPredTransform_knows_eighteen_objectives
                                  "survival:cox")))).
    vm_compute. tauto.
Defined.

(** base_score_is_transformed_by_objective at [binary:logistic] and
    [binary:logitraw], for the base score 0.5 (1/0.5 - 1 is 1). *)
Lemma base_score_witness :
  TransformBaseScoreToMargin sample_log "sigmoid" 0.5%float
  = PrimFloat.opp (sample_log 1%float) /\
  TransformBaseScoreToMargin sample_log "identity" 0.5%float = 0.5%float.
Proof.
  assert (H1 : GetPredTransform "binary:logistic" = Ok "sigmoid")
    by reflexivity.
  assert (H2 : GetPredTransform "binary:logitraw" = Ok "identity")
    by reflexivity.
  split.
  - rewrite (proj1 (base_score_is_transformed_by_objective sample_log
                      "binary:logistic" "sigmoid" 0.5%float H1)).
    + reflexivity.
    + vm_compute. tauto.
  - apply (proj1 (proj2 (proj2 (base_score_is_transformed_by_objective
                                  sample_log "binary:logitraw" "identity"
                                  0.5%float H2)))).
    + vm_compute. intuition discriminate.
    + vm_compute. intuition discriminate.
Defined.


(** default_legacy_transform_name for a buffer of 256 chars and for one
    of 4 chars. *)
Lemma default_legacy_transform_name_witness :
  v3_pred_transform (ModelParamV3_new 256)
  = list_byte_of_string "identity" ++ repeat Byte.x00 248 /\
  v3_pred_transform (ModelParamV3_new 4) = list_byte_of_string "iden".
Proof.
  split.
  - apply (proj1 (proj2 (default_legacy_transform_name 256))). lia.
  - apply (proj2 (proj2 (default_legacy_transform_name 4))). lia.
Defined.
